(** * DataAnalyticsAgent: the ReAct orchestration core

    A shallow embedding of [scr/memory.py] and [scr/agent.py]:
    the bounded conversation memory, the gateway around the model call
    with its retry loop, tool dispatch, result summaries and the main
    loop of [DataAnalyticsAgent.run].

    Conventions of the embedding.
    - Python values are the JSON-shaped universe [pyval]; dictionaries are
      insertion-ordered association lists with string keys.
    - A Python [str] is a [string] whose characters stand for code points
      below 256; [len], slicing and [in] count characters.
    - An exception is its class name and its message ([str(e)]).  A value
      of [res] returns or raises an exception of class [Exception], which
      an [except Exception] clause catches.  Code that runs arbitrary
      Python (a tool handler, generated code under [exec]) can also be
      left by an exception outside that class, such as the [SystemExit] of
      [sys.exit()]; this is the third case of [outcome], and no clause of
      the program catches it.  The model client, the parser and the
      prompt builders are library calls that raise exceptions of class
      [Exception] only; an interrupt from outside ([KeyboardInterrupt])
      is not modelled.
    - Code that touches the agent or the outside world runs in the monad
      [M] over [state].  Side effects made before an exception are kept,
      as in Python.
    - The outside world (the model service, the dataset store, the clock)
      is an abstract type [W]; the model client and the tool handlers are
      arbitrary functions over it.
    - [retry_delay] is a float, as its annotation says, and finite; it is
      given as the rational it denotes.  A product
      [retry_delay * 2 ** attempt] is exact in binary floating point as
      long as it stays in range, and beyond the range it is [inf]; the
      conversion of [2 ** attempt] to a float fails from [2 ** 1024] on.
      Which lengths [time.sleep] accepts depends on the platform and is a
      parameter.
    - Logging and printing are not part of the state; the one place where
      printing can raise ([_print_step] iterating [parameters.items()]) is
      kept. *)

From Stdlib Require Import ZArith String Ascii List Lia.
From Stdlib Require QArith DecimalString.
From stdpp Require Import gmap strings list.

Local Set Warnings "-register-all".
Local Open Scope string_scope.
Local Open Scope list_scope.
Local Open Scope Z_scope.

Abbreviation Q := QArith_base.Q.

(** ** Strings *)

Module Str.

Definition nl : string := String (ascii_of_nat 10) EmptyString.

(** [str.lower] on code points below 256: A-Z and the Latin-1 capitals. *)
Definition is_upper (c : ascii) : bool :=
  let n := nat_of_ascii c in
  ((65 <=? n) && (n <=? 90) || (192 <=? n) && (n <=? 222) && negb (n =? 215))%nat.

Definition lower_char (c : ascii) : ascii :=
  if is_upper c then ascii_of_nat (nat_of_ascii c + 32) else c.

Fixpoint lower (s : string) : string :=
  match s with
  | EmptyString => EmptyString
  | String c s' => String (lower_char c) (lower s')
  end.

(** [pat in s] for strings. *)
Fixpoint contains (pat s : string) : bool :=
  if String.prefix pat s then true
  else match s with
       | EmptyString => false
       | String _ s' => contains pat s'
       end.

(** [s.find(pat, start)], with [-1] when [pat] does not occur. *)
Definition find (pat s : string) (start : nat) : Z :=
  match String.index start pat s with
  | Some i => Z.of_nat i
  | None => -1
  end.

(** [s[start:stop]] for [0 <= start] and [0 <= stop]. *)
Definition slice (s : string) (start stop : nat) : string :=
  String.substring start (stop - start) s.

(** [s[:n]]. *)
Definition take (n : nat) (s : string) : string := String.substring 0 n s.

(** Characters removed by [str.strip()]. *)
Definition is_space (c : ascii) : bool :=
  let n := nat_of_ascii c in
  ((9 <=? n) && (n <=? 13) || (28 <=? n) && (n <=? 32) || (n =? 133) || (n =? 160))%nat.

Fixpoint lstrip (s : string) : string :=
  match s with
  | EmptyString => EmptyString
  | String c s' => if is_space c then lstrip s' else s
  end.

Fixpoint rstrip (s : string) : string :=
  match s with
  | EmptyString => EmptyString
  | String c s' =>
      match rstrip s' with
      | EmptyString => if is_space c then EmptyString else String c EmptyString
      | r => String c r
      end
  end.

Definition strip (s : string) : string := rstrip (lstrip s).

(** ["\n".join(parts)]. *)
Fixpoint join (sep : string) (parts : list string) : string :=
  match parts with
  | [] => EmptyString
  | [p] => p
  | p :: rest => p +:+ sep +:+ join sep rest
  end.

Fixpoint replicate (n : nat) (c : ascii) : string :=
  match n with
  | O => EmptyString
  | S n' => String c (replicate n' c)
  end.

End Str.

(** ** Python values *)

Inductive pyval : Type :=
| PNone
| PBool (b : bool)
| PInt (z : Z)
| PFloat (q : Q)
| PStr (s : string)
| PList (l : list pyval)
| PDict (kvs : list (string * pyval)).

Record exn : Type := Exn { exn_type : string; exn_msg : string }.

Inductive res (A : Type) : Type :=
| Ok (a : A)
| Raise (e : exn).
Arguments Ok {A} a.
Arguments Raise {A} e.

Definition TypeError (msg : string) : exn := Exn "TypeError" msg.
Definition AttributeError (msg : string) : exn := Exn "AttributeError" msg.
Definition KeyError (msg : string) : exn := Exn "KeyError" msg.
Definition ValueError (msg : string) : exn := Exn "ValueError" msg.
Definition RuntimeError (msg : string) : exn := Exn "RuntimeError" msg.
Definition OverflowError (msg : string) : exn := Exn "OverflowError" msg.

(** [SystemExit(code)], which is not of class [Exception]. *)
Definition SystemExit (code : string) : exn := Exn "SystemExit" code.

(** What a call of arbitrary Python comes to: a value or an exception of
    class [Exception], or an exception outside that class, which passes
    every [except Exception]. *)
Inductive outcome (A : Type) : Type :=
| Done (r : res A)
| Escaped (e : exn).
Arguments Done {A} r.
Arguments Escaped {A} e.
Coercion Done : res >-> outcome.

(** The components of a pair are read at the types the pair is to have. *)
#[local] Arguments pair {A B}%_type_scope & a b.

Module Py.

Definition type_name (v : pyval) : string :=
  match v with
  | PNone => "NoneType"
  | PBool _ => "bool"
  | PInt _ => "int"
  | PFloat _ => "float"
  | PStr _ => "str"
  | PList _ => "list"
  | PDict _ => "dict"
  end.

(** Truth value, as tested by [if v] and [not v]. *)
Definition truthy (v : pyval) : bool :=
  match v with
  | PNone => false
  | PBool b => b
  | PInt z => negb (z =? 0)
  | PFloat q => negb (QArith_base.Qnum q =? 0)
  | PStr s => negb (String.eqb s EmptyString)
  | PList l => match l with [] => false | _ => true end
  | PDict kvs => match kvs with [] => false | _ => true end
  end.

(** [v == "lit"]: only a [str] equals a string literal. *)
Definition eq_str (v : pyval) (lit : string) : bool :=
  match v with
  | PStr s => String.eqb s lit
  | _ => false
  end.

Definition is_dict (v : pyval) : bool :=
  match v with PDict _ => true | _ => false end.

(** Values a [dict] accepts as keys. *)
Definition hashable (v : pyval) : bool :=
  match v with PList _ | PDict _ => false | _ => true end.

Fixpoint lookup (key : string) (kvs : list (string * pyval)) : option pyval :=
  match kvs with
  | [] => None
  | (k, v) :: rest => if String.eqb k key then Some v else lookup key rest
  end.

(** [d[key] = x] on the items of a dictionary: an existing key keeps its
    position, a new key goes last. *)
Fixpoint store (key : string) (x : pyval) (kvs : list (string * pyval))
  : list (string * pyval) :=
  match kvs with
  | [] => [(key, x)]
  | (k, v) :: rest =>
      if String.eqb k key then (k, x) :: rest else (k, v) :: store key x rest
  end.

(** ["lit" in v]. *)
Definition contains (lit : string) (v : pyval) : res bool :=
  match v with
  | PDict kvs => Ok (match lookup lit kvs with Some _ => true | None => false end)
  | PList l => Ok (existsb (fun x => eq_str x lit) l)
  | PStr s => Ok (Str.contains lit s)
  | _ => Raise (TypeError ("argument of type '" +:+ type_name v +:+ "' is not iterable"))
  end.

(** [v["lit"]]. *)
Definition getitem (v : pyval) (lit : string) : res pyval :=
  match v with
  | PDict kvs =>
      match lookup lit kvs with
      | Some x => Ok x
      | None => Raise (KeyError ("'" +:+ lit +:+ "'"))
      end
  | PList _ => Raise (TypeError "list indices must be integers or slices, not str")
  | PStr _ => Raise (TypeError "string indices must be integers")
  | _ => Raise (TypeError ("'" +:+ type_name v +:+ "' object is not subscriptable"))
  end.

(** [v["lit"] = x], returning the updated object. *)
Definition setitem (v : pyval) (lit : string) (x : pyval) : res pyval :=
  match v with
  | PDict kvs => Ok (PDict (store lit x kvs))
  | PList _ => Raise (TypeError "list indices must be integers or slices, not str")
  | _ => Raise (TypeError ("'" +:+ type_name v +:+ "' object does not support item assignment"))
  end.

(** [v.get("lit", default)]. *)
Definition get (v : pyval) (lit : string) (default : pyval) : res pyval :=
  match v with
  | PDict kvs => Ok (match lookup lit kvs with Some x => x | None => default end)
  | _ => Raise (AttributeError ("'" +:+ type_name v +:+ "' object has no attribute 'get'"))
  end.

(** [v[:n]]. *)
Definition take (n : nat) (v : pyval) : res pyval :=
  match v with
  | PStr s => Ok (PStr (Str.take n s))
  | PList l => Ok (PList (firstn n l))
  | PDict _ => Raise (TypeError "unhashable type: 'slice'")
  | _ => Raise (TypeError ("'" +:+ type_name v +:+ "' object is not subscriptable"))
  end.

(** [l[start:]] on a list, for any integer [start]. *)
Definition slice_from {A : Type} (start : Z) (l : list A) : list A :=
  let len := Z.of_nat (length l) in
  let start' := if start <? 0 then Z.max 0 (start + len) else Z.min start len in
  skipn (Z.to_nat start') l.

End Py.

Declare Scope res_scope.
Delimit Scope res_scope with res.
Notation "'let?' x ':=' r 'in' k" :=
  (match r with Ok x => k | Raise e => Raise e end)
  (at level 10, x name, r at level 100, k at level 200) : res_scope.
Local Open Scope res_scope.

(** ** What the interpreter and the libraries provide

    [repr] is the built-in [repr] on non-string values, [json_loads] is
    [json.loads] (an exception of class [JSONDecodeError] for text that is
    not JSON), [time_sleep] is [time.sleep] on a float: it returns after
    the wait, or raises ([ValueError] for a negative length,
    [OverflowError] or [OSError] for a length the platform cannot wait
    for; a length beyond the range of floats stands for [inf]).  All are
    parameters: nothing below depends on how values are printed or parsed,
    or on which lengths can be waited for. *)

Record Builtins : Type := {
  repr : pyval -> string;
  json_loads : string -> res pyval;
  time_sleep : Q -> res unit
}.

(** [str(v)], also what an f-string does with [{v}]. *)
Definition str (B : Builtins) (v : pyval) : string :=
  match v with
  | PStr s => s
  | _ => repr B v
  end.

(** ** scr/memory.py *)

Record Turn : Type := {
  query : string;
  thought : pyval;
  action : pyval;
  parameters : pyval;
  result : string
}.

(** [collections.deque(maxlen=n).append(x)]: append on the right, then drop
    from the left while the bound is exceeded. *)
Definition deque_append {A : Type} (maxlen : nat) (d : list A) (x : A) : list A :=
  let d' := d ++ [x] in
  if (maxlen <? length d')%nat then tail d' else d'.

Record ConversationMemory : Type := {
  max_turns : nat;
  turns : list Turn
}.

(** [ConversationMemory(max_turns)]; [deque] rejects a negative bound. *)
Definition new_memory (max_turns : Z) : res ConversationMemory :=
  if max_turns <? 0 then Raise (ValueError "maxlen must be non-negative")
  else Ok {| max_turns := Z.to_nat max_turns; turns := [] |}.

Definition default_memory : ConversationMemory :=
  {| max_turns := 50; turns := [] |}.

Definition add_turn (m : ConversationMemory) (query : string)
    (thought action action_params : pyval) (result : string) : ConversationMemory :=
  {| max_turns := max_turns m;
     turns := deque_append (max_turns m) (turns m)
                {| query := query; thought := thought; action := action;
                   parameters := action_params; result := result |} |}.

Definition clear (m : ConversationMemory) : ConversationMemory :=
  {| max_turns := max_turns m; turns := [] |}.

(** [add_turn] with the five fields of a turn, and a sequence of calls. *)
Definition push (m : ConversationMemory) (t : Turn) : ConversationMemory :=
  add_turn m (query t) (thought t) (action t) (parameters t) (result t).

Definition push_all (m : ConversationMemory) (ts : list Turn) : ConversationMemory :=
  fold_left push ts m.

(** [list(self.turns)[-last_n:]] *)
Definition recent (m : ConversationMemory) (last_n : Z) : list Turn :=
  Py.slice_from (- last_n) (turns m).

Definition no_history : string :=
  "## Recent Context" +:+ Str.nl +:+ Str.nl +:+ "No previous conversation.".

Section Rendering.
Context (B : Builtins).

(** The four lines one turn adds to [parts]. *)
Definition render_turn (i : Z) (t : Turn) : res (list string) :=
  let? th := Py.take 200 (thought t) in
  Ok [ "**Turn " +:+ str B (PInt i) +:+ ":**";
       "- Thought: " +:+ str B th +:+ "...";
       "- Action: " +:+ str B (action t);
       "- Result: " +:+ Str.take 300 (result t) +:+ "..." +:+ Str.nl ].

(** The body of [for i, turn in enumerate(recent, 1)]. *)
Fixpoint render_turns (i : Z) (ts : list Turn) : res (list string) :=
  match ts with
  | [] => Ok []
  | t :: rest =>
      let? ps := render_turn i t in
      let? qs := render_turns (i + 1) rest in
      Ok (ps ++ qs)
  end.

Definition get_recent_context (m : ConversationMemory) (last_n : Z) : res string :=
  match turns m with
  | [] => Ok no_history
  | _ =>
      let? rendered := render_turns 1 (recent m last_n) in
      Ok (Str.join Str.nl (("## Recent Context" +:+ Str.nl) :: rendered))
  end.

End Rendering.

(** ** The agent and its surroundings *)

(** What the agent does to the outside, in order. *)
Inductive event : Type :=
| EvGenerate (prompt : string)
    (* self.llm.generate_content(prompt, ...) *)
| EvSleep (seconds : Q)
    (* time.sleep(wait_time) *)
| EvExecute (tool : string) (kwargs : list (string * pyval)).
    (* self.tools[tool].execute, called with the keyword arguments kwargs *)

(** The number of model calls in a trace. *)
Fixpoint generate_count (evs : list event) : nat :=
  match evs with
  | [] => 0
  | EvGenerate _ :: rest => S (generate_count rest)
  | _ :: rest => generate_count rest
  end.

(** The number of tool calls in a trace. *)
Fixpoint execute_count (evs : list event) : nat :=
  match evs with
  | [] => 0
  | EvExecute _ _ :: rest => S (execute_count rest)
  | _ :: rest => execute_count rest
  end.

Section Agent.
Context {W : Type}.

(** scr/tools/base.py: a tool is its description and its [execute]
    handler, which may read and change the world, return any value,
    raise an exception or exit. [call_name] is how the interpreter names
    the handler in the error of a failed call. *)
Record BaseTool : Type := {
  name : string;
  description : string;
  parameters_schema : pyval;
  call_name : string;
  execute : list (string * pyval) -> W -> outcome pyval * W
}.

(** The fields [__init__] sets from its arguments, and the registry. *)
Record DataAnalyticsAgent : Type := {
  llm : string -> W -> res string * W;
    (* generate_content(prompt, ...).text, or the exception either raises *)
  max_iterations : Z;
  verbose : bool;
  retry_delay : Q;
  max_retries : Z;
  tools : gmap string BaseTool
}.

(** Collaborators of the loop that are plain I/O wrappers. *)
Record Collaborators : Type := {
  build_agent_prompt : gmap string BaseTool -> W -> Z -> res string;
    (* prompts.build_agent_prompt(tools, _DATASET_STORE, max_iterations) *)
  update_datasets : W -> W
    (* self.executor.update_datasets(_DATASET_STORE) *)
}.

(** The mutable part: the world, [self.memory], and the events so far. *)
Record state : Type := {
  world : W;
  memory : ConversationMemory;
  trace : list event
}.

Definition M (A : Type) : Type := state -> outcome A * state.

Definition ret {A : Type} (a : A) : M A := fun st => (Ok a, st).
Definition raise {A : Type} (e : exn) : M A := fun st => (Raise e, st).
Definition lift {A : Type} (r : res A) : M A := fun st => (Done r, st).

Definition bind {A B : Type} (m : M A) (k : A -> M B) : M B :=
  fun st =>
    match m st with
    | (Done (Ok a), st') => k a st'
    | (Done (Raise e), st') => (Raise e, st')
    | (Escaped e, st') => (Escaped e, st')
    end.

(** [try: m  except Exception as e: h e].  An exception outside
    [Exception] is not caught. *)
Definition try_except {A : Type} (m : M A) (h : exn -> M A) : M A :=
  fun st =>
    match m st with
    | (Done (Ok a), st') => (Ok a, st')
    | (Done (Raise e), st') => h e st'
    | (Escaped e, st') => (Escaped e, st')
    end.

(** [try: x = m  except Exception as e: return ...]: the outcome of [m]
    as a value, for a handler that leaves the function. *)
Definition attempt {A : Type} (m : M A) : M (res A) :=
  fun st =>
    match m st with
    | (Done r, st') => (Ok r, st')
    | (Escaped e, st') => (Escaped e, st')
    end.

Definition emit (ev : event) : M unit :=
  fun st => (Ok tt, {| world := world st; memory := memory st;
                       trace := trace st ++ [ev] |}).

End Agent.

Arguments BaseTool W : clear implicits.
Arguments DataAnalyticsAgent W : clear implicits.
Arguments Collaborators W : clear implicits.
Arguments state W : clear implicits.
Arguments M W A : clear implicits.

Declare Scope agent_scope.
Delimit Scope agent_scope with agent.
Notation "'let*' x ':=' m 'in' k" :=
  (bind m (fun x => k))
  (at level 10, x name, m at level 100, k at level 200) : agent_scope.
Notation "m ';;' k" :=
  (bind m (fun _ => k))
  (at level 100, k at level 200, right associativity) : agent_scope.

Section Run.
Context {W : Type} (B : Builtins) (C : Collaborators W) (self : DataAnalyticsAgent W).

Local Open Scope agent_scope.

(** [time.sleep(seconds)] *)
Definition sleep (seconds : Q) : M W unit :=
  lift (time_sleep B seconds) ;; emit (EvSleep seconds).

(** [self.llm.generate_content(prompt, ...)] and [response.text]. *)
Definition generate_content (prompt : string) : M W string :=
  fun st =>
    let '(r, w') := llm self prompt (world st) in
    (Done r, {| world := w'; memory := memory st;
                trace := trace st ++ [EvGenerate prompt] |}).

(** The state one model call leaves behind, whatever the call yields. *)
Definition called (prompt : string) (st : state W) : state W :=
  {| world := snd (llm self prompt (world st)); memory := memory st;
     trace := trace st ++ [EvGenerate prompt] |}.

(** The state after a completed wait. *)
Definition slept (seconds : Q) (st : state W) : state W :=
  {| world := world st; memory := memory st;
     trace := trace st ++ [EvSleep seconds] |}.

(** Lines 272-286 of [_call_llm]: parse, with one fallback to a fenced
    block. *)
Definition parse_response (content : string) : res pyval :=
  match json_loads B content with
  | Ok parsed => Ok parsed
  | Raise e =>
      if String.eqb (exn_type e) "JSONDecodeError" then
        if Str.contains "```json" content then
          let start := Str.find "```json" content 0 + 7 in
          let end_ := Str.find "```" content (Z.to_nat start) in
          if negb (end_ =? -1) then
            let json_str := Str.strip (Str.slice content (Z.to_nat start) (Z.to_nat end_)) in
            json_loads B json_str
          else Raise (RuntimeError ("Invalid JSON: " +:+ Str.take 200 content))
        else Raise (RuntimeError ("Failed to parse: " +:+ Str.take 200 content))
      else Raise e
  end.

(** Lines 288-302 of [_call_llm]: required fields, default parameters,
    and the answer of a [DONE] decision. *)
Definition validate (parsed : pyval) : res pyval :=
  let? has_thought := Py.contains "thought" parsed in
  let? missing :=
    (if negb has_thought then Ok true
     else let? has_action := Py.contains "action" parsed in Ok (negb has_action)) in
  if (missing : bool) then Raise (RuntimeError ("Missing fields: " +:+ str B parsed))
  else
    let? has_parameters := Py.contains "parameters" parsed in
    let? parsed :=
      (if negb has_parameters then Py.setitem parsed "parameters" (PDict [])
       else Ok parsed) in
    let? act := Py.getitem parsed "action" in
    if Py.eq_str act "DONE" then
      let? params := Py.getitem parsed "parameters" in
      let? in_params := Py.contains "answer" params in
      if negb in_params then
        let? at_top := Py.contains "answer" parsed in
        if (at_top : bool) then
          let? answer := Py.getitem parsed "answer" in
          let? params' := Py.setitem params "answer" answer in
          Py.setitem parsed "parameters" params'
        else Ok parsed
      else Ok parsed
    else Ok parsed.

Definition _call_llm (prompt : string) : M W pyval :=
  try_except
    (let* content := generate_content prompt in
     let* parsed := lift (parse_response content) in
     lift (validate parsed))
    (fun e => raise (RuntimeError ("LLM error: " +:+ exn_msg e))).

(** The test on line 208. *)
Definition is_rate_limit (error_msg : string) : bool :=
  Str.contains "429" error_msg || Str.contains "quota" error_msg
  || Str.contains "rate limit" error_msg.

(** The product [retry_delay * 2 ^ attempt]. *)
Definition backoff (attempt : Z) : Q :=
  QArith_base.Qmult (retry_delay self) (QArith_base.inject_Z (2 ^ attempt)).

(** [self.retry_delay * (2 ** attempt)] on line 211: the int is made a
    float before the product is taken, which fails from [2 ** 1024] on. *)
Definition wait_time (attempt : Z) : res Q :=
  if 1024 <=? attempt
  then Raise (OverflowError "int too large to convert to float")
  else Ok (backoff attempt).

Definition rate_limit_exceeded : exn :=
  RuntimeError ("Rate limit exceeded after " +:+ str B (PInt (max_retries self))
                +:+ " attempts. Please wait and try again.").

(** [for attempt in range(self.max_retries)], with [left] attempts to go. *)
Fixpoint retry_loop (left : nat) (attempt : Z) (prompt : string) : M W pyval :=
  match left with
  | O => raise (RuntimeError "Failed to call LLM after all retries")
  | S left' =>
      try_except (_call_llm prompt)
        (fun e =>
           let error_msg := Str.lower (exn_msg e) in
           if is_rate_limit error_msg then
             if attempt <? max_retries self - 1 then
               let* seconds := lift (wait_time attempt) in
               sleep seconds ;;
               retry_loop left' (attempt + 1) prompt
             else raise rate_limit_exceeded
           else raise e)
  end.

Definition _call_llm_with_retry (prompt : string) : M W pyval :=
  retry_loop (Z.to_nat (max_retries self)) 0 prompt.

(** The events of [k] consecutive attempts, the first with number
    [attempt]: one model call each, and a wait between two calls. *)
Fixpoint attempt_events (prompt : string) (attempt : Z) (k : nat) : list event :=
  match k with
  | O => []
  | S O => [EvGenerate prompt]
  | S k' =>
      EvGenerate prompt :: EvSleep (backoff attempt)
        :: attempt_events prompt (attempt + 1) k'
  end.

(** The wait after attempt [attempt], lines 211 to 217: the length
    waited for, or the exception of the product or of [time.sleep]. *)
Definition waited (attempt : Z) : res Q :=
  let? seconds := wait_time attempt in
  let? done := time_sleep B seconds in
  Ok seconds.

Definition _build_context_prompt (user_query : string) (current_iteration : Z)
  : M W string :=
  fun st =>
    (Done
       (let? base_prompt :=
          build_agent_prompt C (tools self) (world st) (max_iterations self) in
        let? recent_context := get_recent_context B (memory st) 3 in
        Ok (base_prompt +:+ Str.nl +:+ Str.nl
            +:+ recent_context +:+ Str.nl +:+ Str.nl
            +:+ "## Current Iteration: " +:+ str B (PInt current_iteration)
            +:+ " / " +:+ str B (PInt (max_iterations self)) +:+ Str.nl +:+ Str.nl
            +:+ "## Current User Query" +:+ Str.nl +:+ Str.nl
            +:+ user_query +:+ Str.nl +:+ Str.nl
            +:+ "Remember: Respond with valid JSON only!" +:+ Str.nl)),
     st).

Definition tool_not_found (tool_name : pyval) : pyval :=
  PDict [("status", PStr "error");
         ("error_message", PStr ("Tool '" +:+ str B tool_name +:+ "' not found"))].

Definition tool_error (e : exn) : pyval :=
  PDict [("status", PStr "error");
         ("error_message", PStr ("Tool error: " +:+ exn_msg e))].

(** The call of [tool.execute] with [parameters] unpacked as keyword
    arguments: only a mapping can be unpacked. *)
Definition call_execute (key : string) (tool : BaseTool W) (parameters : pyval)
  : M W pyval :=
  match parameters with
  | PDict kwargs =>
      fun st =>
        let '(r, w') := execute tool kwargs (world st) in
        (r, {| world := w'; memory := memory st;
               trace := trace st ++ [EvExecute key kwargs] |})
  | _ => raise (TypeError (call_name tool +:+ "() argument after ** must be a mapping, not "
                           +:+ Py.type_name parameters))
  end.

(** The state a handler call leaves behind when the handler leaves the
    world as [w']. *)
Definition executed (key : string) (kwargs : list (string * pyval)) (w' : W)
    (st : state W) : state W :=
  {| world := w'; memory := memory st;
     trace := trace st ++ [EvExecute key kwargs] |}.

Definition _execute_tool (tool_name parameters : pyval) : M W pyval :=
  if negb (Py.hashable tool_name)
  then raise (TypeError ("unhashable type: '" +:+ Py.type_name tool_name +:+ "'"))
  else
    match tool_name with
    | PStr key =>
        match tools self !! key with
        | None => ret (tool_not_found tool_name)
        | Some tool =>
            try_except (call_execute key tool parameters)
              (fun e => ret (tool_error e))
        end
    | _ => ret (tool_not_found tool_name)
    end.

Definition _update_executor_datasets : M W unit :=
  fun st => (Ok tt, {| world := update_datasets C (world st);
                       memory := memory st; trace := trace st |}).

Definition _summarize_result (result : pyval) : res string :=
  let? status := Py.get result "status" PNone in
  if Py.eq_str status "error" then
    let? msg := Py.get result "error_message" (PStr "Unknown") in
    Ok ("Error: " +:+ str B msg)
  else
    let? r := Py.get result "result" (PStr EmptyString) in
    let result_str := str B r in
    if (500 <? String.length result_str)%nat
    then Ok (Str.take 500 result_str +:+ "...")
    else Ok result_str.

(** [_print_step] writes to the terminal; it raises when [parameters] is
    true but has no [items]. *)
Definition _print_step (parameters : pyval) : res unit :=
  if negb (verbose self) then Ok tt
  else if Py.truthy parameters then
    match parameters with
    | PDict _ => Ok tt
    | _ => Raise (AttributeError ("'" +:+ Py.type_name parameters
                                  +:+ "' object has no attribute 'items'"))
    end
  else Ok tt.

(** Step 6 of the loop. *)
Definition track_visualizations (action result : pyval) (visualizations : list pyval)
  : res (list pyval) :=
  if Py.eq_str action "visualize" then
    let? status := Py.get result "status" PNone in
    if Py.eq_str status "success" then
      let? data := Py.get result "data" (PDict []) in
      match data with
      | PDict kvs =>
          match Py.lookup "filepath" kvs with
          | Some filepath =>
              let chart_type :=
                match Py.lookup "chart_type" kvs with
                | Some c => c
                | None => PStr "chart"
                end in
              Ok (visualizations ++
                    [PDict [("filepath", filepath); ("chart_type", chart_type)]])
          | None => Ok visualizations
          end
      | _ => Ok visualizations
      end
    else Ok visualizations
  else Ok visualizations.

Definition memory_add_turn (user_query : string) (thought action parameters : pyval)
    (result_summary : string) : M W unit :=
  fun st => (Ok tt, {| world := world st;
                       memory := add_turn (memory st) user_query thought action
                                   parameters result_summary;
                       trace := trace st |}).

(** The state at the end of an iteration that recorded a turn. *)
Definition recorded (user_query : string) (thought action parameters : pyval)
    (result_summary : string) (st : state W) : state W :=
  {| world := update_datasets C (world st);
     memory := add_turn (memory st) user_query thought action parameters
                 result_summary;
     trace := trace st |}.

Definition prompt_error (e : exn) (iterations : Z) : pyval :=
  PDict [("status", PStr "error");
         ("error_message", PStr ("Prompt error: " +:+ exn_msg e));
         ("iterations", PInt iterations)].

Definition llm_error (e : exn) (iterations : Z) : pyval :=
  PDict [("status", PStr "error");
         ("error_message", PStr ("LLM error: " +:+ exn_msg e));
         ("iterations", PInt iterations)].

Definition no_answer (iterations : Z) : pyval :=
  PDict [("status", PStr "error");
         ("error_message", PStr "Agent finished without answer");
         ("iterations", PInt iterations)].

Definition success (final_answer : pyval) (visualizations : list pyval)
    (iterations : Z) (conversation_history : list pyval) : pyval :=
  PDict [("status", PStr "success");
         ("answer", final_answer);
         ("visualizations", PList visualizations);
         ("iterations", PInt iterations);
         ("conversation_history", PList conversation_history)].

Definition budget_exhausted (iterations : Z) (conversation_history : list pyval) : pyval :=
  PDict [("status", PStr "error");
         ("error_message",
          PStr ("Did not complete within " +:+ str B (PInt (max_iterations self))
                +:+ " iterations"));
         ("iterations", PInt iterations);
         ("conversation_history", PList conversation_history)].

Definition history_entry (iterations : Z) (thought action parameters result : pyval)
  : pyval :=
  PDict [("iteration", PInt iterations); ("thought", thought); ("action", action);
         ("parameters", parameters); ("result", result)].

(** Steps 3 to 9 of one iteration, after the model has answered: either
    the value [run] returns, or the locals of the next iteration. *)
Definition act (user_query : string) (iterations : Z)
    (visualizations conversation_history : list pyval) (llm_response : pyval)
  : M W (pyval + list pyval * list pyval) :=
  let* thought := lift (Py.get llm_response "thought" (PStr EmptyString)) in
  let* action := lift (Py.get llm_response "action" (PStr EmptyString)) in
  let* parameters := lift (Py.get llm_response "parameters" (PDict [])) in
  lift (if verbose self then _print_step parameters else Ok tt) ;;
  if Py.eq_str action "DONE" then
    let* final_answer := lift (Py.get parameters "answer" (PStr EmptyString)) in
    if negb (Py.truthy final_answer) then ret (inl (no_answer iterations))
    else ret (inl (success final_answer visualizations iterations conversation_history))
  else
    let* result := _execute_tool action parameters in
    lift (_summarize_result result) ;;
    let* visualizations := lift (track_visualizations action result visualizations) in
    _update_executor_datasets ;;
    let* result_summary := lift (_summarize_result result) in
    memory_add_turn user_query thought action parameters result_summary ;;
    ret (inr (visualizations,
              conversation_history
                ++ [history_entry iterations thought action parameters result])).

(** The [while iterations < self.max_iterations] loop.  [iterations] starts
    at 0 and grows by one per pass, so the guard holds exactly while
    [left = max_iterations - iterations] passes remain. *)
Fixpoint run_loop (left : nat) (user_query : string) (iterations : Z)
    (visualizations conversation_history : list pyval) : M W pyval :=
  match left with
  | O => ret (budget_exhausted iterations conversation_history)
  | S left' =>
      let iterations := iterations + 1 in
      let* built := attempt (_build_context_prompt user_query iterations) in
      match built with
      | Raise e => ret (prompt_error e iterations)
      | Ok agent_prompt =>
          let* answered := attempt (_call_llm_with_retry agent_prompt) in
          match answered with
          | Raise e => ret (llm_error e iterations)
          | Ok llm_response =>
              let* next := act user_query iterations visualizations
                             conversation_history llm_response in
              match next with
              | inl returned => ret returned
              | inr (visualizations', conversation_history') =>
                  run_loop left' user_query iterations visualizations'
                    conversation_history'
              end
          end
      end
  end.

Definition run (user_query : string) : M W pyval :=
  run_loop (Z.to_nat (max_iterations self)) user_query 0 [] [].

End Run.

(** ** Vocabulary for the properties *)

(** The answer a [DONE] decision carries: [parameters.answer] when the
    mapping [p] has one, else the top-level [answer] of the response [d]. *)
Definition carried_answer (d p : list (string * pyval)) : option pyval :=
  match Py.lookup "answer" p with
  | Some a => Some a
  | None => Py.lookup "answer" d
  end.

(** A missing answer reads as the empty string, as [get("answer", "")] does. *)
Definition answer_or_empty (a : option pyval) : pyval :=
  match a with
  | Some x => x
  | None => PStr EmptyString
  end.

(** [result.get("status") == "error"] on the items of a result. *)
Definition is_error (r : list (string * pyval)) : bool :=
  match Py.lookup "status" r with
  | Some status => Py.eq_str status "error"
  | None => false
  end.

(** Values that [v[:200]] accepts. *)
Definition sliceable (v : pyval) : bool :=
  match v with
  | PStr _ | PList _ => true
  | _ => false
  end.

(** What a handler may hand back under the signature of
    [BaseTool.execute]: a dictionary, or an exception of class
    [Exception]. *)
Definition returns_dict (r : outcome pyval) : Prop :=
  match r with
  | Done (Ok v) => Py.is_dict v = true
  | Done (Raise _) => True
  | Escaped _ => False
  end.

(** ** Concrete surroundings for the examples

    [Demo.repr] prints values the way CPython does as long as strings hold
    only printable ASCII without quotes or backslashes and no float occurs.
    [Demo.loads] knows the JSON texts the examples use and rejects every
    other text as [json.loads] rejects text that is not JSON.
    [Demo.sleep] waits for the lengths from 0 to below 9223372036 seconds
    and rejects the others the way CPython 3.11 does; the exact boundary
    and the error at it vary with the platform. *)

Module Demo.

Definition repr_int (z : Z) : string :=
  DecimalString.NilZero.string_of_int (Z.to_int z).

Fixpoint repr (v : pyval) : string :=
  match v with
  | PNone => "None"
  | PBool true => "True"
  | PBool false => "False"
  | PInt z => repr_int z
  | PFloat q => repr_int (QArith_base.Qnum q) +:+ "/" +:+ repr_int (Zpos (QArith_base.Qden q))
  | PStr s => "'" +:+ s +:+ "'"
  | PList l =>
      "[" +:+ Str.join ", " ((fix items (l : list pyval) : list string :=
                                match l with
                                | [] => []
                                | x :: rest => repr x :: items rest
                                end) l) +:+ "]"
  | PDict kvs =>
      "{" +:+ Str.join ", " ((fix items (kvs : list (string * pyval)) : list string :=
                                match kvs with
                                | [] => []
                                | (k, x) :: rest => ("'" +:+ k +:+ "': " +:+ repr x) :: items rest
                                end) kvs) +:+ "}"
  end.

Definition decode_error : exn :=
  Exn "JSONDecodeError" "Expecting value: line 1 column 1 (char 0)".

Definition quote : string := String (ascii_of_nat 34) EmptyString.

(** A JSON string literal. *)
Definition js (s : string) : string := quote +:+ s +:+ quote.

(** A JSON object with the given members, in the compact form
    [{"k": v, "k2": v2}]. *)
Definition obj (members : list (string * string)) : string :=
  "{" +:+ Str.join ", " (map (fun '(k, v) => js k +:+ ": " +:+ v) members) +:+ "}".

Fixpoint assoc {A : Type} (key : string) (table : list (string * A)) : option A :=
  match table with
  | [] => None
  | (k, v) :: rest => if String.eqb k key then Some v else assoc key rest
  end.

Definition loads (table : list (string * pyval)) (text : string) : res pyval :=
  match assoc text table with
  | Some v => Ok v
  | None => Raise decode_error
  end.

Definition sleep (seconds : Q) : res unit :=
  if QArith_base.Qle_bool (QArith_base.inject_Z 9223372036) seconds
     || QArith_base.Qle_bool seconds (QArith_base.inject_Z (-9223372037))
  then Raise (OverflowError "timestamp too large to convert to C _PyTime_t")
  else if QArith_base.Qnum seconds <? 0
  then Raise (ValueError "sleep length must be non-negative")
  else Ok tt.

Definition builtins (table : list (string * pyval)) : Builtins :=
  Build_Builtins repr (loads table) sleep.

End Demo.

(** ** The rest of [scr/agent.py] *)

Section AgentExtras.
Context {W : Type}.

(** [clear_memory]: [self.memory.clear()]. *)
Definition clear_memory : M W unit :=
  fun st => (Ok tt, {| world := world st; memory := clear (memory st);
                       trace := trace st |}).

End AgentExtras.

(** ** Vocabulary for texts with fences *)

(** No character of [s] is a backtick. *)
Fixpoint no_backtick (s : string) : bool :=
  match s with
  | EmptyString => true
  | String c s' => negb (Ascii.eqb c "`"%char) && no_backtick s'
  end.

(** ** Vocabulary for the record of a run *)

(** An entry of [conversation_history] that reports the turn [t]. *)
Definition reports (t : Turn) (entry : pyval) : Prop :=
  exists n tool_result,
    entry = history_entry n (thought t) (action t) (parameters t) tool_result.

(** ** [str.split] and list indexing *)

Module Split.

(** [s.split(sep)] for a non-empty [sep]: the pieces between the
    occurrences of [sep], found from left to right without overlap.
    [skip] counts the characters of a separator still to pass, [cur] is
    the piece being read. *)
Fixpoint go (sep : string) (skip : nat) (cur s : string) : list string :=
  match s with
  | EmptyString => [cur]
  | String c s' =>
      match skip with
      | S k => go sep k cur s'
      | O =>
          if String.prefix sep s
          then cur :: go sep (String.length sep - 1) EmptyString s'
          else go sep 0 (cur +:+ String c EmptyString) s'
      end
  end.

Definition split (sep s : string) : list string := go sep 0 EmptyString s.

(** [l[i]] for [0 <= i]. *)
Definition item {A : Type} (l : list A) (i : nat) : res A :=
  match nth_error l i with
  | Some x => Ok x
  | None => Raise (Exn "IndexError" "list index out of range")
  end.

End Split.

(** ** scr/executor.py *)

(** What running generated code comes to: the rendering of the result
    variable, or the exception of class [Exception] raised on the way, or
    an exception outside that class ([sys.exit()] in the code); in each
    case with what the code printed. *)
Inductive exec_outcome : Type :=
| Completed (result_str stdout : string)
| Failed (e : exn) (stdout : string)
| Exited (e : exn) (stdout : string).

Section Tools.
Context {W : Type}.

(** The two things the executor does with code are parameters: [run_code]
    is lines 11-27 of [execute] ([exec] under a captured [stdout], then the
    rendering of the variable [result]), [run_plot] is [exec] followed by
    [plt.savefig(filepath)]. *)
Record SafeCodeExecutor : Type := {
  run_code : string -> W -> exec_outcome * W;
  run_plot : string -> string -> W -> outcome unit * W
}.

(** [SafeCodeExecutor.execute(code)]: the [except Exception] of line 34
    turns an exception of the code into a result; any other leaves the
    method. *)
Definition executor_execute (ex : SafeCodeExecutor) (code : string) : M W pyval :=
  fun st =>
    let '(ran, w') := run_code ex code (world st) in
    (match ran with
     | Completed result_str stdout =>
         Done (Ok (PDict [("status", PStr "success"); ("result", PStr result_str);
                          ("stdout", PStr stdout)]))
     | Failed e stdout =>
         Done (Ok (PDict [("status", PStr "error");
                          ("error_message", PStr ("Execution error: " +:+ exn_msg e));
                          ("stdout", PStr stdout)]))
     | Exited e stdout => Escaped e
     end,
     {| world := w'; memory := memory st; trace := trace st |}).

(** [SafeCodeExecutor.execute_and_save_plot(code, filepath)] *)
Definition execute_and_save_plot (ex : SafeCodeExecutor) (code filepath : string)
  : M W pyval :=
  fun st =>
    let '(ran, w') := run_plot ex code filepath (world st) in
    (match ran with
     | Done (Ok _) =>
         Done (Ok (PDict [("status", PStr "success"); ("filepath", PStr filepath)]))
     | Done (Raise e) =>
         Done (Ok (PDict [("status", PStr "error");
                          ("error_message", PStr ("Plot failed: " +:+ exn_msg e))]))
     | Escaped e => Escaped e
     end,
     {| world := w'; memory := memory st; trace := trace st |}).

(** ** scr/tools/analytics.py *)

(** [_extract_code], the same in both tools. *)
Definition _extract_code (text : string) : res string :=
  if Str.contains "```python" text then
    let? after := Split.item (Split.split "```python" text) 1 in
    let? inside := Split.item (Split.split "```" after) 0 in
    Ok (Str.strip inside)
  else if Str.contains "```" text then
    let? after := Split.item (Split.split "```" text) 1 in
    let? inside := Split.item (Split.split "```" after) 0 in
    Ok (Str.strip inside)
  else Ok (Str.strip text).

(** The fields both tools get from [__init__], the model client, the
    prompt builder [_build_prompt], which reads the datasets of the
    executor, and what the tools use of the module [time]. *)
Record CodeTool : Type := {
  tool_llm : string -> W -> res string * W;
  executor : SafeCodeExecutor;
  tool_retry_delay : Q;
  tool_max_retries : Z;
  tool_build_prompt : list pyval -> W -> res string;
  clock : W -> Z;
    (* int(time.time()) *)
  tool_sleep : Q -> res unit
    (* time.sleep(wait), as [time_sleep] above *)
}.

Definition tool_generate (t : CodeTool) (prompt : string) : M W string :=
  fun st =>
    let '(r, w') := tool_llm t prompt (world st) in
    (Done r, {| world := w'; memory := memory st;
                trace := trace st ++ [EvGenerate prompt] |}).

Definition tool_failure (msg : string) : pyval :=
  PDict [("status", PStr "error"); ("error_message", PStr msg)].

(** The test both tools apply to [str(e).lower()]. *)
Definition is_tool_rate_limit (error_msg : string) : bool :=
  Str.contains "429" error_msg || Str.contains "rate limit" error_msg.

(** The product [retry_delay * 2 ^ attempt]. *)
Definition tool_backoff (t : CodeTool) (attempt : Z) : Q :=
  QArith_base.Qmult (tool_retry_delay t) (QArith_base.inject_Z (2 ^ attempt)).

(** [self.retry_delay * (2 ** attempt)]: the int is made a float before
    the product is taken, which fails from [2 ** 1024] on. *)
Definition tool_wait (t : CodeTool) (attempt : Z) : res Q :=
  if 1024 <=? attempt
  then Raise (OverflowError "int too large to convert to float")
  else Ok (tool_backoff t attempt).

(** [time.sleep(wait)] *)
Definition tool_pause (t : CodeTool) (seconds : Q) : M W unit :=
  bind (lift (tool_sleep t seconds)) (fun _ => emit (EvSleep seconds)).

(** The handler of both loops: wait and go on, or report the exception.
    An exception raised here, by the product or by the wait, leaves
    [execute]. *)
Definition tool_except (t : CodeTool) (attempt : Z) (again : M W pyval) (e : exn)
  : M W pyval :=
  if is_tool_rate_limit (Str.lower (exn_msg e))
  then
    if attempt <? tool_max_retries t - 1
    then
      bind (lift (tool_wait t attempt)) (fun seconds =>
      bind (tool_pause t seconds) (fun _ => again))
    else ret (tool_failure (exn_msg e))
  else ret (tool_failure (exn_msg e)).

(** The body of the [try] in [AnalyzeTool.execute]. *)
Definition analyze_attempt (t : CodeTool) (prompt : string) : M W pyval :=
  bind (tool_generate t prompt) (fun text =>
  bind (lift (_extract_code text)) (fun code =>
  if String.eqb code EmptyString then ret (tool_failure "Failed to generate code")
  else
    bind (executor_execute (executor t) code) (fun result =>
    bind (lift (Py.getitem result "status")) (fun status =>
    if Py.eq_str status "success"
    then lift (Py.setitem result "generated_code" (PStr code))
    else ret result)))).

(** [for attempt in range(self.max_retries)] of [AnalyzeTool.execute]. *)
Fixpoint analyze_loop (t : CodeTool) (left : nat) (attempt : Z) (prompt : string)
  : M W pyval :=
  match left with
  | O => ret (tool_failure "Failed after retries")
  | S left' =>
      try_except (analyze_attempt t prompt)
        (tool_except t attempt (analyze_loop t left' (attempt + 1) prompt))
  end.

(** [AnalyzeTool.execute(query, dataset_aliases)]: the prompt is built
    outside the [try]. *)
Definition analyze_execute (t : CodeTool) (args : list pyval) : M W pyval :=
  bind (fun st => (Done (tool_build_prompt t args (world st)), st)) (fun prompt =>
  analyze_loop t (Z.to_nat (tool_max_retries t)) 0 prompt).

End Tools.

Arguments SafeCodeExecutor W : clear implicits.
Arguments CodeTool W : clear implicits.

Section Visualize.
Context {W : Type} (B : Builtins).

(** [chart_type or "chart"] *)
Definition chart_type_or_default (chart_type : pyval) : pyval :=
  if Py.truthy chart_type then chart_type else PStr "chart".

(** The body of the [try] in [VisualizeTool.execute]. *)
Definition visualize_attempt (t : CodeTool W) (prompt : string) (chart_type : pyval)
  : M W pyval :=
  bind (tool_generate t prompt) (fun text =>
  bind (lift (_extract_code text)) (fun code =>
  bind (fun st => (Ok ("plot_" +:+ str B (PInt (clock t (world st))) +:+ ".png"), st))
    (fun filepath =>
  bind (execute_and_save_plot (executor t) code filepath) (fun result =>
  bind (lift (Py.getitem result "status")) (fun status =>
  if Py.eq_str status "success"
  then lift (Py.setitem result "data"
               (PDict [("filepath", PStr filepath);
                       ("chart_type", chart_type_or_default chart_type)]))
  else ret result))))).

Fixpoint visualize_loop (t : CodeTool W) (left : nat) (attempt : Z) (prompt : string)
    (chart_type : pyval) : M W pyval :=
  match left with
  | O => ret (tool_failure "Failed after retries")
  | S left' =>
      try_except (visualize_attempt t prompt chart_type)
        (tool_except t attempt (visualize_loop t left' (attempt + 1) prompt chart_type))
  end.

(** [VisualizeTool.execute(query, dataset_aliases, chart_type)] *)
Definition visualize_execute (t : CodeTool W) (args : list pyval) (chart_type : pyval)
  : M W pyval :=
  bind (fun st => (Done (tool_build_prompt t args (world st)), st)) (fun prompt =>
  visualize_loop t (Z.to_nat (tool_max_retries t)) 0 prompt chart_type).

End Visualize.

(** ** scr/tools/dataset.py *)

(** What [LoadCSVTool] and [ListDatasetsTool] read of a
    [pandas.DataFrame]: [len(df)] and [df.columns]. *)
Record DataFrame : Type := {
  nrows : nat;
  columns : list pyval
}.

(** [_DATASET_STORE], for aliases that are strings as the tools declare
    them: the aliases in the order they were first stored. *)
Definition DatasetStore : Type := list (string * DataFrame).

Module Store.

Fixpoint lookup (alias : string) (s : DatasetStore) : option DataFrame :=
  match s with
  | [] => None
  | (a, df) :: rest => if String.eqb a alias then Some df else lookup alias rest
  end.

(** [_DATASET_STORE[alias] = df] *)
Fixpoint store (alias : string) (df : DataFrame) (s : DatasetStore) : DatasetStore :=
  match s with
  | [] => [(alias, df)]
  | (a, old) :: rest =>
      if String.eqb a alias then (a, df) :: rest else (a, old) :: store alias df rest
  end.

End Store.

Section DatasetTools.
Context (B : Builtins) (read_csv : string -> res DataFrame).

Definition nat_str (n : nat) : string := str B (PInt (Z.of_nat n)).

(** [list(df.columns)], as an f-string prints it. *)
Definition columns_str (df : DataFrame) : string := str B (PList (columns df)).

(** [LoadCSVTool.execute(filepath, alias)] *)
Definition load_csv_execute (filepath alias : string) (s : DatasetStore)
  : pyval * DatasetStore :=
  match read_csv filepath with
  | Ok df =>
      (PDict [("status", PStr "success");
              ("result",
               PStr ("Loaded '" +:+ filepath +:+ "' as '" +:+ alias +:+ "' with "
                     +:+ nat_str (nrows df) +:+ " rows, "
                     +:+ nat_str (length (columns df)) +:+ " columns. Columns: "
                     +:+ columns_str df))],
       Store.store alias df s)
  | Raise e =>
      (PDict [("status", PStr "error");
              ("error_message", PStr ("Failed to load: " +:+ exn_msg e))], s)
  end.

Definition dataset_summary (entry : string * DataFrame) : string :=
  let '(a, df) := entry in
  "- '" +:+ a +:+ "': " +:+ nat_str (nrows df) +:+ " rows, "
  +:+ nat_str (length (columns df)) +:+ " cols " +:+ columns_str df.

(** [ListDatasetsTool.execute()] *)
Definition list_datasets_execute (s : DatasetStore) : pyval :=
  match s with
  | [] => PDict [("status", PStr "success"); ("result", PStr "No datasets loaded.")]
  | _ =>
      PDict [("status", PStr "success");
             ("result",
              PStr ("Loaded datasets:" +:+ Str.nl
                    +:+ Str.join Str.nl (map dataset_summary s)))]
  end.

End DatasetTools.

(** ** The registry of [DataAnalyticsAgent.__init__] *)

Section Init.
Context {W : Type}.

(** [self.tools], from the four tool objects [__init__] creates. *)
Definition init_tools (list_datasets inspect_dataset analyze visualize : BaseTool W)
  : gmap string (BaseTool W) :=
  <["list_datasets" := list_datasets]>
    (<["inspect_dataset" := inspect_dataset]>
       (<["analyze" := analyze]> {["visualize" := visualize]})).

End Init.

(** ** Vocabulary for the tools *)

(** The part of [s] before the first occurrence of [sep]. *)
Fixpoint piece_before (sep s : string) : string :=
  match s with
  | EmptyString => EmptyString
  | String c s' =>
      if String.prefix sep s then EmptyString else String c (piece_before sep s')
  end.

(** A dictionary whose ["status"] is ["success"] or ["error"]. *)
Definition has_status (v : pyval) : bool :=
  match v with
  | PDict r =>
      match Py.lookup "status" r with
      | Some status => Py.eq_str status "success" || Py.eq_str status "error"
      | None => false
      end
  | _ => false
  end.

Section ToolVocabulary.
Context {W : Type} (t : CodeTool W).

(** The state after a tool has called the model. *)
Definition tool_called (prompt : string) (st : state W) : state W :=
  {| world := snd (tool_llm t prompt (world st)); memory := memory st;
     trace := trace st ++ [EvGenerate prompt] |}.

(** The wait after attempt [attempt]: the length waited for, or the
    exception of the product or of [time.sleep]. *)
Definition tool_waited (attempt : Z) : res Q :=
  let? seconds := tool_wait t attempt in
  let? done := tool_sleep t seconds in
  Ok seconds.


End ToolVocabulary.

(** What [VisualizeTool.execute] returns for a plot saved at [filepath]. *)
Definition plot_result (filepath : string) (chart_type : pyval) : pyval :=
  PDict [("status", PStr "success"); ("filepath", PStr filepath);
         ("data", PDict [("filepath", PStr filepath);
                         ("chart_type", chart_type_or_default chart_type)])].

(** What [AnalyzeTool.execute] returns for code that ran to its end. *)
Definition analysis_result (result_str stdout code : string) : pyval :=
  PDict [("status", PStr "success"); ("result", PStr result_str);
         ("stdout", PStr stdout); ("generated_code", PStr code)].

(** The names [__init__] registers. *)
Definition registered (key : string) : bool :=
  String.eqb key "list_datasets" || String.eqb key "inspect_dataset"
  || String.eqb key "analyze" || String.eqb key "visualize".

(** Three turns and small memories for the examples. *)
Module DemoMemory.

Definition turn (thought action result : string) : Turn :=
  {| query := "list datasets"; thought := PStr thought; action := PStr action;
     parameters := PDict []; result := result |}.

Definition ta : Turn := turn "look" "list_datasets" "No datasets loaded.".
Definition tb : Turn := turn "inspect" "inspect_dataset" "Error: Dataset 'df' not found".
Definition tc : Turn := turn "again" "list_datasets" "No datasets loaded.".

Definition two_slots : ConversationMemory := {| max_turns := 2; turns := [] |}.

Definition one_turn : ConversationMemory := {| max_turns := 50; turns := [ta] |}.

End DemoMemory.

(** Agents whose model client always behaves the same way. *)
Module DemoGateway.

Definition always (outcome : res string) : DataAnalyticsAgent unit :=
  {| llm := fun _ w => (outcome, w);
     max_iterations := 20; verbose := true;
     retry_delay := QArith_base.Qmake 2 1; max_retries := 3;
     tools := ∅ |}.

Definition throttled : DataAnalyticsAgent unit :=
  always (Raise (Exn "ResourceExhausted" "429 Too Many Requests")).

Definition offline : DataAnalyticsAgent unit :=
  always (Raise (Exn "ConnectionError" "Connection reset by peer")).

Definition start : state unit :=
  {| world := tt; memory := default_memory; trace := [] |}.

Definition B : Builtins := Demo.builtins [].

End DemoGateway.

(** An agent whose model client replays a script of outcomes, one per
    call, with tools that behave like the registered ones on an empty
    dataset store. *)
Module DemoRun.

Definition World : Type := list (res string).

Definition scripted (prompt : string) (w : World) : res string * World :=
  match w with
  | [] => (Raise (Exn "RuntimeError" "no response"), [])
  | outcome :: rest => (outcome, rest)
  end.

Definition list_datasets : BaseTool World :=
  {| name := "list_datasets";
     description := "List all loaded datasets.";
     parameters_schema := PDict [("type", PStr "object"); ("properties", PDict []);
                                 ("required", PList [])];
     call_name := "ListDatasetsTool.execute";
     execute := fun kwargs w =>
       match kwargs with
       | [] => (Ok (PDict [("status", PStr "success");
                           ("result", PStr "No datasets loaded.")]), w)
       | (k, _) :: _ =>
           (Raise (TypeError ("ListDatasetsTool.execute() got an unexpected keyword argument '"
                              +:+ k +:+ "'")), w)
       end |}.

Definition inspect_dataset : BaseTool World :=
  {| name := "inspect_dataset";
     description := "Get detailed info about a dataset.";
     parameters_schema := PDict [("type", PStr "object")];
     call_name := "InspectDatasetTool.execute";
     execute := fun kwargs w =>
       match Py.lookup "alias" kwargs with
       | Some alias =>
           (Ok (PDict [("status", PStr "error");
                       ("error_message",
                        PStr ("Dataset '" +:+ str (Demo.builtins []) alias +:+ "' not found"))]),
            w)
       | None =>
           (Raise (TypeError
                     "InspectDatasetTool.execute() missing 1 required positional argument: 'alias'"),
            w)
       end |}.


(** A handler that fails with a message of 600 characters. *)
Definition long_message : string := Str.replicate 600 "x"%char.

Definition fails_at_length : BaseTool World :=
  {| name := "analyze";
     description := "Generate and execute pandas code for data analysis.";
     parameters_schema := PDict [("type", PStr "object")];
     call_name := "AnalyzeTool.execute";
     execute := fun _ w =>
       (Ok (PDict [("status", PStr "error"); ("error_message", PStr long_message)]), w) |}.

Definition registry (analyze : BaseTool World) : gmap string (BaseTool World) :=
  <["list_datasets" := list_datasets]>
    (<["inspect_dataset" := inspect_dataset]> {["analyze" := analyze]}).

Definition agent_with (analyze : BaseTool World) (max_iterations : Z)
  : DataAnalyticsAgent World :=
  {| llm := scripted;
     max_iterations := max_iterations; verbose := true;
     retry_delay := QArith_base.Qmake 2 1; max_retries := 3;
     tools := registry analyze |}.

Definition agent : Z -> DataAnalyticsAgent World := agent_with fails_at_length.

Definition collaborators : Collaborators World :=
  {| build_agent_prompt := fun _ _ _ => Ok "# DATA ANALYTICS AGENT";
     update_datasets := fun w => w |}.

Definition start (script : World) : state World :=
  {| world := script; memory := default_memory; trace := [] |}.

(** The prompt of the first iteration of a run on the query "q", with a
    budget of [budget] iterations. *)
Definition first_prompt (budget : string) : string :=
  "# DATA ANALYTICS AGENT" +:+ Str.nl +:+ Str.nl +:+ no_history +:+ Str.nl +:+ Str.nl
  +:+ "## Current Iteration: 1 / " +:+ budget +:+ Str.nl +:+ Str.nl
  +:+ "## Current User Query" +:+ Str.nl +:+ Str.nl +:+ "q" +:+ Str.nl +:+ Str.nl
  +:+ "Remember: Respond with valid JSON only!" +:+ Str.nl.

(** The responses of the examples, as JSON text and as parsed. *)
Definition thought_action (thought action : string) : list (string * string) :=
  [("thought", Demo.js thought); ("action", Demo.js action)].

Definition r_list : string := Demo.obj (thought_action "look" "list_datasets").
Definition v_list : pyval :=
  PDict [("thought", PStr "look"); ("action", PStr "list_datasets")].

Definition r_done : string :=
  Demo.obj (thought_action "done" "DONE"
            ++ [("parameters", Demo.obj [("answer", Demo.js "No datasets are loaded.")])]).
Definition v_done : pyval :=
  PDict [("thought", PStr "done"); ("action", PStr "DONE");
         ("parameters", PDict [("answer", PStr "No datasets are loaded.")])].

Definition r_done_empty : string :=
  Demo.obj (thought_action "t" "DONE" ++ [("parameters", "{}")]).
Definition v_done_empty : pyval :=
  PDict [("thought", PStr "t"); ("action", PStr "DONE"); ("parameters", PDict [])].

Definition r_done_top : string :=
  Demo.obj (thought_action "t" "DONE" ++ [("answer", Demo.js "42 rows")]).
Definition v_done_top : pyval :=
  PDict [("thought", PStr "t"); ("action", PStr "DONE"); ("answer", PStr "42 rows")].

Definition r_done_list : string :=
  Demo.obj (thought_action "t" "DONE" ++ [("parameters", "[]")]).
Definition v_done_list : pyval :=
  PDict [("thought", PStr "t"); ("action", PStr "DONE"); ("parameters", PList [])].

Definition r_action_list : string :=
  Demo.obj [("thought", Demo.js "t"); ("action", "[" +:+ Demo.js "list_datasets" +:+ "]")].
Definition v_action_list : pyval :=
  PDict [("thought", PStr "t"); ("action", PList [PStr "list_datasets"])].

Definition r_inspect : string :=
  Demo.obj (thought_action "inspect" "inspect_dataset" ++ [("parameters", "{}")]).
Definition v_inspect : pyval :=
  PDict [("thought", PStr "inspect"); ("action", PStr "inspect_dataset");
         ("parameters", PDict [])].

Definition r_load : string := Demo.obj (thought_action "load" "load_csv").
Definition v_load : pyval :=
  PDict [("thought", PStr "load"); ("action", PStr "load_csv")].

Definition r_analyze : string := Demo.obj (thought_action "compute" "analyze").
Definition v_analyze : pyval :=
  PDict [("thought", PStr "compute"); ("action", PStr "analyze")].

Definition r_quota : string := Demo.obj [("thought", Demo.js "check the quota")].
Definition v_quota : pyval := PDict [("thought", PStr "check the quota")].

Definition r_no_action : string := Demo.obj [("thought", Demo.js "t")].
Definition v_no_action : pyval := PDict [("thought", PStr "t")].

(** The first response wrapped in a fenced block, as models often send it. *)
Definition r_fenced : string :=
  "Here is my decision:" +:+ Str.nl +:+ "```json" +:+ Str.nl +:+ r_list +:+ Str.nl +:+ "```".

Definition table : list (string * pyval) :=
  [(r_list, v_list); (r_done, v_done); (r_done_empty, v_done_empty);
   (r_done_top, v_done_top); (r_done_list, v_done_list);
   (r_action_list, v_action_list); (r_inspect, v_inspect); (r_load, v_load);
   (r_analyze, v_analyze); (r_quota, v_quota); (r_no_action, v_no_action)].

Definition B : Builtins := Demo.builtins table.

End DemoRun.

(** The states of a run of two iterations on the script
    [[r_list; r_inspect]]. *)
Module DemoBudget.

Definition s0 : state DemoRun.World :=
  DemoRun.start [Ok DemoRun.r_list; Ok DemoRun.r_inspect].

Definition s1 : state DemoRun.World :=
  recorded DemoRun.collaborators "q" (PStr "look") (PStr "list_datasets") (PDict [])
    "No datasets loaded."
    (executed "list_datasets" [] [Ok DemoRun.r_inspect]
       (called (DemoRun.agent 2) (DemoRun.first_prompt "2") s0)).

Definition before_pass (i : Z) (st : state DemoRun.World) : Prop :=
  (i = 0 -> st = s0) /\ (i = 1 -> st = s1).

End DemoBudget.

(** An agent whose model always answers with the same final decision. *)
Module DemoAnswer.

Definition agent : DataAnalyticsAgent unit := DemoGateway.always (Ok DemoRun.r_done).

Definition collaborators : Collaborators unit :=
  {| build_agent_prompt := fun _ _ _ => Ok "# DATA ANALYTICS AGENT";
     update_datasets := fun w => w |}.

End DemoAnswer.

(** Further responses and states for the examples of the second part. *)
Module DemoExtra.

(** A response whose thought is a number. *)
Definition r_number_thought : string :=
  Demo.obj [("thought", "5"); ("action", Demo.js "list_datasets")].
Definition v_number_thought : pyval :=
  PDict [("thought", PInt 5); ("action", PStr "list_datasets")].

Definition table : list (string * pyval) :=
  (r_number_thought, v_number_thought) :: DemoRun.table.

Definition B : Builtins := Demo.builtins table.

(** A memory whose last turn holds a number as thought. *)
Definition number_turn : Turn :=
  {| query := "q"; thought := PInt 5; action := PStr "list_datasets";
     parameters := PDict []; result := "No datasets loaded." |}.

Definition poisoned : ConversationMemory :=
  {| max_turns := 50; turns := [DemoMemory.ta; number_turn] |}.

Definition poisoned_state : state DemoRun.World :=
  {| world := [Ok DemoRun.r_done]; memory := poisoned; trace := [] |}.

End DemoExtra.

(** An agent that allows no attempt at all, and one whose service is down. *)
Module DemoFailures.

Definition no_attempts : DataAnalyticsAgent DemoRun.World :=
  {| llm := DemoRun.scripted;
     max_iterations := 20; verbose := true;
     retry_delay := QArith_base.Qmake 2 1; max_retries := 0;
     tools := DemoRun.registry DemoRun.fails_at_length |}.

Definition connection_reset : exn := Exn "ConnectionError" "Connection reset by peer".

End DemoFailures.

(** A code tool whose model replays a script, over an executor that
    computes the same value for every code and saves every plot. *)
Module DemoTools.

Definition fixed_executor : SafeCodeExecutor DemoRun.World :=
  {| run_code := fun _ w => (Completed "3.5" EmptyString, w);
     run_plot := fun _ _ w => (Ok tt, w) |}.

Definition tool (max_retries : Z) : CodeTool DemoRun.World :=
  {| tool_llm := DemoRun.scripted;
     executor := fixed_executor;
     tool_retry_delay := QArith_base.Qmake 2 1;
     tool_max_retries := max_retries;
     tool_build_prompt := fun _ _ => Ok "Generate pandas code: mean price";
     clock := fun _ => 1700000000;
     tool_sleep := Demo.sleep |}.

(** An executor whose code calls [sys.exit(3)], and the tool over it. *)
Definition exiting_executor : SafeCodeExecutor DemoRun.World :=
  {| run_code := fun _ w => (Exited (SystemExit "3") EmptyString, w);
     run_plot := fun _ _ w => (Escaped (SystemExit "3"), w) |}.

Definition exiting_tool : CodeTool DemoRun.World :=
  {| tool_llm := DemoRun.scripted;
     executor := exiting_executor;
     tool_retry_delay := QArith_base.Qmake 2 1;
     tool_max_retries := 3;
     tool_build_prompt := fun _ _ => Ok "Generate pandas code: mean price";
     clock := fun _ => 1700000000;
     tool_sleep := Demo.sleep |}.


Definition prompt : string := "Generate pandas code: mean price".


Definition throttled : exn := Exn "ResourceExhausted" "429 Too Many Requests".

Definition fenced_code : string :=
  "```python" +:+ Str.nl +:+ "result = df['price'].mean()" +:+ Str.nl +:+ "```".

Definition start (script : DemoRun.World) : state DemoRun.World :=
  {| world := script; memory := default_memory; trace := [] |}.

End DemoTools.

(** An agent with the registry of [__init__], over handlers that stand
    for the four tools. *)
Module DemoInit.

Definition agent : DataAnalyticsAgent DemoRun.World :=
  {| llm := DemoRun.scripted;
     max_iterations := 20; verbose := true;
     retry_delay := QArith_base.Qmake 2 1; max_retries := 3;
     tools := init_tools DemoRun.list_datasets DemoRun.inspect_dataset
                DemoRun.fails_at_length DemoRun.fails_at_length |}.

End DemoInit.

(** A store with one dataset, and a reader that knows one file. *)
Module DemoStore.

Definition sales : DataFrame :=
  {| nrows := 3; columns := [PStr "region"; PStr "price"] |}.

Definition returns : DataFrame :=
  {| nrows := 1; columns := [PStr "order"] |}.

Definition read_csv (filepath : string) : res DataFrame :=
  if String.eqb filepath "sales.csv" then Ok sales
  else Raise (Exn "FileNotFoundError"
                ("[Errno 2] No such file or directory: '" +:+ filepath +:+ "'")).

Definition one_dataset : DatasetStore := [("returns", returns)].

End DemoStore.

(** An agent that is refused every call, waits no time between its
    attempts and allows 1026 of them. *)
Module DemoOverflow.

Definition agent : DataAnalyticsAgent unit :=
  {| llm := fun _ w => (Raise (Exn "ResourceExhausted" "429 Too Many Requests"), w);
     max_iterations := 20; verbose := true;
     retry_delay := QArith_base.Qmake 0 1; max_retries := 1026;
     tools := ∅ |}.

End DemoOverflow.

(** A handler whose generated code calls [sys.exit(3)], in place of
    [analyze]. *)
Module DemoExit.

Definition exits : BaseTool DemoRun.World :=
  {| name := "analyze";
     description := "Generate and execute pandas code for data analysis.";
     parameters_schema := PDict [("type", PStr "object")];
     call_name := "AnalyzeTool.execute";
     execute := fun _ w => (Escaped (SystemExit "3"), w) |}.

Definition agent : DataAnalyticsAgent DemoRun.World := DemoRun.agent_with exits 20.

End DemoExit.

(** Decisions that name a tool and carry a list as parameters, and a
    parser that knows three responses. *)
Module DemoResult.

Definition r_list_empty : string :=
  Demo.obj (DemoRun.thought_action "look" "list_datasets" ++ [("parameters", "[]")]).
Definition v_list_empty : pyval :=
  PDict [("thought", PStr "look"); ("action", PStr "list_datasets");
         ("parameters", PList [])].


Definition table : list (string * pyval) :=
  [(r_list_empty, v_list_empty); (DemoRun.r_list, DemoRun.v_list);
   (DemoRun.r_done, DemoRun.v_done)].

Definition B : Builtins := Demo.builtins table.


Definition script : DemoRun.World :=
  [Ok r_list_empty; Ok DemoRun.r_list; Ok DemoRun.r_done].

End DemoResult.

(** * Properties *)

(** ** Conversation memory *)

Section MemoryFacts.

Lemma push_turns (m : ConversationMemory) (t : Turn) :
  turns (push m t) = deque_append (max_turns m) (turns m) t.
Proof. destruct t; reflexivity. Qed.

Lemma push_max_turns (m : ConversationMemory) (t : Turn) :
  max_turns (push m t) = max_turns m.
Proof. reflexivity. Qed.

Lemma push_all_max_turns (ts : list Turn) (m : ConversationMemory) :
  max_turns (push_all m ts) = max_turns m.
Proof.
  revert m; induction ts as [|t ts IH]; intros m; [reflexivity|].
  simpl. rewrite IH. apply push_max_turns.
Qed.

Lemma push_all_snoc (ts : list Turn) (t : Turn) (m : ConversationMemory) :
  push_all m (ts ++ [t]) = push (push_all m ts) t.
Proof. unfold push_all. rewrite fold_left_app. reflexivity. Qed.

Lemma tail_drop_snoc {A : Type} (l : list A) (x : A) (k : nat) :
  (k <= length l)%nat -> tail (drop k l ++ [x]) = drop (S k) (l ++ [x]).
Proof.
  revert k; induction l as [|a l IH]; intros k Hk; simpl in Hk.
  - replace k with 0%nat by lia. reflexivity.
  - destruct k as [|k]; [reflexivity|].
    simpl. apply IH. lia.
Qed.

(** Appending to the last [n] elements of [l] leaves the last [n]
    elements of [l ++ [x]]. *)
Lemma deque_append_drop {A : Type} (n : nat) (l : list A) (x : A) :
  deque_append n (drop (length l - n) l) x
  = drop (length (l ++ [x]) - n) (l ++ [x]).
Proof.
  unfold deque_append.
  rewrite !length_app, length_drop. simpl.
  destruct (Nat.ltb_spec n (length l - (length l - n) + 1)) as [Hfull|Hroom].
  - replace (length l + 1 - n)%nat with (S (length l - n)) by lia.
    apply tail_drop_snoc. lia.
  - replace (length l - n)%nat with 0%nat by lia.
    replace (length l + 1 - n)%nat with 0%nat by lia.
    reflexivity.
Qed.

Lemma push_all_closed_form (n : nat) (ts : list Turn) :
  turns (push_all {| max_turns := n; turns := [] |} ts)
  = drop (length ts - n) ts.
Proof.
  induction ts as [|t ts IH] using rev_ind; [reflexivity|].
  rewrite push_all_snoc, push_turns, push_all_max_turns, IH. simpl.
  apply deque_append_drop.
Qed.

End MemoryFacts.

Lemma new_memory_default : new_memory 50 = Ok default_memory.
Proof. reflexivity. Qed.

(** C3. A memory built with capacity [cap] never holds more than [cap]
    turns, whatever sequence of [add_turn] calls it receives: after the
    calls [ts] it holds exactly the last [cap] of them, in call order.
    While there is room a call appends the turn; once the memory is full a
    call drops exactly the oldest stored turn and keeps the others in
    order, with the new turn last. *)
Theorem memory_bounded_fifo (cap : Z) (m0 : ConversationMemory) (ts : list Turn) :
  new_memory cap = Ok m0 ->
  let m := push_all m0 ts in
  max_turns m = Z.to_nat cap
  /\ (length (turns m) <= max_turns m)%nat
  /\ turns m = drop (length ts - max_turns m) ts
  /\ (forall t, (length (turns m) < max_turns m)%nat ->
                turns (push m t) = turns m ++ [t])
  /\ (forall t oldest rest,
         turns m = oldest :: rest -> length (turns m) = max_turns m ->
         turns (push m t) = rest ++ [t]).
Proof.
  intros Hnew m. unfold new_memory in Hnew.
  destruct (cap <? 0) eqn:Hcap; [discriminate|].
  injection Hnew as Hnew. subst m0.
  assert (Hmax : max_turns m = Z.to_nat cap) by apply push_all_max_turns.
  assert (Hturns : turns m = drop (length ts - max_turns m) ts).
  { rewrite Hmax. apply push_all_closed_form. }
  assert (Hlen : (length (turns m) <= max_turns m)%nat).
  { rewrite Hturns at 1. rewrite length_drop. lia. }
  repeat split; try assumption.
  - intros t Hroom. rewrite push_turns. unfold deque_append.
    rewrite length_app. simpl.
    destruct (Nat.ltb_spec (max_turns m) (length (turns m) + 1)); [lia|reflexivity].
  - intros t oldest rest Hold Hfull. rewrite push_turns. unfold deque_append.
    rewrite length_app. simpl.
    destruct (Nat.ltb_spec (max_turns m) (length (turns m) + 1)); [|lia].
    rewrite Hold. reflexivity.
Qed.

Lemma memory_bounded_fifo_witness :
  turns (push_all DemoMemory.two_slots [DemoMemory.ta; DemoMemory.tb; DemoMemory.tc])
  = [DemoMemory.tb; DemoMemory.tc].
Proof.
  destruct (memory_bounded_fifo 2 DemoMemory.two_slots
              [DemoMemory.ta; DemoMemory.tb; DemoMemory.tc] eq_refl)
    as (_ & _ & Hlast & _).
  exact Hlast.
Defined.

(** For [last_n >= 1] the selection is the last [min last_n len] turns. *)
Lemma recent_positive (m : ConversationMemory) (last_n : Z) :
  1 <= last_n ->
  recent m last_n = drop (length (turns m) - Z.to_nat last_n) (turns m)
  /\ length (recent m last_n) = Nat.min (Z.to_nat last_n) (length (turns m)).
Proof.
  intros Hn. unfold recent, Py.slice_from.
  destruct (Z.ltb_spec (- last_n) 0) as [_|Hge]; [|lia].
  assert (Hstart : Z.to_nat (Z.max 0 (- last_n + Z.of_nat (length (turns m))))
                   = (length (turns m) - Z.to_nat last_n)%nat) by lia.
  rewrite Hstart. split; [reflexivity|].
  change (@skipn Turn) with (@drop Turn). rewrite length_drop. lia.
Qed.

Lemma recent_zero (m : ConversationMemory) : recent m 0 = turns m.
Proof.
  unfold recent, Py.slice_from. simpl.
  destruct (turns m); reflexivity.
Qed.

(** After [clear()] every window is the sentinel text. *)
Lemma get_recent_context_clear (B : Builtins) (m : ConversationMemory) (last_n : Z) :
  get_recent_context B (clear m) last_n = Ok no_history.
Proof. reflexivity. Qed.

(** C4, at the input where the code departs from it: [last_n = 0] makes
    the slice [[-0:]], which is the whole list, so the window holds every
    stored turn instead of none; on a memory with one turn the text renders
    that turn. *)
Theorem get_recent_context_zero_renders_every_turn :
  (forall m, recent m 0 = turns m)
  /\ length (recent DemoMemory.one_turn 0) = 1%nat
  /\ get_recent_context (Demo.builtins []) DemoMemory.one_turn 0
     = Ok (Str.join Str.nl
             [ "## Recent Context" +:+ Str.nl;
               "**Turn 1:**";
               "- Thought: look...";
               "- Action: list_datasets";
               "- Result: No datasets loaded...." +:+ Str.nl ]).
Proof.
  split; [exact recent_zero|]. split; reflexivity.
Qed.

(** ** The gateway *)

Lemma generate_count_app (xs ys : list event) :
  generate_count (xs ++ ys) = (generate_count xs + generate_count ys)%nat.
Proof.
  induction xs as [|[p|q|t k] xs IH]; simpl; [reflexivity|rewrite IH; reflexivity|exact IH..].
Qed.

Lemma execute_count_app (xs ys : list event) :
  execute_count (xs ++ ys) = (execute_count xs + execute_count ys)%nat.
Proof.
  induction xs as [|[p|q|t k] xs IH]; simpl; [reflexivity|exact IH|exact IH|rewrite IH; reflexivity].
Qed.

(** The prefix [_call_llm] puts before a message neither holds nor
    completes one of the three markers. *)
Lemma lower_llm_error (msg : string) :
  Str.lower ("LLM error: " +:+ msg) = "llm error: " +:+ Str.lower msg.
Proof. reflexivity. Qed.

Section GatewayFacts.
Context {W : Type} (B : Builtins) (self : DataAnalyticsAgent W).

Lemma is_rate_limit_llm_error (msg : string) :
  is_rate_limit (Str.lower ("LLM error: " +:+ msg)) = is_rate_limit (Str.lower msg).
Proof. rewrite lower_llm_error. reflexivity. Qed.

Lemma _call_llm_state (prompt : string) (st : state W) :
  snd (_call_llm B self prompt st) = called self prompt st.
Proof.
  unfold _call_llm, try_except, bind, generate_content, lift, raise, called.
  destruct (llm self prompt (world st)) as [[content|e] w']; simpl; [|reflexivity].
  destruct (parse_response B content) as [parsed|e]; simpl; [|reflexivity].
  destruct (validate B parsed); reflexivity.
Qed.

Lemma _call_llm_eq (prompt : string) (st st1 : state W) (r : outcome pyval) :
  _call_llm B self prompt st = (r, st1) -> st1 = called self prompt st.
Proof. intros H. rewrite <- _call_llm_state, H. reflexivity. Qed.

(** What [_call_llm] raises is always the wrapper it builds. *)
Lemma _call_llm_raises (prompt : string) (st st1 : state W) (e : exn) :
  _call_llm B self prompt st = (Raise e, st1) ->
  exists msg, e = RuntimeError ("LLM error: " +:+ msg).
Proof.
  unfold _call_llm, try_except, bind, generate_content, lift, raise.
  destruct (llm self prompt (world st)) as [[content|e0] w']; simpl.
  - destruct (parse_response B content) as [parsed|e1]; simpl.
    + destruct (validate B parsed) as [v|e2]; simpl; intros [= <- _]; eauto.
    + intros [= <- _]; eauto.
  - intros [= <- _]; eauto.
Qed.

(** Nothing passes [_call_llm] that its [except Exception] does not
    catch: the model client and the parser raise exceptions of class
    [Exception] only. *)
Lemma _call_llm_returns (prompt : string) (st : state W) :
  exists r, fst (_call_llm B self prompt st) = Done r.
Proof.
  unfold _call_llm, try_except, bind, generate_content, lift, raise.
  destruct (llm self prompt (world st)) as [[content|e0] w']; simpl; [|eexists; reflexivity].
  destruct (parse_response B content) as [parsed|e1]; simpl; [|eexists; reflexivity].
  destruct (validate B parsed); eexists; reflexivity.
Qed.

(** One pass of the retry loop, by the outcome of its attempt. *)
Lemma retry_loop_ok (left : nat) (attempt : Z) (prompt : string)
    (st st1 : state W) (parsed : pyval) :
  _call_llm B self prompt st = (Ok parsed, st1) ->
  retry_loop B self (S left) attempt prompt st = (Ok parsed, st1).
Proof. intros H. cbn [retry_loop]. unfold try_except. rewrite H. reflexivity. Qed.

Lemma retry_loop_fatal (left : nat) (attempt : Z) (prompt : string)
    (st st1 : state W) (e : exn) :
  _call_llm B self prompt st = (Raise e, st1) ->
  is_rate_limit (Str.lower (exn_msg e)) = false ->
  retry_loop B self (S left) attempt prompt st = (Raise e, st1).
Proof.
  intros H Hrl. cbn [retry_loop]. unfold try_except. rewrite H, Hrl. reflexivity.
Qed.

(** The wait between two attempts, by its outcome. *)
Lemma retry_loop_again (left : nat) (attempt : Z) (prompt : string)
    (st st1 : state W) (e : exn) (seconds : Q) :
  _call_llm B self prompt st = (Raise e, st1) ->
  is_rate_limit (Str.lower (exn_msg e)) = true ->
  attempt < max_retries self - 1 ->
  waited B self attempt = Ok seconds ->
  seconds = backoff self attempt
  /\ retry_loop B self (S left) attempt prompt st
     = retry_loop B self left (attempt + 1) prompt (slept (backoff self attempt) st1).
Proof.
  intros H Hrl Hlt Hwait. cbn [retry_loop]. unfold try_except. rewrite H, Hrl.
  destruct (Z.ltb_spec attempt (max_retries self - 1)); [|lia].
  unfold waited, wait_time in Hwait. unfold bind, lift, sleep, wait_time.
  destruct (1024 <=? attempt); [discriminate|].
  unfold bind, lift.
  destruct (time_sleep B (backoff self attempt)) as [[]|e']; [|discriminate].
  injection Hwait as <-. split; reflexivity.
Qed.

Lemma retry_loop_wait_fails (left : nat) (attempt : Z) (prompt : string)
    (st st1 : state W) (e e' : exn) :
  _call_llm B self prompt st = (Raise e, st1) ->
  is_rate_limit (Str.lower (exn_msg e)) = true ->
  attempt < max_retries self - 1 ->
  waited B self attempt = Raise e' ->
  retry_loop B self (S left) attempt prompt st = (Raise e', st1).
Proof.
  intros H Hrl Hlt Hwait. cbn [retry_loop]. unfold try_except. rewrite H, Hrl.
  destruct (Z.ltb_spec attempt (max_retries self - 1)); [|lia].
  unfold waited, wait_time in Hwait. unfold bind, lift, sleep, wait_time.
  destruct (1024 <=? attempt); [injection Hwait as <-; reflexivity|].
  unfold bind, lift.
  destruct (time_sleep B (backoff self attempt)) as [[]|e'']; [discriminate|].
  injection Hwait as <-. reflexivity.
Qed.

Lemma retry_loop_exhausted (left : nat) (attempt : Z) (prompt : string)
    (st st1 : state W) (e : exn) :
  _call_llm B self prompt st = (Raise e, st1) ->
  is_rate_limit (Str.lower (exn_msg e)) = true ->
  max_retries self - 1 <= attempt ->
  retry_loop B self (S left) attempt prompt st
  = (Raise (rate_limit_exceeded B self), st1).
Proof.
  intros H Hrl Hge. cbn [retry_loop]. unfold try_except. rewrite H, Hrl.
  destruct (Z.ltb_spec attempt (max_retries self - 1)); [lia|].
  reflexivity.
Qed.

(** From attempt 1024 on the product cannot be taken. *)
Lemma waited_overflow (attempt : Z) :
  1024 <= attempt ->
  waited B self attempt = Raise (OverflowError "int too large to convert to float").
Proof.
  intros H. unfold waited, wait_time.
  destruct (Z.leb_spec 1024 attempt); [reflexivity|lia].
Qed.


(** The calls and waits of the loop: [k] attempts with a wait between two
    of them, and never more attempts than passes. *)
Lemma retry_loop_shape (left : nat) (prompt : string) :
  forall (attempt : Z) (st : state W),
    left = 0%nat \/ Z.of_nat left + attempt = max_retries self ->
    exists k, (k <= left)%nat /\ (1 <= left -> 1 <= k)%nat
              /\ trace (snd (retry_loop B self left attempt prompt st))
                 = trace st ++ attempt_events self prompt attempt k.
Proof.
  induction left as [|left IH]; intros attempt st Hinv.
  - exists 0%nat. simpl. rewrite app_nil_r. repeat split; lia.
  - destruct Hinv as [Hinv|Hinv]; [discriminate|].
    destruct (_call_llm B self prompt st) as [r st1] eqn:Hcall;
      pose proof (_call_llm_eq _ _ _ _ Hcall) as Hst1.
    destruct (_call_llm_returns prompt st) as [r' Hr]. rewrite Hcall in Hr. simpl in Hr.
    subst r. destruct r' as [parsed|e].
    { exists 1%nat. rewrite (retry_loop_ok _ _ _ _ _ _ Hcall). subst st1.
      repeat split; lia. }
    destruct (is_rate_limit (Str.lower (exn_msg e))) eqn:Hrl.
    2:{ exists 1%nat. rewrite (retry_loop_fatal _ _ _ _ _ _ Hcall Hrl). subst st1.
        repeat split; lia. }
    destruct (Z.lt_ge_cases attempt (max_retries self - 1)) as [Hlt|Hge].
    2:{ exists 1%nat. rewrite (retry_loop_exhausted _ _ _ _ _ _ Hcall Hrl Hge).
        subst st1. repeat split; lia. }
    destruct (waited B self attempt) as [seconds|e'] eqn:Hwait.
    2:{ exists 1%nat. rewrite (retry_loop_wait_fails _ _ _ _ _ _ _ Hcall Hrl Hlt Hwait).
        subst st1. repeat split; lia. }
    destruct (retry_loop_again left _ _ _ _ _ _ Hcall Hrl Hlt Hwait) as [_ ->].
    destruct (IH (attempt + 1) (slept (backoff self attempt) st1)) as (k & Hk & Hk1 & Htr).
    { right. lia. }
    exists (S k). split; [lia|]. split; [lia|].
    rewrite Htr. subst st1. simpl.
    destruct k as [|k]; [lia|].
    rewrite <- !app_assoc. reflexivity.
Qed.

(** When every attempt is turned away as a rate limit and every wait is
    made, the loop makes all its attempts and then gives up. *)
Lemma retry_loop_all_rate_limited (prompt : string) :
  (forall st0, exists e, fst (_call_llm B self prompt st0) = Raise e
                         /\ is_rate_limit (Str.lower (exn_msg e)) = true) ->
  forall (left : nat) (attempt : Z) (st : state W),
    Z.of_nat (S left) + attempt = max_retries self ->
    (forall a, attempt <= a < max_retries self - 1 ->
               exists seconds, waited B self a = Ok seconds) ->
    exists st', retry_loop B self (S left) attempt prompt st
                = (Raise (rate_limit_exceeded B self), st')
                /\ trace st' = trace st ++ attempt_events self prompt attempt (S left).
Proof.
  intros Hall. induction left as [|left IH]; intros attempt st Hinv Hwaits.
  - destruct (Hall st) as (e & Hcall & Hrl).
    destruct (_call_llm B self prompt st) as [r st1] eqn:Hpair. simpl in Hcall. subst r.
    exists st1. rewrite (retry_loop_exhausted _ _ _ _ _ _ Hpair Hrl) by lia.
    rewrite (_call_llm_eq _ _ _ _ Hpair). split; reflexivity.
  - destruct (Hall st) as (e & Hcall & Hrl).
    destruct (_call_llm B self prompt st) as [r st1] eqn:Hpair. simpl in Hcall. subst r.
    destruct (Hwaits attempt) as [seconds Hwait]; [lia|].
    assert (Hlt : attempt < max_retries self - 1) by lia.
    destruct (retry_loop_again (S left) _ _ _ _ _ _ Hpair Hrl Hlt Hwait) as [_ ->].
    destruct (IH (attempt + 1) (slept (backoff self attempt) st1)) as (st' & Hrun & Htr);
      [lia|intros a Ha; apply Hwaits; lia|].
    exists st'. split; [exact Hrun|].
    rewrite Htr, (_call_llm_eq _ _ _ _ Hpair). simpl.
    rewrite <- !app_assoc. reflexivity.
Qed.

(** When every attempt is turned away as a rate limit and the wait after
    attempt [a] is the first that cannot be made, the loop ends there,
    with the exception of that wait. *)
Lemma retry_loop_first_failed_wait (prompt : string) (a : Z) (e' : exn) :
  (forall st0, exists e, fst (_call_llm B self prompt st0) = Raise e
                         /\ is_rate_limit (Str.lower (exn_msg e)) = true) ->
  a < max_retries self - 1 ->
  waited B self a = Raise e' ->
  forall (k : nat) (left : nat) (attempt : Z) (st : state W),
    attempt + Z.of_nat k = a ->
    (k < left)%nat ->
    (forall b, attempt <= b < a -> exists seconds, waited B self b = Ok seconds) ->
    exists st', retry_loop B self left attempt prompt st = (Raise e', st')
                /\ trace st' = trace st ++ attempt_events self prompt attempt (S k).
Proof.
  intros Hall Hlast Hfail. induction k as [|k IH]; intros left attempt st Hk Hleft Hwaits.
  - destruct left as [|left]; [lia|].
    destruct (Hall st) as (e & Hcall & Hrl).
    destruct (_call_llm B self prompt st) as [r st1] eqn:Hpair. simpl in Hcall. subst r.
    assert (attempt = a) as -> by lia.
    exists st1. rewrite (retry_loop_wait_fails _ _ _ _ _ _ _ Hpair Hrl Hlast Hfail).
    rewrite (_call_llm_eq _ _ _ _ Hpair). split; reflexivity.
  - destruct left as [|left]; [lia|].
    destruct (Hall st) as (e & Hcall & Hrl).
    destruct (_call_llm B self prompt st) as [r st1] eqn:Hpair. simpl in Hcall. subst r.
    destruct (Hwaits attempt) as [seconds Hwait]; [lia|].
    assert (Hlt : attempt < max_retries self - 1) by lia.
    destruct (retry_loop_again left _ _ _ _ _ _ Hpair Hrl Hlt Hwait) as [_ ->].
    destruct (IH left (attempt + 1) (slept (backoff self attempt) st1)) as (st' & Hrun & Htr);
      [lia|lia|intros b Hb; apply Hwaits; lia|].
    exists st'. split; [exact Hrun|].
    rewrite Htr, (_call_llm_eq _ _ _ _ Hpair). simpl.
    rewrite <- !app_assoc. reflexivity.
Qed.

(** C5. The gateway calls the model again only after a failure whose
    lowercased message holds "429", "quota" or "rate limit".  A first
    failure without these markers leaves the gateway at once, as the same
    exception, after one call and no wait.  In every run the calls number
    at most [max_retries], and the wait after attempt [a] is
    [retry_delay * 2 ^ a].  When every attempt is turned away as a rate
    limit and every wait can be made, the gateway makes exactly
    [max_retries] calls and then gives up; when the wait after attempt
    [a] is the first that cannot be made (the product cannot be taken
    from attempt 1024 on, and [time.sleep] rejects some lengths), the
    gateway makes [a + 1] calls and is left by the exception of that
    wait. *)
Theorem gateway_retries_only_rate_limits (prompt : string) (st : state W) :
  (exists k, (k <= Z.to_nat (max_retries self))%nat
             /\ trace (snd (_call_llm_with_retry B self prompt st))
                = trace st ++ attempt_events self prompt 0 k)
  /\ (forall (left : nat) (attempt : Z) (st0 : state W),
        (S (generate_count (trace st0))
         < generate_count (trace (snd (retry_loop B self (S left) attempt prompt st0))))%nat ->
        exists e, fst (_call_llm B self prompt st0) = Raise e
                  /\ is_rate_limit (Str.lower (exn_msg e)) = true)
  /\ (forall e : exn,
        0 < max_retries self ->
        fst (_call_llm B self prompt st) = Raise e ->
        is_rate_limit (Str.lower (exn_msg e)) = false ->
        exists st1, _call_llm_with_retry B self prompt st = (Raise e, st1)
                    /\ trace st1 = trace st ++ [EvGenerate prompt])
  /\ ((forall st0, exists e, fst (_call_llm B self prompt st0) = Raise e
                             /\ is_rate_limit (Str.lower (exn_msg e)) = true) ->
      0 < max_retries self ->
      (forall a, 0 <= a < max_retries self - 1 ->
                 exists seconds, waited B self a = Ok seconds) ->
      exists st', _call_llm_with_retry B self prompt st
                  = (Raise (rate_limit_exceeded B self), st')
                  /\ trace st' = trace st
                                 ++ attempt_events self prompt 0 (Z.to_nat (max_retries self)))
  /\ ((forall st0, exists e, fst (_call_llm B self prompt st0) = Raise e
                             /\ is_rate_limit (Str.lower (exn_msg e)) = true) ->
      forall (a : Z) (e' : exn),
        0 <= a < max_retries self - 1 ->
        (forall b, 0 <= b < a -> exists seconds, waited B self b = Ok seconds) ->
        waited B self a = Raise e' ->
        exists st', _call_llm_with_retry B self prompt st = (Raise e', st')
                    /\ trace st' = trace st
                                   ++ attempt_events self prompt 0 (Z.to_nat (a + 1)))
  /\ (forall a, 1024 <= a ->
        waited B self a = Raise (OverflowError "int too large to convert to float")).
Proof.
  split; [|split; [|split; [|split; [|split]]]].
  - destruct (retry_loop_shape (Z.to_nat (max_retries self)) prompt 0 st) as (k & Hk & _ & Htr).
    { destruct (Z.to_nat (max_retries self)) eqn:Hn; [left; reflexivity|right; lia]. }
    exists k. split; [exact Hk|exact Htr].
  - intros left attempt st0 Hmore.
    destruct (_call_llm B self prompt st0) as [r st1] eqn:Hcall;
      pose proof (_call_llm_eq _ _ _ _ Hcall) as Hst1.
    destruct (_call_llm_returns prompt st0) as [r' Hr]. rewrite Hcall in Hr. simpl in Hr.
    subst r. destruct r' as [parsed|e].
    { rewrite (retry_loop_ok _ _ _ _ _ _ Hcall) in Hmore. subst st1. simpl in Hmore.
      rewrite generate_count_app in Hmore. simpl in Hmore. lia. }
    destruct (is_rate_limit (Str.lower (exn_msg e))) eqn:Hrl.
    { exists e. split; [reflexivity|exact Hrl]. }
    rewrite (retry_loop_fatal _ _ _ _ _ _ Hcall Hrl) in Hmore. subst st1. simpl in Hmore.
    rewrite generate_count_app in Hmore. simpl in Hmore. lia.
  - intros e Hpos Hcall Hrl.
    destruct (_call_llm B self prompt st) as [r st1] eqn:Hpair. simpl in Hcall. subst r.
    exists st1. unfold _call_llm_with_retry.
    destruct (Z.to_nat (max_retries self)) as [|left] eqn:Hn; [lia|].
    rewrite (retry_loop_fatal _ _ _ _ _ _ Hpair Hrl).
    rewrite (_call_llm_eq _ _ _ _ Hpair). split; reflexivity.
  - intros Hall Hpos Hwaits. unfold _call_llm_with_retry.
    destruct (Z.to_nat (max_retries self)) as [|left] eqn:Hn; [lia|].
    apply retry_loop_all_rate_limited; [exact Hall|lia|exact Hwaits].
  - intros Hall a e' Ha Hwaits Hfail. unfold _call_llm_with_retry.
    replace (Z.to_nat (a + 1)) with (S (Z.to_nat a)) by lia.
    apply (retry_loop_first_failed_wait prompt a e' Hall); [lia|exact Hfail|lia|lia|].
    intros b Hb. apply Hwaits. lia.
  - exact waited_overflow.
Qed.

End GatewayFacts.

Lemma gateway_retries_only_rate_limits_witness :
  (exists st',
      _call_llm_with_retry DemoGateway.B DemoGateway.throttled "p" DemoGateway.start
      = (Raise (RuntimeError
                  "Rate limit exceeded after 3 attempts. Please wait and try again."), st')
      /\ trace st' = [EvGenerate "p"; EvSleep (QArith_base.Qmake 2 1);
                      EvGenerate "p"; EvSleep (QArith_base.Qmake 4 1);
                      EvGenerate "p"])
  /\ (exists st1,
         _call_llm_with_retry DemoGateway.B DemoGateway.offline "p" DemoGateway.start
         = (Raise (RuntimeError "LLM error: Connection reset by peer"), st1)
         /\ trace st1 = [EvGenerate "p"])
  /\ (exists st',
         _call_llm_with_retry DemoGateway.B DemoOverflow.agent "p" DemoGateway.start
         = (Raise (OverflowError "int too large to convert to float"), st')
         /\ generate_count (trace st') = 1025%nat).
Proof.
  split; [|split].
  - destruct (gateway_retries_only_rate_limits DemoGateway.B DemoGateway.throttled "p"
                DemoGateway.start) as (_ & _ & _ & Hall & _).
    apply Hall.
    + intros st0. eexists. split; reflexivity.
    + reflexivity.
    + intros a Ha. assert (Hcases : a = 0 \/ a = 1) by (simpl in Ha; lia).
      destruct Hcases as [-> | ->]; eexists; reflexivity.
  - destruct (gateway_retries_only_rate_limits DemoGateway.B DemoGateway.offline "p"
                DemoGateway.start) as (_ & _ & Hfatal & _).
    apply (Hfatal (RuntimeError "LLM error: Connection reset by peer"));
      reflexivity.
  - destruct (gateway_retries_only_rate_limits DemoGateway.B DemoOverflow.agent "p"
                DemoGateway.start) as (_ & _ & _ & _ & Hfirst & Hover).
    destruct (Hfirst ltac:(intros st0; eexists; split; reflexivity) 1024
                (OverflowError "int too large to convert to float"))
      as (st' & Hrun & Htr).
    + simpl. lia.
    + intros b Hb. exists (QArith_base.Qmake 0 1).
      unfold waited, wait_time. destruct (Z.leb_spec 1024 b); [lia|]. reflexivity.
    + apply Hover. lia.
    + exists st'. split; [exact Hrun|]. rewrite Htr. vm_compute. reflexivity.
Defined.

(** ** Tool dispatch *)

Lemma contains_step (pat : string) (c : ascii) (s : string) :
  Str.contains pat (String c s)
  = if String.prefix pat (String c s) then true else Str.contains pat s.
Proof. reflexivity. Qed.

Lemma contains_append_r (pat s1 s2 : string) :
  Str.contains pat s2 = true -> Str.contains pat (s1 +:+ s2) = true.
Proof.
  intros H. induction s1 as [|c s1 IH]; [exact H|].
  change (String c s1 +:+ s2) with (String c (s1 +:+ s2)).
  rewrite contains_step, IH. destruct (String.prefix _ _); reflexivity.
Qed.

Lemma contains_not_found (key : string) :
  Str.contains "not found" ("Tool '" +:+ key +:+ "' not found") = true.
Proof. do 2 apply contains_append_r. reflexivity. Qed.

Section DispatchFacts.
Context {W : Type} (B : Builtins) (self : DataAnalyticsAgent W).

Lemma _execute_tool_unknown (key : string) (parameters : pyval) (st : state W) :
  tools self !! key = None ->
  _execute_tool B self (PStr key) parameters st = (Ok (tool_not_found B (PStr key)), st).
Proof. intros H. unfold _execute_tool. simpl. rewrite H. reflexivity. Qed.

Lemma _execute_tool_raises (key : string) (tool : BaseTool W)
    (kwargs : list (string * pyval)) (e : exn) (w' : W) (st : state W) :
  tools self !! key = Some tool ->
  execute tool kwargs (world st) = (Raise e, w') ->
  _execute_tool B self (PStr key) (PDict kwargs) st
  = (Ok (tool_error e), executed key kwargs w' st).
Proof.
  intros Htool Hrun. unfold _execute_tool. simpl. rewrite Htool.
  unfold try_except, call_execute. rewrite Hrun. reflexivity.
Qed.

Lemma _execute_tool_returns (key : string) (tool : BaseTool W)
    (kwargs : list (string * pyval)) (v : pyval) (w' : W) (st : state W) :
  tools self !! key = Some tool ->
  execute tool kwargs (world st) = (Ok v, w') ->
  _execute_tool B self (PStr key) (PDict kwargs) st
  = (Ok v, executed key kwargs w' st).
Proof.
  intros Htool Hrun. unfold _execute_tool. simpl. rewrite Htool.
  unfold try_except, call_execute. rewrite Hrun. reflexivity.
Qed.

(** A value that is not a mapping cannot be unpacked; the error of the
    call is caught like one of the handler. *)
Lemma _execute_tool_not_a_mapping (key : string) (tool : BaseTool W)
    (parameters : pyval) (st : state W) :
  tools self !! key = Some tool ->
  Py.is_dict parameters = false ->
  exists e, _execute_tool B self (PStr key) parameters st = (Ok (tool_error e), st).
Proof.
  intros Htool Hnd. unfold _execute_tool. simpl. rewrite Htool.
  unfold try_except, call_execute.
  destruct parameters; try discriminate; eexists; reflexivity.
Qed.

(** An exception outside [Exception] passes the [except] clause of the
    dispatch. *)
Lemma _execute_tool_escapes (key : string) (tool : BaseTool W)
    (kwargs : list (string * pyval)) (e : exn) (w' : W) (st : state W) :
  tools self !! key = Some tool ->
  execute tool kwargs (world st) = (Escaped e, w') ->
  _execute_tool B self (PStr key) (PDict kwargs) st
  = (Escaped e, executed key kwargs w' st).
Proof.
  intros Htool Hrun. unfold _execute_tool. simpl. rewrite Htool.
  unfold try_except, call_execute. rewrite Hrun. reflexivity.
Qed.

(** Dispatch by a name that is a string returns unless the handler is
    left by an exception outside [Exception]; it keeps the memory and adds
    at most one handler call to the trace. *)
Lemma _execute_tool_total (key : string) (parameters : pyval) (st : state W) :
  exists out st', _execute_tool B self (PStr key) parameters st = (out, st')
                  /\ memory st' = memory st
                  /\ (execute_count (trace st') <= S (execute_count (trace st)))%nat
                  /\ ((exists v, out = Ok v)
                      \/ exists tool kwargs e,
                           tools self !! key = Some tool /\ parameters = PDict kwargs
                           /\ fst (execute tool kwargs (world st)) = Escaped e
                           /\ out = Escaped e).
Proof.
  destruct (tools self !! key) as [tool|] eqn:Htool.
  - destruct parameters as [| | | | |l|kwargs].
    1-6: (match goal with
          | |- context [_execute_tool _ _ _ ?p _] =>
              destruct (_execute_tool_not_a_mapping key tool p st Htool eq_refl) as [e He]
          end;
          rewrite He; do 2 eexists; split; [reflexivity|split; [reflexivity|split; [lia|]]];
          left; eexists; reflexivity).
    destruct (execute tool kwargs (world st)) as [[[v|e]|e] w'] eqn:Hrun.
    + rewrite (_execute_tool_returns _ _ _ _ _ _ Htool Hrun).
      do 2 eexists; split; [reflexivity|split; [reflexivity|split]].
      * simpl. rewrite execute_count_app. simpl. lia.
      * left. eexists; reflexivity.
    + rewrite (_execute_tool_raises _ _ _ _ _ _ Htool Hrun).
      do 2 eexists; split; [reflexivity|split; [reflexivity|split]].
      * simpl. rewrite execute_count_app. simpl. lia.
      * left. eexists; reflexivity.
    + rewrite (_execute_tool_escapes _ _ _ _ _ _ Htool Hrun).
      do 2 eexists; split; [reflexivity|split; [reflexivity|split]].
      * simpl. rewrite execute_count_app. simpl. lia.
      * right. exists tool, kwargs, e. rewrite Hrun. auto.
  - rewrite (_execute_tool_unknown _ _ _ Htool).
    do 2 eexists; split; [reflexivity|split; [reflexivity|split; [lia|]]].
    left. eexists; reflexivity.
Qed.

Lemma _summarize_result_dict (r : list (string * pyval)) :
  exists summary, _summarize_result B (PDict r) = Ok summary.
Proof.
  unfold _summarize_result. simpl.
  destruct (Py.eq_str _ "error"); [eexists; reflexivity|].
  destruct (500 <? _)%nat; eexists; reflexivity.
Qed.

Lemma track_visualizations_dict (action : pyval) (r : list (string * pyval))
    (visualizations : list pyval) :
  exists visualizations',
    track_visualizations action (PDict r) visualizations = Ok visualizations'.
Proof.
  unfold track_visualizations. simpl.
  destruct (Py.eq_str action "visualize"); [|eexists; reflexivity].
  destruct (Py.eq_str _ "success"); [|eexists; reflexivity].
  destruct (match Py.lookup "data" r with Some x => x | None => PDict [] end);
    try (eexists; reflexivity).
  destruct (Py.lookup "filepath" kvs); eexists; reflexivity.
Qed.

Lemma _summarize_result_tool_error (e : exn) :
  _summarize_result B (tool_error e) = Ok ("Error: Tool error: " +:+ exn_msg e).
Proof. reflexivity. Qed.

Lemma track_visualizations_tool_error (action : pyval) (e : exn)
    (visualizations : list pyval) :
  track_visualizations action (tool_error e) visualizations = Ok visualizations.
Proof.
  unfold track_visualizations. destruct (Py.eq_str action "visualize"); reflexivity.
Qed.

End DispatchFacts.

(** ** The loop *)

Section LoopFacts.
Context {W : Type} (B : Builtins) (C : Collaborators W) (self : DataAnalyticsAgent W).

Lemma _build_context_prompt_state (user_query : string) (i : Z) (st : state W) :
  snd (_build_context_prompt B C self user_query i st) = st.
Proof. reflexivity. Qed.

Lemma run_loop_unfold (left : nat) (user_query : string) (i : Z)
    (visualizations conversation_history : list pyval) (st : state W) :
  run_loop B C self (S left) user_query i visualizations conversation_history st
  = match fst (_build_context_prompt B C self user_query (i + 1) st) with
    | Done (Raise e) => (Ok (prompt_error e (i + 1)), st)
    | Escaped e => (Escaped e, st)
    | Done (Ok agent_prompt) =>
        match _call_llm_with_retry B self agent_prompt st with
        | (Done (Raise e), st2) => (Ok (llm_error e (i + 1)), st2)
        | (Escaped e, st2) => (Escaped e, st2)
        | (Done (Ok llm_response), st2) =>
            match act B C self user_query (i + 1) visualizations conversation_history
                    llm_response st2 with
            | (Done (Raise e), st3) => (Raise e, st3)
            | (Escaped e, st3) => (Escaped e, st3)
            | (Done (Ok (inl returned)), st3) => (Ok returned, st3)
            | (Done (Ok (inr (visualizations', conversation_history'))), st3) =>
                run_loop B C self left user_query (i + 1) visualizations'
                  conversation_history' st3
            end
        end
    end.
Proof.
  cbn [run_loop]. unfold bind at 1. unfold attempt at 1.
  destruct (_build_context_prompt B C self user_query (i + 1) st) as [[[p|e]|e] st1] eqn:Hb;
    pose proof (_build_context_prompt_state user_query (i + 1) st) as Hst;
    rewrite Hb in Hst; simpl in Hst; subst st1; simpl; [|reflexivity..].
  unfold bind at 1. unfold attempt at 1.
  destruct (_call_llm_with_retry B self p st) as [[[resp|e]|e] st2]; simpl; [|reflexivity..].
  unfold bind at 1.
  destruct (act B C self user_query (i + 1) visualizations conversation_history resp st2)
    as [[[[d|[v h]]|e]|e] st3]; reflexivity.
Qed.


End LoopFacts.

(** ** Dictionaries and decisions *)

Lemma lookup_store_eq (k : string) (x : pyval) (kvs : list (string * pyval)) :
  Py.lookup k (Py.store k x kvs) = Some x.
Proof.
  induction kvs as [|[k' v] kvs IH]; simpl.
  - rewrite String.eqb_refl. reflexivity.
  - destruct (String.eqb k' k) eqn:Hk; simpl; rewrite Hk; [reflexivity|exact IH].
Qed.

Lemma lookup_store_ne (k k' : string) (x : pyval) (kvs : list (string * pyval)) :
  String.eqb k' k = false ->
  Py.lookup k (Py.store k' x kvs) = Py.lookup k kvs.
Proof.
  intros Hne. induction kvs as [|[k0 v] kvs IH]; simpl.
  - rewrite Hne. reflexivity.
  - destruct (String.eqb k0 k') eqn:Hk0; simpl.
    + destruct (String.eqb k0 k) eqn:Hk; [|reflexivity].
      apply String.eqb_eq in Hk0, Hk. subst. rewrite String.eqb_refl in Hne. discriminate.
    + rewrite IH. reflexivity.
Qed.

Section DecisionFacts.
Context (B : Builtins).

(** What validation leaves of a [DONE] response whose [parameters] are
    missing or a mapping [p]: the other keys as they were, and
    [parameters] holding [p], with the top-level answer added when [p]
    has none and the response has one. *)
Lemma validate_done (d p : list (string * pyval)) (th : pyval) :
  Py.lookup "thought" d = Some th ->
  Py.lookup "action" d = Some (PStr "DONE") ->
  Py.get (PDict d) "parameters" (PDict []) = Ok (PDict p) ->
  exists d',
    validate B (PDict d) = Ok (PDict d')
    /\ Py.lookup "thought" d' = Some th
    /\ Py.lookup "action" d' = Some (PStr "DONE")
    /\ Py.lookup "parameters" d'
       = Some (PDict (match Py.lookup "answer" p, Py.lookup "answer" d with
                      | None, Some a => Py.store "answer" a p
                      | _, _ => p
                      end)).
Proof.
  intros Hth Hact Hpar. unfold validate. simpl. rewrite Hth, Hact. simpl.
  simpl in Hpar.
  destruct (Py.lookup "parameters" d) as [params|] eqn:Hp; simpl.
  - injection Hpar as ->. rewrite Hact, Hp. simpl.
    destruct (Py.lookup "answer" p) as [a|] eqn:Ha; simpl.
    + exists d. auto.
    + destruct (Py.lookup "answer" d) as [a|] eqn:Hd; simpl.
      * eexists. split; [reflexivity|].
        rewrite !lookup_store_ne by reflexivity. rewrite lookup_store_eq. auto.
      * exists d. auto.
  - injection Hpar as <-.
    rewrite !lookup_store_ne by reflexivity. rewrite Hact, lookup_store_eq. simpl.
    rewrite !lookup_store_ne by reflexivity.
    destruct (Py.lookup "answer" d) as [a|] eqn:Hd; simpl.
    + eexists. split; [reflexivity|].
      rewrite !lookup_store_ne by reflexivity. rewrite !lookup_store_eq.
      auto.
    + eexists. split; [reflexivity|].
      rewrite !lookup_store_ne by reflexivity. rewrite lookup_store_eq. auto.
Qed.

End DecisionFacts.

Section GatewayQuiet.
Context {W : Type} (B : Builtins) (self : DataAnalyticsAgent W).

(** The gateway neither touches the memory nor calls a tool. *)
Lemma retry_loop_quiet (left : nat) (prompt : string) :
  forall (attempt : Z) (st : state W),
    memory (snd (retry_loop B self left attempt prompt st)) = memory st
    /\ execute_count (trace (snd (retry_loop B self left attempt prompt st)))
       = execute_count (trace st).
Proof.
  induction left as [|left IH]; intros attempt st; [split; reflexivity|].
  assert (Hcalled : memory (called self prompt st) = memory st
                    /\ execute_count (trace (called self prompt st))
                       = execute_count (trace st)).
  { split; [reflexivity|]. simpl. rewrite execute_count_app. simpl. lia. }
  destruct (_call_llm B self prompt st) as [r st1] eqn:Hcall;
    pose proof (_call_llm_eq _ _ _ _ _ _ Hcall) as Hst1.
  destruct (_call_llm_returns B self prompt st) as [r' Hr]. rewrite Hcall in Hr.
  simpl in Hr. subst r. destruct r' as [parsed|e].
  { rewrite (retry_loop_ok _ _ _ _ _ _ _ _ Hcall). subst st1. exact Hcalled. }
  destruct (is_rate_limit (Str.lower (exn_msg e))) eqn:Hrl.
  2:{ rewrite (retry_loop_fatal _ _ _ _ _ _ _ _ Hcall Hrl). subst st1. exact Hcalled. }
  destruct (Z.lt_ge_cases attempt (max_retries self - 1)) as [Hlt|Hge].
  2:{ rewrite (retry_loop_exhausted _ _ _ _ _ _ _ _ Hcall Hrl Hge). subst st1.
      exact Hcalled. }
  destruct (waited B self attempt) as [seconds|e'] eqn:Hwait.
  2:{ rewrite (retry_loop_wait_fails _ _ _ _ _ _ _ _ _ Hcall Hrl Hlt Hwait). subst st1.
      exact Hcalled. }
  destruct (retry_loop_again B self left _ _ _ _ _ _ Hcall Hrl Hlt Hwait) as [_ ->].
  destruct (IH (attempt + 1) (slept (backoff self attempt) st1)) as [Hm Hx].
  rewrite Hm, Hx. subst st1. simpl. rewrite !execute_count_app. simpl.
  split; [reflexivity|lia].
Qed.

Lemma _call_llm_with_retry_quiet (prompt : string) (st st2 : state W) (r : outcome pyval) :
  _call_llm_with_retry B self prompt st = (r, st2) ->
  memory st2 = memory st /\ execute_count (trace st2) = execute_count (trace st).
Proof.
  intros H. pose proof (retry_loop_quiet (Z.to_nat (max_retries self)) prompt 0 st) as Hq.
  unfold _call_llm_with_retry in H. rewrite H in Hq. exact Hq.
Qed.

(** A response that parses to a dictionary and passes validation is what
    the gateway returns, after one call. *)
Lemma _call_llm_valid (prompt content : string) (st : state W) (w' : W)
    (parsed resp : pyval) :
  llm self prompt (world st) = (Ok content, w') ->
  parse_response B content = Ok parsed ->
  validate B parsed = Ok resp ->
  _call_llm B self prompt st = (Ok resp, called self prompt st).
Proof.
  intros Hllm Hparse Hval.
  unfold _call_llm, try_except, bind, generate_content, lift, called.
  rewrite Hllm. simpl. rewrite Hparse. simpl. rewrite Hval. reflexivity.
Qed.

Lemma _call_llm_invalid (prompt content : string) (st : state W) (w' : W)
    (parsed : pyval) (e : exn) :
  llm self prompt (world st) = (Ok content, w') ->
  parse_response B content = Ok parsed ->
  validate B parsed = Raise e ->
  _call_llm B self prompt st
  = (Raise (RuntimeError ("LLM error: " +:+ exn_msg e)), called self prompt st).
Proof.
  intros Hllm Hparse Hval.
  unfold _call_llm, try_except, bind, generate_content, lift, raise, called.
  rewrite Hllm. simpl. rewrite Hparse. simpl. rewrite Hval. reflexivity.
Qed.

Lemma _call_llm_with_retry_first (prompt content : string) (st : state W) (w' : W)
    (parsed resp : pyval) :
  0 < max_retries self ->
  llm self prompt (world st) = (Ok content, w') ->
  parse_response B content = Ok parsed ->
  validate B parsed = Ok resp ->
  _call_llm_with_retry B self prompt st = (Ok resp, called self prompt st).
Proof.
  intros Hpos Hllm Hparse Hval. unfold _call_llm_with_retry.
  destruct (Z.to_nat (max_retries self)) as [|left] eqn:Hn; [lia|].
  apply retry_loop_ok. apply (_call_llm_valid _ _ _ _ _ _ Hllm Hparse Hval).
Qed.

End GatewayQuiet.

Section ActFacts.
Context {W : Type} (B : Builtins) (C : Collaborators W) (self : DataAnalyticsAgent W).

Lemma _print_step_dict (kwargs : list (string * pyval)) :
  (if verbose self then _print_step self (PDict kwargs) else Ok tt) = Ok tt.
Proof.
  unfold _print_step. destruct (verbose self); simpl; [|reflexivity].
  destruct kwargs; reflexivity.
Qed.

(** A [DONE] decision ends the run: with its answer, or with the error
    for a missing one. *)
Lemma act_done (user_query : string) (i : Z) (visualizations history : list pyval)
    (resp thought : pyval) (p : list (string * pyval)) (st : state W) :
  Py.get resp "thought" (PStr EmptyString) = Ok thought ->
  Py.get resp "action" (PStr EmptyString) = Ok (PStr "DONE") ->
  Py.get resp "parameters" (PDict []) = Ok (PDict p) ->
  act B C self user_query i visualizations history resp st
  = (Ok (inl (if Py.truthy (answer_or_empty (Py.lookup "answer" p))
              then success (answer_or_empty (Py.lookup "answer" p))
                     visualizations i history
              else no_answer i)), st).
Proof.
  intros Hth Hact Hpar. unfold act, bind, lift. rewrite Hth, Hact, Hpar.
  rewrite _print_step_dict. simpl.
  unfold answer_or_empty.
  destruct (Py.truthy _); reflexivity.
Qed.

(** Any other decision dispatches a tool and records the turn. *)
Lemma act_dispatch (user_query : string) (i : Z) (visualizations history : list pyval)
    (resp thought result : pyval) (key : string) (kwargs : list (string * pyval))
    (st st3 : state W) (summary : string) (visualizations' : list pyval) :
  Py.get resp "thought" (PStr EmptyString) = Ok thought ->
  Py.get resp "action" (PStr EmptyString) = Ok (PStr key) ->
  Py.get resp "parameters" (PDict []) = Ok (PDict kwargs) ->
  String.eqb key "DONE" = false ->
  _execute_tool B self (PStr key) (PDict kwargs) st = (Ok result, st3) ->
  _summarize_result B result = Ok summary ->
  track_visualizations (PStr key) result visualizations = Ok visualizations' ->
  act B C self user_query i visualizations history resp st
  = (Ok (inr (visualizations',
              history ++ [history_entry i thought (PStr key) (PDict kwargs) result])),
     recorded C user_query thought (PStr key) (PDict kwargs) summary st3).
Proof.
  intros Hth Hact Hpar Hkey Hrun Hsum Hviz. unfold act, bind, lift.
  rewrite Hth, Hact, Hpar, _print_step_dict. simpl. rewrite Hkey, Hrun.
  rewrite Hsum, Hviz. reflexivity.
Qed.

End ActFacts.

Section LoopSteps.
Context {W : Type} (B : Builtins) (C : Collaborators W) (self : DataAnalyticsAgent W).

(** One pass of the loop that dispatches a tool and goes on. *)
Lemma run_loop_dispatch (left : nat) (user_query : string) (i : Z)
    (visualizations history : list pyval) (st st2 st3 : state W) (prompt : string)
    (resp thought result : pyval) (key : string) (kwargs : list (string * pyval))
    (summary : string) (visualizations' : list pyval) :
  fst (_build_context_prompt B C self user_query (i + 1) st) = Ok prompt ->
  _call_llm_with_retry B self prompt st = (Ok resp, st2) ->
  Py.get resp "thought" (PStr EmptyString) = Ok thought ->
  Py.get resp "action" (PStr EmptyString) = Ok (PStr key) ->
  Py.get resp "parameters" (PDict []) = Ok (PDict kwargs) ->
  String.eqb key "DONE" = false ->
  _execute_tool B self (PStr key) (PDict kwargs) st2 = (Ok result, st3) ->
  _summarize_result B result = Ok summary ->
  track_visualizations (PStr key) result visualizations = Ok visualizations' ->
  run_loop B C self (S left) user_query i visualizations history st
  = run_loop B C self left user_query (i + 1) visualizations'
      (history ++ [history_entry (i + 1) thought (PStr key) (PDict kwargs) result])
      (recorded C user_query thought (PStr key) (PDict kwargs) summary st3).
Proof.
  intros Hprompt Hgate Hth Hact Hpar Hkey Hrun Hsum Hviz.
  rewrite run_loop_unfold, Hprompt, Hgate.
  rewrite (act_dispatch B C self _ _ _ _ _ _ _ _ _ _ _ _ _
             Hth Hact Hpar Hkey Hrun Hsum Hviz).
  reflexivity.
Qed.

(** One pass of the loop that receives a [DONE] decision. *)
Lemma run_loop_done (left : nat) (user_query : string) (i : Z)
    (visualizations history : list pyval) (st st2 : state W) (prompt : string)
    (resp thought : pyval) (p : list (string * pyval)) :
  fst (_build_context_prompt B C self user_query (i + 1) st) = Ok prompt ->
  _call_llm_with_retry B self prompt st = (Ok resp, st2) ->
  Py.get resp "thought" (PStr EmptyString) = Ok thought ->
  Py.get resp "action" (PStr EmptyString) = Ok (PStr "DONE") ->
  Py.get resp "parameters" (PDict []) = Ok (PDict p) ->
  run_loop B C self (S left) user_query i visualizations history st
  = (Ok (if Py.truthy (answer_or_empty (Py.lookup "answer" p))
         then success (answer_or_empty (Py.lookup "answer" p))
                visualizations (i + 1) history
         else no_answer (i + 1)), st2).
Proof.
  intros Hprompt Hgate Hth Hact Hpar.
  rewrite run_loop_unfold, Hprompt, Hgate.
  rewrite (act_done B C self _ _ _ _ _ _ _ _ Hth Hact Hpar).
  reflexivity.
Qed.

(** A handler that is left by an exception outside [Exception] takes the
    pass of the loop with it. *)
Lemma run_loop_escapes (left : nat) (user_query : string) (i : Z)
    (visualizations history : list pyval) (st st2 : state W) (prompt : string)
    (resp thought : pyval) (key : string) (kwargs : list (string * pyval))
    (tool : BaseTool W) (e : exn) (w' : W) :
  fst (_build_context_prompt B C self user_query (i + 1) st) = Ok prompt ->
  _call_llm_with_retry B self prompt st = (Ok resp, st2) ->
  Py.get resp "thought" (PStr EmptyString) = Ok thought ->
  Py.get resp "action" (PStr EmptyString) = Ok (PStr key) ->
  Py.get resp "parameters" (PDict []) = Ok (PDict kwargs) ->
  String.eqb key "DONE" = false ->
  tools self !! key = Some tool ->
  execute tool kwargs (world st2) = (Escaped e, w') ->
  run_loop B C self (S left) user_query i visualizations history st
  = (Escaped e, executed key kwargs w' st2).
Proof.
  intros Hprompt Hgate Hth Hact Hpar Hkey Htool Hrun.
  rewrite run_loop_unfold, Hprompt, Hgate.
  unfold act, bind, lift. rewrite Hth, Hact, Hpar, _print_step_dict. simpl.
  rewrite Hkey, (_execute_tool_escapes B self _ _ _ _ _ _ Htool Hrun). reflexivity.
Qed.

(** C6, as the code has it.  Dispatch of a tool name with a parameter
    mapping returns unless the handler is left by an exception outside
    class [Exception], which then leaves the dispatch and the loop as
    well.  An unregistered name gives a result with status "error" whose
    message holds "not found".  For a registered name the handler's value
    is passed on, and an exception of class [Exception] is caught and
    turned into a result with status "error" that carries the exception's
    message; so the result is a dictionary whenever the handler keeps to
    the signature of [BaseTool.execute].  After a handler's exception,
    and after an unknown name, the loop records the turn and goes on with
    the next iteration. *)
Theorem execute_tool_catches_exceptions (key : string) (kwargs : list (string * pyval))
    (st : state W) :
  ((forall tool, tools self !! key = Some tool ->
                 exists r, fst (execute tool kwargs (world st)) = Done r) ->
   exists v st', _execute_tool B self (PStr key) (PDict kwargs) st = (Ok v, st'))
  /\ (tools self !! key = None ->
      _execute_tool B self (PStr key) (PDict kwargs) st
      = (Ok (PDict [("status", PStr "error");
                    ("error_message", PStr ("Tool '" +:+ key +:+ "' not found"))]), st)
      /\ Str.contains "not found" ("Tool '" +:+ key +:+ "' not found") = true)
  /\ (forall tool e w',
        tools self !! key = Some tool ->
        execute tool kwargs (world st) = (Raise e, w') ->
        _execute_tool B self (PStr key) (PDict kwargs) st
        = (Ok (PDict [("status", PStr "error");
                      ("error_message", PStr ("Tool error: " +:+ exn_msg e))]),
           executed key kwargs w' st))
  /\ (forall tool v w',
        tools self !! key = Some tool ->
        execute tool kwargs (world st) = (Ok v, w') ->
        _execute_tool B self (PStr key) (PDict kwargs) st
        = (Ok v, executed key kwargs w' st))
  /\ ((forall tool, tools self !! key = Some tool ->
                    returns_dict (fst (execute tool kwargs (world st)))) ->
      exists r st', _execute_tool B self (PStr key) (PDict kwargs) st = (Ok (PDict r), st'))
  /\ (forall tool e w',
        tools self !! key = Some tool ->
        execute tool kwargs (world st) = (Escaped e, w') ->
        _execute_tool B self (PStr key) (PDict kwargs) st
        = (Escaped e, executed key kwargs w' st))
  /\ (forall left user_query i visualizations history st0 prompt resp thought,
        fst (_build_context_prompt B C self user_query (i + 1) st0) = Ok prompt ->
        _call_llm_with_retry B self prompt st0 = (Ok resp, st) ->
        Py.get resp "thought" (PStr EmptyString) = Ok thought ->
        Py.get resp "action" (PStr EmptyString) = Ok (PStr key) ->
        Py.get resp "parameters" (PDict []) = Ok (PDict kwargs) ->
        String.eqb key "DONE" = false ->
        (forall tool e w',
            tools self !! key = Some tool ->
            execute tool kwargs (world st) = (Raise e, w') ->
            run_loop B C self (S left) user_query i visualizations history st0
            = run_loop B C self left user_query (i + 1) visualizations
                (history ++ [history_entry (i + 1) thought (PStr key) (PDict kwargs)
                               (tool_error e)])
                (recorded C user_query thought (PStr key) (PDict kwargs)
                   ("Error: Tool error: " +:+ exn_msg e) (executed key kwargs w' st)))
        /\ (tools self !! key = None ->
            run_loop B C self (S left) user_query i visualizations history st0
            = run_loop B C self left user_query (i + 1) visualizations
                (history ++ [history_entry (i + 1) thought (PStr key) (PDict kwargs)
                               (tool_not_found B (PStr key))])
                (recorded C user_query thought (PStr key) (PDict kwargs)
                   ("Error: Tool '" +:+ key +:+ "' not found") st))
        /\ (forall tool e w',
               tools self !! key = Some tool ->
               execute tool kwargs (world st) = (Escaped e, w') ->
               run_loop B C self (S left) user_query i visualizations history st0
               = (Escaped e, executed key kwargs w' st))).
Proof.
  split; [|split; [|split; [|split; [|split; [|split]]]]].
  - intros Hcaught.
    destruct (_execute_tool_total B self key (PDict kwargs) st)
      as (out & st' & H & _ & _ & [[v ->]|(tool & kw & e & Htool & [= <-] & Hesc & _)]).
    + eauto.
    + destruct (Hcaught tool Htool) as [r Hr]. rewrite Hr in Hesc. discriminate.
  - intros Hnone. split; [|apply contains_not_found].
    apply _execute_tool_unknown. exact Hnone.
  - intros tool e w' Htool Hrun. apply (_execute_tool_raises B self _ _ _ _ _ _ Htool Hrun).
  - intros tool v w' Htool Hrun. apply (_execute_tool_returns B self _ _ _ _ _ _ Htool Hrun).
  - intros Htyped. destruct (tools self !! key) as [tool|] eqn:Htool.
    + specialize (Htyped tool eq_refl).
      destruct (execute tool kwargs (world st)) as [[[v|e]|e] w'] eqn:Hrun; simpl in Htyped.
      * destruct v; try discriminate.
        rewrite (_execute_tool_returns B self _ _ _ _ _ _ Htool Hrun). eauto.
      * rewrite (_execute_tool_raises B self _ _ _ _ _ _ Htool Hrun).
        unfold tool_error. eauto.
      * contradiction.
    + rewrite (_execute_tool_unknown B self _ _ _ Htool). unfold tool_not_found. eauto.
  - intros tool e w' Htool Hrun. apply (_execute_tool_escapes B self _ _ _ _ _ _ Htool Hrun).
  - intros left user_query i visualizations history st0 prompt resp thought
      Hprompt Hgate Hth Hact Hpar Hkey. split; [|split].
    + intros tool e w' Htool Hrun.
      apply (run_loop_dispatch left user_query i visualizations history st0 st
               (executed key kwargs w' st) prompt resp thought (tool_error e) key kwargs
               ("Error: Tool error: " +:+ exn_msg e) visualizations);
        try assumption.
      * apply (_execute_tool_raises B self _ _ _ _ _ _ Htool Hrun).
      * reflexivity.
      * apply track_visualizations_tool_error.
    + intros Hnone.
      apply (run_loop_dispatch left user_query i visualizations history st0 st st
               prompt resp thought (tool_not_found B (PStr key)) key kwargs
               ("Error: Tool '" +:+ key +:+ "' not found") visualizations);
        try assumption.
      * apply _execute_tool_unknown. exact Hnone.
      * reflexivity.
      * unfold track_visualizations. destruct (Py.eq_str (PStr key) "visualize"); reflexivity.
    + intros tool e w' Htool Hrun.
      apply (run_loop_escapes left user_query i visualizations history st0 st prompt resp
               thought key kwargs tool e w'); assumption.
Qed.

(** C7. A decision whose action is "DONE" and whose [parameters.answer]
    is missing or empty ends the run at once: [run] returns status
    "error" with the message "Agent finished without answer" and the
    number of the current iteration; no tool is called, the memory is
    untouched and no further iteration runs.  This holds for every
    decision the gateway hands to the loop; for a response that reaches
    the loop on the first call it holds when neither [parameters] nor the
    top level of the response carries a non-empty answer. *)
Theorem done_without_answer_ends_run (left : nat) (user_query : string) (i : Z)
    (visualizations history : list pyval) (st : state W) (prompt : string) :
  (forall resp st2 thought p,
      fst (_build_context_prompt B C self user_query (i + 1) st) = Ok prompt ->
      _call_llm_with_retry B self prompt st = (Ok resp, st2) ->
      Py.get resp "thought" (PStr EmptyString) = Ok thought ->
      Py.get resp "action" (PStr EmptyString) = Ok (PStr "DONE") ->
      Py.get resp "parameters" (PDict []) = Ok (PDict p) ->
      Py.truthy (answer_or_empty (Py.lookup "answer" p)) = false ->
      run_loop B C self (S left) user_query i visualizations history st
      = (Ok (PDict [("status", PStr "error");
                    ("error_message", PStr "Agent finished without answer");
                    ("iterations", PInt (i + 1))]), st2)
      /\ memory st2 = memory st
      /\ execute_count (trace st2) = execute_count (trace st))
  /\ (forall content w' d p th,
        fst (_build_context_prompt B C self user_query (i + 1) st) = Ok prompt ->
        0 < max_retries self ->
        llm self prompt (world st) = (Ok content, w') ->
        parse_response B content = Ok (PDict d) ->
        Py.lookup "thought" d = Some th ->
        Py.lookup "action" d = Some (PStr "DONE") ->
        Py.get (PDict d) "parameters" (PDict []) = Ok (PDict p) ->
        Py.truthy (answer_or_empty (carried_answer d p)) = false ->
        run_loop B C self (S left) user_query i visualizations history st
        = (Ok (PDict [("status", PStr "error");
                      ("error_message", PStr "Agent finished without answer");
                      ("iterations", PInt (i + 1))]), called self prompt st)
        /\ trace (called self prompt st) = trace st ++ [EvGenerate prompt]).
Proof.
  assert (Hgateway : forall resp st2 thought p,
      fst (_build_context_prompt B C self user_query (i + 1) st) = Ok prompt ->
      _call_llm_with_retry B self prompt st = (Ok resp, st2) ->
      Py.get resp "thought" (PStr EmptyString) = Ok thought ->
      Py.get resp "action" (PStr EmptyString) = Ok (PStr "DONE") ->
      Py.get resp "parameters" (PDict []) = Ok (PDict p) ->
      Py.truthy (answer_or_empty (Py.lookup "answer" p)) = false ->
      run_loop B C self (S left) user_query i visualizations history st
      = (Ok (no_answer (i + 1)), st2)).
  { intros resp st2 thought p Hprompt Hgate Hth Hact Hpar Hempty.
    rewrite (run_loop_done left user_query i visualizations history st st2 prompt
               resp thought p Hprompt Hgate Hth Hact Hpar).
    rewrite Hempty. reflexivity. }
  split.
  - intros resp st2 thought p Hprompt Hgate Hth Hact Hpar Hempty.
    split; [exact (Hgateway resp st2 thought p Hprompt Hgate Hth Hact Hpar Hempty)|].
    apply (_call_llm_with_retry_quiet B self prompt st st2 _ Hgate).
  - intros content w' d p th Hprompt Hpos Hllm Hparse Hth Hact Hpar Hempty.
    split; [|reflexivity].
    destruct (validate_done B d p th Hth Hact Hpar) as (d' & Hval & Hth' & Hact' & Hpar').
    eapply (Hgateway (PDict d') (called self prompt st) th).
    + exact Hprompt.
    + apply (_call_llm_with_retry_first B self _ _ _ _ _ _ Hpos Hllm Hparse Hval).
    + simpl. rewrite Hth'. reflexivity.
    + simpl. rewrite Hact'. reflexivity.
    + simpl. rewrite Hpar'. reflexivity.
    + unfold carried_answer in Hempty.
      destruct (Py.lookup "answer" p) as [a|] eqn:Hp; [rewrite Hp; exact Hempty|].
      destruct (Py.lookup "answer" d) as [a|] eqn:Hd.
      * rewrite lookup_store_eq. exact Hempty.
      * rewrite Hp. exact Hempty.
Qed.

(** C10. For a response with action "DONE", a top-level "answer" and
    [parameters] without an "answer" (missing, or a mapping that lacks
    the key), [_call_llm] returns the decision with the top-level answer
    stored as [parameters["answer"]].  The loop then takes it as a
    terminal decision: when the answer is not empty [run] returns status
    "success" with that answer. *)
Theorem top_level_answer_is_adopted (st : state W) (prompt content : string) (w' : W)
    (d p : list (string * pyval)) (th a : pyval) :
  llm self prompt (world st) = (Ok content, w') ->
  parse_response B content = Ok (PDict d) ->
  Py.lookup "thought" d = Some th ->
  Py.lookup "action" d = Some (PStr "DONE") ->
  Py.get (PDict d) "parameters" (PDict []) = Ok (PDict p) ->
  Py.lookup "answer" p = None ->
  Py.lookup "answer" d = Some a ->
  (exists d',
      _call_llm B self prompt st = (Ok (PDict d'), called self prompt st)
      /\ Py.lookup "parameters" d' = Some (PDict (Py.store "answer" a p))
      /\ Py.lookup "answer" (Py.store "answer" a p) = Some a)
  /\ (forall left user_query i visualizations history,
        fst (_build_context_prompt B C self user_query (i + 1) st) = Ok prompt ->
        0 < max_retries self ->
        Py.truthy a = true ->
        run_loop B C self (S left) user_query i visualizations history st
        = (Ok (PDict [("status", PStr "success");
                      ("answer", a);
                      ("visualizations", PList visualizations);
                      ("iterations", PInt (i + 1));
                      ("conversation_history", PList history)]),
           called self prompt st)).
Proof.
  intros Hllm Hparse Hth Hact Hpar Hp Hd.
  destruct (validate_done B d p th Hth Hact Hpar) as (d' & Hval & Hth' & Hact' & Hpar').
  rewrite Hp, Hd in Hpar'.
  split.
  - exists d'. split; [|split; [exact Hpar'|apply lookup_store_eq]].
    apply (_call_llm_valid B self _ _ _ _ _ _ Hllm Hparse Hval).
  - intros left user_query i visualizations history Hprompt Hpos Htrue.
    rewrite (run_loop_done left user_query i visualizations history st
               (called self prompt st) prompt (PDict d') th (Py.store "answer" a p)
               Hprompt).
    + rewrite lookup_store_eq. simpl. rewrite Htrue. reflexivity.
    + apply (_call_llm_with_retry_first B self _ _ _ _ _ _ Hpos Hllm Hparse Hval).
    + simpl. rewrite Hth'. reflexivity.
    + simpl. rewrite Hact'. reflexivity.
    + simpl. rewrite Hpar'. reflexivity.
Qed.

End LoopSteps.

(** ** Examples for the dispatch and the terminal decisions *)

Lemma execute_tool_catches_exceptions_witness :
  fst (_execute_tool DemoRun.B (DemoRun.agent 20) (PStr "load_csv") (PDict [])
         (DemoRun.start []))
  = Ok (PDict [("status", PStr "error");
               ("error_message", PStr "Tool 'load_csv' not found")])
  /\ fst (_execute_tool DemoRun.B (DemoRun.agent 20) (PStr "inspect_dataset") (PDict [])
            (DemoRun.start []))
     = Ok (PDict [("status", PStr "error");
                  ("error_message",
                   PStr "Tool error: InspectDatasetTool.execute() missing 1 required positional argument: 'alias'")])
  /\ (exists r st',
         _execute_tool DemoRun.B (DemoRun.agent 20) (PStr "list_datasets") (PDict [])
           (DemoRun.start []) = (Ok (PDict r), st'))
  /\ (exists v st',
         _execute_tool DemoRun.B (DemoRun.agent 20) (PStr "analyze") (PDict [])
           (DemoRun.start []) = (Ok v, st'))
  /\ fst (run DemoRun.B DemoRun.collaborators (DemoRun.agent 20) "q"
            (DemoRun.start [Ok DemoRun.r_inspect; Ok DemoRun.r_load; Ok DemoRun.r_done]))
     = Ok (success (PStr "No datasets are loaded.") [] 3
             [history_entry 1 (PStr "inspect") (PStr "inspect_dataset") (PDict [])
                (tool_error (TypeError
                   "InspectDatasetTool.execute() missing 1 required positional argument: 'alias'"));
              history_entry 2 (PStr "load") (PStr "load_csv") (PDict [])
                (tool_not_found DemoRun.B (PStr "load_csv"))]).
Proof.
  split; [|split; [|split; [|split]]].
  - destruct (execute_tool_catches_exceptions DemoRun.B DemoRun.collaborators
                (DemoRun.agent 20) "load_csv" [] (DemoRun.start [])) as (_ & Hunknown & _).
    destruct (Hunknown eq_refl) as [Hrun _]. rewrite Hrun. reflexivity.
  - destruct (execute_tool_catches_exceptions DemoRun.B DemoRun.collaborators
                (DemoRun.agent 20) "inspect_dataset" [] (DemoRun.start []))
      as (_ & _ & Hraises & _).
    rewrite (Hraises DemoRun.inspect_dataset _ _ eq_refl eq_refl). reflexivity.
  - destruct (execute_tool_catches_exceptions DemoRun.B DemoRun.collaborators
                (DemoRun.agent 20) "list_datasets" [] (DemoRun.start []))
      as (_ & _ & _ & _ & Htyped & _).
    apply Htyped. intros tool Htool. vm_compute in Htool.
    injection Htool as <-. reflexivity.
  - destruct (execute_tool_catches_exceptions DemoRun.B DemoRun.collaborators
                (DemoRun.agent 20) "analyze" [] (DemoRun.start [])) as (Hreturns & _).
    apply Hreturns. intros tool Htool. vm_compute in Htool.
    injection Htool as <-. eexists. reflexivity.
  - unfold run. change (Z.to_nat (max_iterations (DemoRun.agent 20))) with 20%nat.
    pose (st1 := called (DemoRun.agent 20) (DemoRun.first_prompt "20")
                   (DemoRun.start [Ok DemoRun.r_inspect; Ok DemoRun.r_load; Ok DemoRun.r_done])).
    destruct (execute_tool_catches_exceptions DemoRun.B DemoRun.collaborators
                (DemoRun.agent 20) "inspect_dataset" [] st1) as (_ & _ & _ & _ & _ & _ & Hloop).
    edestruct (Hloop 19%nat "q" 0 [] []
                 (DemoRun.start [Ok DemoRun.r_inspect; Ok DemoRun.r_load; Ok DemoRun.r_done]))
      as [Hraises _];
      [reflexivity|reflexivity|reflexivity|reflexivity|reflexivity|reflexivity|].
    rewrite (Hraises DemoRun.inspect_dataset _ _ eq_refl eq_refl).
    vm_compute. reflexivity.
Defined.

(** C6 fails on the code for exceptions outside [Exception]: when the
    code a handler runs calls [sys.exit(3)], the [SystemExit] passes the
    [except Exception] of the dispatch and leaves [run]. *)
Lemma execute_tool_can_be_left :
  _execute_tool DemoRun.B DemoExit.agent (PStr "analyze") (PDict []) (DemoRun.start [])
  = (Escaped (SystemExit "3"),
     {| world := []; memory := default_memory; trace := [EvExecute "analyze" []] |})
  /\ fst (run DemoRun.B DemoRun.collaborators DemoExit.agent "q"
            (DemoRun.start [Ok DemoRun.r_analyze]))
     = Escaped (SystemExit "3").
Proof. split; vm_compute; reflexivity. Qed.

Lemma done_without_answer_ends_run_witness :
  run DemoRun.B DemoRun.collaborators (DemoRun.agent 20) "q"
    (DemoRun.start [Ok DemoRun.r_done_empty])
  = (Ok (PDict [("status", PStr "error");
                ("error_message", PStr "Agent finished without answer");
                ("iterations", PInt 1)]),
     called (DemoRun.agent 20)
       (DemoRun.first_prompt "20")
       (DemoRun.start [Ok DemoRun.r_done_empty])).
Proof.
  destruct (done_without_answer_ends_run DemoRun.B DemoRun.collaborators (DemoRun.agent 20)
              19%nat "q" 0 [] [] (DemoRun.start [Ok DemoRun.r_done_empty])
              (DemoRun.first_prompt "20"))
    as [_ Hraw].
  destruct (Hraw DemoRun.r_done_empty [] 
              [("thought", PStr "t"); ("action", PStr "DONE"); ("parameters", PDict [])]
              [] (PStr "t")) as [Hrun _];
    [reflexivity|reflexivity|reflexivity|reflexivity|reflexivity|reflexivity
    |reflexivity|reflexivity|].
  exact Hrun.
Defined.

Lemma top_level_answer_is_adopted_witness :
  fst (run DemoRun.B DemoRun.collaborators (DemoRun.agent 20) "q"
         (DemoRun.start [Ok DemoRun.r_done_top]))
  = Ok (PDict [("status", PStr "success");
               ("answer", PStr "42 rows");
               ("visualizations", PList []);
               ("iterations", PInt 1);
               ("conversation_history", PList [])]).
Proof.
  edestruct (top_level_answer_is_adopted DemoRun.B DemoRun.collaborators (DemoRun.agent 20)
               (DemoRun.start [Ok DemoRun.r_done_top]) (DemoRun.first_prompt "20")
               DemoRun.r_done_top []
               [("thought", PStr "t"); ("action", PStr "DONE"); ("answer", PStr "42 rows")]
               [] (PStr "t") (PStr "42 rows")) as [_ Hrun];
    [reflexivity|reflexivity|reflexivity|reflexivity|reflexivity|reflexivity|reflexivity|].
  unfold run. change (Z.to_nat (max_iterations (DemoRun.agent 20))) with 20%nat.
  rewrite (Hrun 19%nat "q" 0 [] []); reflexivity.
Defined.

(** ** Result summaries *)

Lemma length_append (a b : string) :
  String.length (a +:+ b) = (String.length a + String.length b)%nat.
Proof. induction a as [|c a IH]; simpl; [reflexivity|rewrite IH; reflexivity]. Qed.

Lemma length_take (n : nat) (s : string) : (String.length (Str.take n s) <= n)%nat.
Proof.
  unfold Str.take. revert s; induction n as [|n IH]; intros s.
  - destruct s; simpl; lia.
  - destruct s as [|c s]; simpl; [lia|].
    specialize (IH s). lia.
Qed.

Section SummaryFacts.
Context {W : Type} (B : Builtins) (C : Collaborators W) (self : DataAnalyticsAgent W).

Lemma _summarize_result_bounded (r : list (string * pyval)) :
  is_error r = false ->
  exists summary, _summarize_result B (PDict r) = Ok summary
                  /\ (String.length summary <= 503)%nat.
Proof.
  unfold is_error, _summarize_result. simpl. intros Hne.
  assert (Hstatus : Py.eq_str (match Py.lookup "status" r with
                               | Some x => x
                               | None => PNone
                               end) "error" = false).
  { destruct (Py.lookup "status" r); [exact Hne|reflexivity]. }
  rewrite Hstatus.
  destruct (Nat.ltb_spec 500 (String.length
              (str B (match Py.lookup "result" r with
                      | Some x => x
                      | None => PStr EmptyString
                      end)))) as [Hlong|Hshort].
  - eexists. split; [reflexivity|].
    rewrite length_append. simpl.
    pose proof (length_take 500 (str B (match Py.lookup "result" r with
                                        | Some x => x
                                        | None => PStr EmptyString
                                        end))). lia.
  - eexists. split; [reflexivity|]. lia.
Qed.

Lemma _summarize_result_error (r : list (string * pyval)) :
  is_error r = true ->
  _summarize_result B (PDict r)
  = Ok ("Error: " +:+ str B (match Py.lookup "error_message" r with
                             | Some msg => msg
                             | None => PStr "Unknown"
                             end)).
Proof.
  unfold is_error, _summarize_result. simpl. intros He.
  destruct (Py.lookup "status" r); [|discriminate].
  rewrite He. reflexivity.
Qed.

(** C9, as the code has it.  The summary of a tool result whose status is
    not "error" is at most 503 characters long (500 of the result, and the
    dots), and this is the summary the loop stores in the turn it adds to
    the memory.  The summary of a result with status "error" is "Error: "
    followed by the whole error message. *)
Theorem summary_bounded_unless_error (r : list (string * pyval)) :
  (is_error r = false ->
   (exists summary, _summarize_result B (PDict r) = Ok summary
                    /\ (String.length summary <= 503)%nat)
   /\ (forall left user_query i visualizations history st st2 st3 prompt resp thought
              key kwargs,
          fst (_build_context_prompt B C self user_query (i + 1) st) = Ok prompt ->
          _call_llm_with_retry B self prompt st = (Ok resp, st2) ->
          Py.get resp "thought" (PStr EmptyString) = Ok thought ->
          Py.get resp "action" (PStr EmptyString) = Ok (PStr key) ->
          Py.get resp "parameters" (PDict []) = Ok (PDict kwargs) ->
          String.eqb key "DONE" = false ->
          _execute_tool B self (PStr key) (PDict kwargs) st2 = (Ok (PDict r), st3) ->
          exists summary visualizations',
            (String.length summary <= 503)%nat
            /\ run_loop B C self (S left) user_query i visualizations history st
               = run_loop B C self left user_query (i + 1) visualizations'
                   (history ++ [history_entry (i + 1) thought (PStr key) (PDict kwargs)
                                  (PDict r)])
                   (recorded C user_query thought (PStr key) (PDict kwargs) summary st3)))
  /\ (is_error r = true ->
      _summarize_result B (PDict r)
      = Ok ("Error: " +:+ str B (match Py.lookup "error_message" r with
                                 | Some msg => msg
                                 | None => PStr "Unknown"
                                 end))).
Proof.
  split; [|apply _summarize_result_error].
  intros Hne. destruct (_summarize_result_bounded r Hne) as (summary & Hsum & Hlen).
  split; [exists summary; split; assumption|].
  intros left user_query i visualizations history st st2 st3 prompt resp thought
    key kwargs Hprompt Hgate Hth Hact Hpar Hkey Hrun.
  destruct (track_visualizations_dict (PStr key) r visualizations) as [visualizations' Hviz].
  exists summary, visualizations'. split; [exact Hlen|].
  apply (run_loop_dispatch B C self left user_query i visualizations history st st2 st3
           prompt resp thought (PDict r) key kwargs summary visualizations');
    assumption.
Qed.

End SummaryFacts.

Lemma summary_bounded_unless_error_witness :
  exists summary,
    _summarize_result DemoRun.B
      (PDict [("status", PStr "success"); ("result", PStr "No datasets loaded.")])
    = Ok summary
    /\ (String.length summary <= 503)%nat.
Proof.
  destruct (summary_bounded_unless_error DemoRun.B DemoRun.collaborators (DemoRun.agent 20)
              [("status", PStr "success"); ("result", PStr "No datasets loaded.")])
    as [Hbounded _].
  destruct (Hbounded eq_refl) as [Hsummary _]. exact Hsummary.
Defined.

(** C9 fails for results with status "error": a tool result whose error
    message has 600 characters is summarised, and stored in the memory,
    with 607 characters. *)
Lemma summary_of_error_unbounded :
  map (fun t => String.length (result t))
    (turns (memory (snd (run DemoRun.B DemoRun.collaborators (DemoRun.agent 1) "q"
                           (DemoRun.start [Ok DemoRun.r_analyze])))))
  = [607%nat]
  /\ _summarize_result DemoRun.B
       (PDict [("status", PStr "error"); ("error_message", PStr DemoRun.long_message)])
     = Ok ("Error: " +:+ DemoRun.long_message).
Proof. split; vm_compute; reflexivity. Qed.

(** ** The iteration budget *)

Section BudgetFacts.
Context {W : Type} (B : Builtins) (C : Collaborators W) (self : DataAnalyticsAgent W).

(** Dispatch adds at most one handler call, whatever it is given. *)
Lemma _execute_tool_calls (tool_name parameters : pyval) (st : state W) :
  (execute_count (trace (snd (_execute_tool B self tool_name parameters st)))
   <= S (execute_count (trace st)))%nat.
Proof.
  destruct tool_name as [| | | |key| |]; try (simpl; lia).
  destruct (_execute_tool_total B self key parameters st) as (v & st' & H & _ & Hc & _).
  rewrite H. exact Hc.
Qed.

(** What one iteration can do after the model has answered: it calls at
    most one handler, and if it makes [run] return, the value is one of
    the two results of a [DONE] decision. *)
Lemma act_spec (user_query : string) (i : Z) (visualizations history : list pyval)
    (resp : pyval) (st : state W) :
  (execute_count (trace (snd (act B C self user_query i visualizations history resp st)))
   <= S (execute_count (trace st)))%nat
  /\ (forall d,
         fst (act B C self user_query i visualizations history resp st) = Ok (inl d) ->
         d = no_answer i \/ exists a, d = success a visualizations i history).
Proof.
  unfold act, bind, lift, ret.
  destruct (Py.get resp "thought" (PStr EmptyString)) as [th|e];
    [|split; [simpl; lia|discriminate]].
  destruct (Py.get resp "action" (PStr EmptyString)) as [ac|e];
    [|split; [simpl; lia|discriminate]].
  destruct (Py.get resp "parameters" (PDict [])) as [pa|e];
    [|split; [simpl; lia|discriminate]].
  destruct (if verbose self then _print_step self pa else Ok tt) as [[]|e];
    [|split; [simpl; lia|discriminate]].
  destruct (Py.eq_str ac "DONE").
  - destruct (Py.get pa "answer" (PStr EmptyString)) as [a|e];
      [|split; [simpl; lia|discriminate]].
    destruct (negb (Py.truthy a)); (split; [simpl; lia|]); simpl; intros d [= <-]; eauto.
  - pose proof (_execute_tool_calls ac pa st) as Hcalls.
    destruct (_execute_tool B self ac pa st) as [[[result|e]|e] st3];
      [|split; [exact Hcalls|discriminate]..].
    simpl in Hcalls.
    destruct (_summarize_result B result) as [summary|e];
      [|split; [exact Hcalls|discriminate]].
    destruct (track_visualizations ac result visualizations) as [v'|e];
      [|split; [exact Hcalls|discriminate]].
    split; [exact Hcalls|discriminate].
Qed.

(** The budget bounds the loop whatever happens: [left] passes call at
    most [left] handlers, and a returned result carries a status and an
    iteration count between the count at entry and that plus [left]. *)
Lemma run_loop_bounds (left : nat) (user_query : string) :
  forall (i : Z) (visualizations history : list pyval) (st : state W),
    (execute_count (trace (snd (run_loop B C self left user_query i visualizations
                                  history st)))
     <= execute_count (trace st) + left)%nat
    /\ (forall v,
           fst (run_loop B C self left user_query i visualizations history st) = Ok v ->
           exists d n,
             v = PDict d
             /\ (Py.lookup "status" d = Some (PStr "success")
                 \/ Py.lookup "status" d = Some (PStr "error"))
             /\ Py.lookup "iterations" d = Some (PInt n)
             /\ i <= n <= i + Z.of_nat left).
Proof.
  induction left as [|left IH]; intros i visualizations history st.
  - split; [simpl; lia|]. simpl. intros v [= <-].
    eexists _, i. repeat split; try reflexivity; auto; lia.
  - rewrite run_loop_unfold.
    destruct (fst (_build_context_prompt B C self user_query (i + 1) st)) as [[prompt|e]|e].
    2:{ split; [simpl; lia|]. simpl. intros v [= <-].
        eexists _, (i + 1). repeat split; try reflexivity; auto; lia. }
    2:{ split; [simpl; lia|]. discriminate. }
    destruct (_call_llm_with_retry B self prompt st) as [[[resp|e]|e] st2] eqn:Hgate;
      destruct (_call_llm_with_retry_quiet B self prompt st st2 _ Hgate) as [_ Hq].
    2:{ split; [simpl; lia|]. simpl. intros v [= <-].
        eexists _, (i + 1). repeat split; try reflexivity; auto; lia. }
    2:{ split; [simpl; lia|]. discriminate. }
    destruct (act_spec user_query (i + 1) visualizations history resp st2) as [Hcalls Hret].
    destruct (act B C self user_query (i + 1) visualizations history resp st2)
      as [[[[d|[v' h']]|e]|e] st3]; simpl in Hcalls.
    + split; [simpl; lia|]. simpl. intros v [= <-].
      destruct (Hret d eq_refl) as [->|[a ->]];
        eexists _, (i + 1); repeat split; try reflexivity; auto; lia.
    + destruct (IH (i + 1) v' h' st3) as [Hc Hr]. split; [lia|].
      intros v Hv. destruct (Hr v Hv) as (d & n & Hd & Hs & Hn & Hrange).
      exists d, n. repeat split; try assumption; lia.
    + split; [simpl; lia|]. discriminate.
    + split; [simpl; lia|]. discriminate.
Qed.

End BudgetFacts.

Section BudgetClaim.
Context {W : Type} (B : Builtins) (C : Collaborators W) (self : DataAnalyticsAgent W).

(** A handler that keeps to its signature makes dispatch return a
    dictionary. *)
Lemma _execute_tool_dict (key : string) (kwargs : list (string * pyval)) (st : state W) :
  (forall tool, tools self !! key = Some tool ->
                returns_dict (fst (execute tool kwargs (world st)))) ->
  exists r st', _execute_tool B self (PStr key) (PDict kwargs) st = (Ok (PDict r), st').
Proof.
  intros Htyped. destruct (tools self !! key) as [tool|] eqn:Htool.
  - specialize (Htyped tool eq_refl).
    destruct (execute tool kwargs (world st)) as [[[v|e]|e] w'] eqn:Hrun; simpl in Htyped.
    + destruct v; try discriminate.
      rewrite (_execute_tool_returns B self _ _ _ _ _ _ Htool Hrun). eauto.
    + rewrite (_execute_tool_raises B self _ _ _ _ _ _ Htool Hrun).
      unfold tool_error. eauto.
    + contradiction.
  - rewrite (_execute_tool_unknown B self _ _ _ Htool). unfold tool_not_found. eauto.
Qed.

(** When every pass ends with a recorded turn, the loop uses up its
    passes and reports the exhausted budget. *)
Lemma run_loop_exhausts (user_query : string) (Inv : Z -> state W -> Prop) :
  (forall i st0,
      0 <= i < max_iterations self -> Inv i st0 ->
      exists prompt resp st2 thought key kwargs,
        fst (_build_context_prompt B C self user_query (i + 1) st0) = Ok prompt
        /\ _call_llm_with_retry B self prompt st0 = (Ok resp, st2)
        /\ Py.get resp "thought" (PStr EmptyString) = Ok thought
        /\ Py.get resp "action" (PStr EmptyString) = Ok (PStr key)
        /\ String.eqb key "DONE" = false
        /\ Py.get resp "parameters" (PDict []) = Ok (PDict kwargs)
        /\ (forall tool, tools self !! key = Some tool ->
                         returns_dict (fst (execute tool kwargs (world st2))))
        /\ (forall result st3 summary,
               _execute_tool B self (PStr key) (PDict kwargs) st2 = (Ok result, st3) ->
               _summarize_result B result = Ok summary ->
               Inv (i + 1) (recorded C user_query thought (PStr key) (PDict kwargs)
                              summary st3))) ->
  forall (left : nat) (i : Z) (visualizations history : list pyval) (st : state W),
    0 <= i -> Z.of_nat left + i = max_iterations self -> Inv i st ->
    exists history' st',
      run_loop B C self left user_query i visualizations history st
      = (Ok (budget_exhausted B self (max_iterations self) history'), st')
      /\ length history' = (length history + left)%nat.
Proof.
  intros Hstep. induction left as [|left IH]; intros i visualizations history st Hi Hsum HInv.
  - exists history, st. simpl. unfold ret. replace (max_iterations self) with i by lia.
    split; [reflexivity|lia].
  - destruct (Hstep i st) as (prompt & resp & st2 & thought & key & kwargs & Hprompt & Hgate
                              & Hth & Hact & Hkey & Hpar & Htyped & Hnext);
      [lia|exact HInv|].
    destruct (_execute_tool_dict key kwargs st2 Htyped) as (r & st3 & Hrun).
    destruct (_summarize_result_dict B r) as [summary Hsummary].
    destruct (track_visualizations_dict (PStr key) r visualizations) as [v' Hviz].
    rewrite (run_loop_dispatch B C self left user_query i visualizations history st st2 st3
               prompt resp thought (PDict r) key kwargs summary v'
               Hprompt Hgate Hth Hact Hpar Hkey Hrun Hsummary Hviz).
    destruct (IH (i + 1) v'
                (history ++ [history_entry (i + 1) thought (PStr key) (PDict kwargs) (PDict r)])
                (recorded C user_query thought (PStr key) (PDict kwargs) summary st3))
      as (history' & st' & Hloop & Hlen).
    + lia.
    + lia.
    + apply (Hnext (PDict r) st3 summary Hrun Hsummary).
    + exists history', st'. split; [exact Hloop|].
      rewrite Hlen, length_app. simpl. lia.
Qed.

(** C2. [run] always ends, after at most [max_iterations] passes of its
    loop: it calls at most that many handlers, and a result it returns
    counts between 0 and [max_iterations] iterations.  When no pass meets
    a "DONE" decision or a prompt or gateway error, that is, every pass
    dispatches a tool and records the turn, [run] returns status "error"
    with [iterations] equal to [max_iterations].  The passes are described
    by a property [Inv i] of the state before pass [i + 1], which may be
    taken to hold of the states of this run only.  In particular, with
    [max_iterations = 1] and a first decision that names a tool, [run]
    returns status "error" with [iterations = 1]. *)
Theorem run_stops_at_budget (user_query : string) (st : state W) :
  ((execute_count (trace (snd (run B C self user_query st)))
    <= execute_count (trace st) + Z.to_nat (max_iterations self))%nat
   /\ (forall v,
          fst (run B C self user_query st) = Ok v ->
          exists d n,
            v = PDict d
            /\ (Py.lookup "status" d = Some (PStr "success")
                \/ Py.lookup "status" d = Some (PStr "error"))
            /\ Py.lookup "iterations" d = Some (PInt n)
            /\ 0 <= n <= Z.max 0 (max_iterations self)))
  /\ (forall Inv : Z -> state W -> Prop,
        0 <= max_iterations self ->
        Inv 0 st ->
        (forall i st0,
            0 <= i < max_iterations self -> Inv i st0 ->
            exists prompt resp st2 thought key kwargs,
              fst (_build_context_prompt B C self user_query (i + 1) st0) = Ok prompt
              /\ _call_llm_with_retry B self prompt st0 = (Ok resp, st2)
              /\ Py.get resp "thought" (PStr EmptyString) = Ok thought
              /\ Py.get resp "action" (PStr EmptyString) = Ok (PStr key)
              /\ String.eqb key "DONE" = false
              /\ Py.get resp "parameters" (PDict []) = Ok (PDict kwargs)
              /\ (forall tool, tools self !! key = Some tool ->
                               returns_dict (fst (execute tool kwargs (world st2))))
              /\ (forall result st3 summary,
                     _execute_tool B self (PStr key) (PDict kwargs) st2 = (Ok result, st3) ->
                     _summarize_result B result = Ok summary ->
                     Inv (i + 1) (recorded C user_query thought (PStr key) (PDict kwargs)
                                    summary st3))) ->
        exists history st',
          run B C self user_query st
          = (Ok (PDict [("status", PStr "error");
                        ("error_message",
                         PStr ("Did not complete within "
                               +:+ str B (PInt (max_iterations self)) +:+ " iterations"));
                        ("iterations", PInt (max_iterations self));
                        ("conversation_history", PList history)]), st')
          /\ length history = Z.to_nat (max_iterations self))
  /\ (forall prompt resp st2 thought key kwargs,
        max_iterations self = 1 ->
        fst (_build_context_prompt B C self user_query 1 st) = Ok prompt ->
        _call_llm_with_retry B self prompt st = (Ok resp, st2) ->
        Py.get resp "thought" (PStr EmptyString) = Ok thought ->
        Py.get resp "action" (PStr EmptyString) = Ok (PStr key) ->
        String.eqb key "DONE" = false ->
        Py.get resp "parameters" (PDict []) = Ok (PDict kwargs) ->
        (forall tool, tools self !! key = Some tool ->
                      returns_dict (fst (execute tool kwargs (world st2)))) ->
        exists history st',
          run B C self user_query st
          = (Ok (PDict [("status", PStr "error");
                        ("error_message",
                         PStr ("Did not complete within " +:+ str B (PInt 1)
                               +:+ " iterations"));
                        ("iterations", PInt 1);
                        ("conversation_history", PList history)]), st')).
Proof.
  assert (Hexhaust : forall Inv : Z -> state W -> Prop,
        0 <= max_iterations self ->
        Inv 0 st ->
        (forall i st0,
            0 <= i < max_iterations self -> Inv i st0 ->
            exists prompt resp st2 thought key kwargs,
              fst (_build_context_prompt B C self user_query (i + 1) st0) = Ok prompt
              /\ _call_llm_with_retry B self prompt st0 = (Ok resp, st2)
              /\ Py.get resp "thought" (PStr EmptyString) = Ok thought
              /\ Py.get resp "action" (PStr EmptyString) = Ok (PStr key)
              /\ String.eqb key "DONE" = false
              /\ Py.get resp "parameters" (PDict []) = Ok (PDict kwargs)
              /\ (forall tool, tools self !! key = Some tool ->
                               returns_dict (fst (execute tool kwargs (world st2))))
              /\ (forall result st3 summary,
                     _execute_tool B self (PStr key) (PDict kwargs) st2 = (Ok result, st3) ->
                     _summarize_result B result = Ok summary ->
                     Inv (i + 1) (recorded C user_query thought (PStr key) (PDict kwargs)
                                    summary st3))) ->
        exists history st',
          run B C self user_query st
          = (Ok (budget_exhausted B self (max_iterations self) history), st')
          /\ length history = Z.to_nat (max_iterations self)).
  { intros Inv Hmax H0 Hstep.
    destruct (run_loop_exhausts user_query Inv Hstep (Z.to_nat (max_iterations self)) 0 [] []
                st) as (history & st' & Hrun & Hlen); [lia|lia|exact H0|].
    exists history, st'. split; [exact Hrun|exact Hlen]. }
  split; [|split].
  - destruct (run_loop_bounds B C self (Z.to_nat (max_iterations self)) user_query 0 [] [] st)
      as [Hcalls Hret].
    split; [exact Hcalls|].
    intros v Hv. destruct (Hret v Hv) as (d & n & Hd & Hs & Hn & Hrange).
    exists d, n. repeat split; try assumption; lia.
  - exact Hexhaust.
  - intros prompt resp st2 thought key kwargs Hone Hprompt Hgate Hth Hact Hkey Hpar Htyped.
    destruct (Hexhaust (fun i st0 => i = 0 -> st0 = st)) as (history & st' & Hrun & _).
    + lia.
    + reflexivity.
    + intros i st0 Hi HInv. assert (i = 0) as -> by lia. rewrite (HInv eq_refl).
      exists prompt, resp, st2, thought, key, kwargs.
      repeat split; try assumption. intros; lia.
    + exists history, st'. rewrite Hrun. unfold budget_exhausted. rewrite Hone. reflexivity.
Qed.

End BudgetClaim.

Lemma run_stops_at_budget_witness :
  (exists history st',
      run DemoRun.B DemoRun.collaborators (DemoRun.agent 1) "q"
        (DemoRun.start [Ok DemoRun.r_list])
      = (Ok (PDict [("status", PStr "error");
                    ("error_message", PStr "Did not complete within 1 iterations");
                    ("iterations", PInt 1);
                    ("conversation_history", PList history)]), st'))
  /\ (exists history st',
         run DemoRun.B DemoRun.collaborators (DemoRun.agent 2) "q" DemoBudget.s0
         = (Ok (PDict [("status", PStr "error");
                       ("error_message", PStr "Did not complete within 2 iterations");
                       ("iterations", PInt 2);
                       ("conversation_history", PList history)]), st')
         /\ length history = 2%nat).
Proof.
  split.
  - destruct (run_stops_at_budget DemoRun.B DemoRun.collaborators (DemoRun.agent 1) "q"
                (DemoRun.start [Ok DemoRun.r_list])) as (_ & _ & Hone).
    eapply (Hone (DemoRun.first_prompt "1") _ _ _ "list_datasets" []);
      try reflexivity.
    intros tool Htool. vm_compute in Htool. injection Htool as <-. reflexivity.
  - destruct (run_stops_at_budget DemoRun.B DemoRun.collaborators (DemoRun.agent 2) "q"
                DemoBudget.s0) as (_ & Hall & _).
    apply (Hall DemoBudget.before_pass).
    + discriminate.
    + split; [reflexivity|discriminate].
    + intros i st0 Hi [H0 H1].
      assert (Hcases : i = 0 \/ i = 1) by (simpl in Hi; lia).
      destruct Hcases as [-> | ->].
      * rewrite (H0 eq_refl).
        exists (DemoRun.first_prompt "2"). do 3 eexists. exists "list_datasets", [].
        split; [reflexivity|]. split; [reflexivity|]. split; [reflexivity|].
        split; [reflexivity|]. split; [reflexivity|]. split; [reflexivity|].
        split.
        { intros tool Htool. vm_compute in Htool. injection Htool as <-. reflexivity. }
        intros result st3 summary Hrun Hsum.
        vm_compute in Hrun. injection Hrun as <- <-.
        vm_compute in Hsum. injection Hsum as <-.
        split; [discriminate|reflexivity].
      * rewrite (H1 eq_refl).
        do 4 eexists. exists "inspect_dataset", [].
        split; [reflexivity|]. split; [reflexivity|]. split; [reflexivity|].
        split; [reflexivity|]. split; [reflexivity|]. split; [reflexivity|].
        split.
        { intros tool Htool. vm_compute in Htool. injection Htool as <-. exact I. }
        intros result st3 summary Hrun Hsum.
        split; discriminate.
Defined.

(** ** Where a decision comes from *)

Section DecisionOrigin.
Context {W : Type} (B : Builtins) (self : DataAnalyticsAgent W).

(** Validation lets through dictionaries only, and on return the three
    keys of a decision are present. *)
Lemma validate_shape (parsed resp : pyval) :
  validate B parsed = Ok resp ->
  exists d th ac pa,
    resp = PDict d
    /\ Py.lookup "thought" d = Some th
    /\ Py.lookup "action" d = Some ac
    /\ Py.lookup "parameters" d = Some pa
    /\ (Py.eq_str ac "DONE" = true -> exists b, Py.contains "answer" pa = Ok b).
Proof.
  unfold validate. intros H.
  destruct parsed as [| | | |s|l|d]; try discriminate.
  - simpl in H. destruct (Str.contains "thought" s); simpl in H; [|discriminate].
    destruct (Str.contains "action" s); simpl in H; [|discriminate].
    destruct (Str.contains "parameters" s); simpl in H; discriminate.
  - simpl in H. destruct (existsb _ l); simpl in H; [|discriminate].
    destruct (existsb _ l); simpl in H; [|discriminate].
    destruct (existsb _ l); simpl in H; discriminate.
  - simpl in H.
    destruct (Py.lookup "thought" d) as [th|] eqn:Hth; simpl in H; [|discriminate].
    destruct (Py.lookup "action" d) as [ac|] eqn:Hac; simpl in H; [|discriminate].
    destruct (Py.lookup "parameters" d) as [pa|] eqn:Hpa; simpl in H.
    + rewrite Hac in H.
      destruct (Py.eq_str ac "DONE") eqn:Hdone.
      * rewrite Hpa in H.
        destruct (Py.contains "answer" pa) as [b|e] eqn:Hin; [|discriminate].
        destruct b; simpl in H.
        { injection H as <-. exists d, th, ac, pa. repeat split; eauto. }
        destruct (Py.lookup "answer" d) as [a|] eqn:Ha; simpl in H.
        { destruct (Py.setitem pa "answer" a) as [pa'|e] eqn:Hset; [|discriminate].
          injection H as <-. exists (Py.store "parameters" pa' d), th, ac, pa'.
          rewrite !lookup_store_ne by reflexivity. rewrite lookup_store_eq.
          repeat split; auto. intros _.
          destruct pa; try discriminate. simpl in Hset.
          injection Hset as <-. simpl. rewrite lookup_store_eq. eauto. }
        injection H as <-. exists d, th, ac, pa. repeat split; eauto.
      * injection H as <-. exists d, th, ac, pa. repeat split; auto. congruence.
    + rewrite !lookup_store_ne in H by reflexivity. rewrite Hac in H.
      rewrite lookup_store_eq in H.
      destruct (Py.eq_str ac "DONE") eqn:Hdone; simpl in H.
      * rewrite !lookup_store_ne in H by reflexivity.
        destruct (Py.lookup "answer" d) as [a|] eqn:Ha; simpl in H;
          injection H as <-; do 4 eexists; (split; [reflexivity|]);
          rewrite !lookup_store_ne by reflexivity; rewrite !lookup_store_eq;
          (repeat split; [exact Hth|exact Hac|]); intros _; simpl; eauto.
      * injection H as <-. do 4 eexists. split; [reflexivity|].
        rewrite !lookup_store_ne by reflexivity. rewrite !lookup_store_eq.
        repeat split; [exact Hth|exact Hac|]. congruence.
Qed.

(** What the parser returns, [json.loads] returned for some text. *)
Lemma parse_response_loads (content : string) (parsed : pyval) :
  parse_response B content = Ok parsed ->
  exists text, json_loads B text = Ok parsed.
Proof.
  unfold parse_response.
  destruct (json_loads B content) as [v|e] eqn:Hload.
  - intros [= <-]. eauto.
  - destruct (String.eqb _ _); [|discriminate].
    destruct (Str.contains _ content); [|discriminate].
    destruct (negb _); [|discriminate].
    eauto.
Qed.

Lemma _call_llm_ok_origin (prompt : string) (st st1 : state W) (resp : pyval) :
  _call_llm B self prompt st = (Ok resp, st1) ->
  exists content parsed,
    fst (llm self prompt (world st)) = Ok content
    /\ parse_response B content = Ok parsed
    /\ validate B parsed = Ok resp.
Proof.
  unfold _call_llm, try_except, bind, generate_content, lift, raise.
  destruct (llm self prompt (world st)) as [[content|e] w']; simpl; [|discriminate].
  destruct (parse_response B content) as [parsed|e] eqn:Hparse; simpl; [|discriminate].
  destruct (validate B parsed) as [v|e] eqn:Hval; simpl; [|discriminate].
  intros [= <- _]. exists content, parsed. repeat split; assumption.
Qed.

(** A value the retry loop returns is the value of one of its attempts. *)
Lemma retry_loop_ok_origin (left : nat) (prompt : string) (resp : pyval) :
  forall (attempt : Z) (st st' : state W),
    retry_loop B self left attempt prompt st = (Ok resp, st') ->
    exists st0, _call_llm B self prompt st0 = (Ok resp, st').
Proof.
  induction left as [|left IH]; intros attempt st st'; [discriminate|].
  cbn [retry_loop]. unfold try_except.
  destruct (_call_llm B self prompt st) as [[[parsed|e]|x] st1] eqn:Hcall.
  - intros [= <- <-]. eauto.
  - destruct (is_rate_limit _); [|discriminate].
    destruct (_ <? _); [|discriminate].
    unfold bind, lift, sleep.
    destruct (wait_time self attempt) as [seconds|e']; [|discriminate].
    unfold bind, lift.
    destruct (time_sleep B seconds) as [[]|e']; [|discriminate].
    apply IH.
  - discriminate.
Qed.

(** A decision of the gateway is a validated value of [json.loads]. *)
Lemma gateway_ok_origin (prompt : string) (st st' : state W) (resp : pyval) :
  _call_llm_with_retry B self prompt st = (Ok resp, st') ->
  exists text parsed, json_loads B text = Ok parsed /\ validate B parsed = Ok resp.
Proof.
  intros H. unfold _call_llm_with_retry in H.
  destruct (retry_loop_ok_origin _ _ _ _ _ _ H) as [st0 Hcall].
  destruct (_call_llm_ok_origin _ _ _ _ Hcall) as (content & parsed & _ & Hparse & Hval).
  destruct (parse_response_loads _ _ Hparse) as [text Hload].
  exists text, parsed. split; assumption.
Qed.


End DecisionOrigin.

(** ** Structured results *)

Section ResultFacts.
Context {W : Type} (B : Builtins) (C : Collaborators W) (self : DataAnalyticsAgent W).

Hypothesis Htyped :
  forall key tool kwargs w,
    tools self !! key = Some tool -> returns_dict (fst (execute tool kwargs w)).



Hypothesis Hshape :
  forall prompt st0 resp st1 action parameters,
    _call_llm_with_retry B self prompt st0 = (Ok resp, st1) ->
    Py.get resp "action" (PStr EmptyString) = Ok action ->
    Py.get resp "parameters" (PDict []) = Ok parameters ->
    Py.hashable action = true
    /\ (Py.eq_str action "DONE" = true
        \/ (verbose self = true /\ Py.truthy parameters = true) ->
        Py.is_dict parameters = true).


End ResultFacts.






(** The run of the witness: the call with a list as parameters fails and
    is recorded as a tool error, the second call reaches the handler, and
    the third decision ends the run with status "success". *)
Example run_with_list_parameters :
  run DemoResult.B DemoRun.collaborators (DemoRun.agent 20) "q"
    (DemoRun.start DemoResult.script)
  = (Ok (success (PStr "No datasets are loaded.") [] 3
           [history_entry 1 (PStr "look") (PStr "list_datasets") (PList [])
              (tool_error
                 (TypeError (call_name DemoRun.list_datasets
                             +:+ "() argument after ** must be a mapping, not list")));
            history_entry 2 (PStr "look") (PStr "list_datasets") (PDict [])
              (PDict [("status", PStr "success"); ("result", PStr "No datasets loaded.")])]),
     snd (run DemoResult.B DemoRun.collaborators (DemoRun.agent 20) "q"
            (DemoRun.start DemoResult.script)))
  /\ execute_count (trace (snd (run DemoResult.B DemoRun.collaborators (DemoRun.agent 20) "q"
                                  (DemoRun.start DemoResult.script)))) = 1%nat.
Proof. split; vm_compute; reflexivity. Qed.


(** ** Responses without a thought or an action *)

Section MissingFields.
Context {W : Type} (B : Builtins) (C : Collaborators W) (self : DataAnalyticsAgent W).

Lemma validate_missing_fields (d : list (string * pyval)) :
  Py.lookup "thought" d = None \/ Py.lookup "action" d = None ->
  validate B (PDict d) = Raise (RuntimeError ("Missing fields: " +:+ str B (PDict d))).
Proof.
  intros Hmissing. unfold validate. simpl.
  destruct (Py.lookup "thought" d); simpl; [|reflexivity].
  destruct Hmissing as [Hth|Hact]; [discriminate|].
  rewrite Hact. reflexivity.
Qed.

(** Outside the slip: when the text of the rejected response holds none
    of the rate-limit markers, the run ends in this iteration with the
    "Missing fields" message, after one model call and without a tool
    call; the message is not the one of exhausted retries. *)
Lemma missing_fields_abort (left : nat) (user_query : string) (i : Z)
    (visualizations history : list pyval) (st : state W) (prompt content : string)
    (w' : W) (d : list (string * pyval)) :
  fst (_build_context_prompt B C self user_query (i + 1) st) = Ok prompt ->
  0 < max_retries self ->
  llm self prompt (world st) = (Ok content, w') ->
  parse_response B content = Ok (PDict d) ->
  Py.lookup "thought" d = None \/ Py.lookup "action" d = None ->
  is_rate_limit (Str.lower ("Missing fields: " +:+ str B (PDict d))) = false ->
  run_loop B C self (S left) user_query i visualizations history st
  = (Ok (PDict [("status", PStr "error");
                ("error_message",
                 PStr ("LLM error: LLM error: Missing fields: " +:+ str B (PDict d)));
                ("iterations", PInt (i + 1))]),
     called self prompt st)
  /\ "LLM error: LLM error: Missing fields: " +:+ str B (PDict d)
     <> "LLM error: " +:+ exn_msg (rate_limit_exceeded B self).
Proof.
  intros Hprompt Hpos Hllm Hparse Hmissing Hplain. split; [|discriminate].
  pose proof (_call_llm_invalid B self prompt content st w' (PDict d) _ Hllm Hparse
                (validate_missing_fields d Hmissing)) as Hcall.
  rewrite run_loop_unfold, Hprompt. unfold _call_llm_with_retry.
  destruct (Z.to_nat (max_retries self)) as [|n] eqn:Hn; [lia|].
  rewrite (retry_loop_fatal B self n 0 prompt st _ _ Hcall).
  - reflexivity.
  - simpl exn_msg. rewrite is_rate_limit_llm_error. exact Hplain.
Qed.

End MissingFields.

(** C8, at the input where the code departs from it.  The response
    [{"thought": "check the quota"}] has no action; the text of the
    "Missing fields" error holds the word "quota", so the gateway takes the
    error for a rate limit, waits and calls the model again.  When the model
    repeats the response, [run] returns exactly what it returns when the
    service refuses three calls with "429 Too Many Requests".  When the
    model's next response names a tool, the tool is dispatched in the same
    iteration and the run goes on. *)
Theorem missing_fields_taken_for_rate_limit :
  fst (run DemoRun.B DemoRun.collaborators (DemoRun.agent 20) "q"
         (DemoRun.start [Ok DemoRun.r_quota; Ok DemoRun.r_quota; Ok DemoRun.r_quota]))
  = Ok (PDict [("status", PStr "error");
               ("error_message",
                PStr "LLM error: Rate limit exceeded after 3 attempts. Please wait and try again.");
               ("iterations", PInt 1)])
  /\ fst (run DemoRun.B DemoRun.collaborators (DemoRun.agent 20) "q"
            (DemoRun.start [Raise (Exn "ResourceExhausted" "429 Too Many Requests");
                            Raise (Exn "ResourceExhausted" "429 Too Many Requests");
                            Raise (Exn "ResourceExhausted" "429 Too Many Requests")]))
     = fst (run DemoRun.B DemoRun.collaborators (DemoRun.agent 20) "q"
              (DemoRun.start [Ok DemoRun.r_quota; Ok DemoRun.r_quota; Ok DemoRun.r_quota]))
  /\ trace (snd (run DemoRun.B DemoRun.collaborators (DemoRun.agent 20) "q"
                   (DemoRun.start [Ok DemoRun.r_quota; Ok DemoRun.r_quota; Ok DemoRun.r_quota])))
     = [EvGenerate (DemoRun.first_prompt "20"); EvSleep (QArith_base.Qmake 2 1);
        EvGenerate (DemoRun.first_prompt "20"); EvSleep (QArith_base.Qmake 4 1);
        EvGenerate (DemoRun.first_prompt "20")]
  /\ firstn 4 (trace (snd (run DemoRun.B DemoRun.collaborators (DemoRun.agent 20) "q"
                             (DemoRun.start [Ok DemoRun.r_quota; Ok DemoRun.r_list;
                                             Ok DemoRun.r_done]))))
     = [EvGenerate (DemoRun.first_prompt "20"); EvSleep (QArith_base.Qmake 2 1);
        EvGenerate (DemoRun.first_prompt "20"); EvExecute "list_datasets" []]
  /\ fst (run DemoRun.B DemoRun.collaborators (DemoRun.agent 20) "q"
            (DemoRun.start [Ok DemoRun.r_quota; Ok DemoRun.r_list; Ok DemoRun.r_done]))
     = Ok (success (PStr "No datasets are loaded.") [] 2
             [history_entry 1 (PStr "look") (PStr "list_datasets") (PDict [])
                (PDict [("status", PStr "success"); ("result", PStr "No datasets loaded.")])]).
Proof. repeat split; vm_compute; reflexivity. Qed.

(** The same run on a response whose text holds no marker ends with the
    "Missing fields" message. *)
Example missing_fields_plain :
  fst (run DemoRun.B DemoRun.collaborators (DemoRun.agent 20) "q"
         (DemoRun.start [Ok DemoRun.r_no_action]))
  = Ok (PDict [("status", PStr "error");
               ("error_message", PStr "LLM error: LLM error: Missing fields: {'thought': 't'}");
               ("iterations", PInt 1)]).
Proof.
  unfold run. change (Z.to_nat (max_iterations (DemoRun.agent 20))) with 20%nat.
  destruct (missing_fields_abort DemoRun.B DemoRun.collaborators (DemoRun.agent 20) 19 "q" 0
              [] [] (DemoRun.start [Ok DemoRun.r_no_action]) (DemoRun.first_prompt "20")
              DemoRun.r_no_action [] [("thought", PStr "t")]) as [Hrun _];
    [reflexivity|reflexivity|reflexivity|reflexivity|right; reflexivity|reflexivity|].
  rewrite Hrun. reflexivity.
Qed.

(** ** Two runs from start to end *)

(** The model lists the datasets, then finishes: two iterations. *)
Example run_list_then_done :
  fst (run DemoRun.B DemoRun.collaborators (DemoRun.agent 20) "q"
         (DemoRun.start [Ok DemoRun.r_list; Ok DemoRun.r_done]))
  = Ok (success (PStr "No datasets are loaded.") [] 2
          [history_entry 1 (PStr "look") (PStr "list_datasets") (PDict [])
             (PDict [("status", PStr "success"); ("result", PStr "No datasets loaded.")])]).
Proof. vm_compute. reflexivity. Qed.

(** A response inside a fenced block is parsed after the direct parse
    fails. *)
Example fenced_response_is_parsed :
  json_loads DemoRun.B DemoRun.r_fenced = Raise Demo.decode_error
  /\ parse_response DemoRun.B DemoRun.r_fenced = Ok DemoRun.v_list.
Proof. split; vm_compute; reflexivity. Qed.


(** * Further properties of the code *)

(** ** What the gateway hands to the loop *)

Section DecisionShape.
Context {W : Type} (B : Builtins) (self : DataAnalyticsAgent W).

(** X1. Every decision the gateway returns is a dictionary that has the
    keys "thought", "action" and "parameters"; when its action is "DONE",
    [parameters] is a value that can be searched for "answer". *)
Theorem gateway_returns_decisions (prompt : string) (st st' : state W) (resp : pyval) :
  _call_llm_with_retry B self prompt st = (Ok resp, st') ->
  exists d th ac pa,
    resp = PDict d
    /\ Py.lookup "thought" d = Some th
    /\ Py.lookup "action" d = Some ac
    /\ Py.lookup "parameters" d = Some pa
    /\ (Py.eq_str ac "DONE" = true -> exists b, Py.contains "answer" pa = Ok b).
Proof.
  intros H. destruct (gateway_ok_origin B self _ _ _ _ H) as (text & parsed & _ & Hval).
  apply (validate_shape B _ _ Hval).
Qed.

End DecisionShape.

Lemma gateway_returns_decisions_witness :
  exists d th ac pa,
    PDict [("thought", PStr "look"); ("action", PStr "list_datasets"); ("parameters", PDict [])]
    = PDict d
    /\ Py.lookup "thought" d = Some th
    /\ Py.lookup "action" d = Some ac
    /\ Py.lookup "parameters" d = Some pa
    /\ (Py.eq_str ac "DONE" = true -> exists b, Py.contains "answer" pa = Ok b).
Proof.
  apply (gateway_returns_decisions DemoRun.B (DemoRun.agent 20) "p"
           (DemoRun.start [Ok DemoRun.r_list])
           (called (DemoRun.agent 20) "p" (DemoRun.start [Ok DemoRun.r_list]))).
  reflexivity.
Defined.

(** ** Prompts that cannot be built *)

Section WindowFacts.
Context (B : Builtins).

Lemma render_turn_sliceable (i : Z) (t : Turn) :
  sliceable (thought t) = true -> exists ps, render_turn B i t = Ok ps.
Proof.
  unfold render_turn. destruct (thought t); try discriminate; simpl; eauto.
Qed.

Lemma render_turn_unsliceable (i : Z) (t : Turn) :
  sliceable (thought t) = false ->
  exists e, render_turn B i t = Raise e /\ exn_type e = "TypeError".
Proof.
  unfold render_turn. destruct (thought t); try discriminate; simpl; eauto.
Qed.

Lemma render_turns_sliceable (ts : list Turn) :
  forall i, forallb (fun t => sliceable (thought t)) ts = true ->
            exists parts, render_turns B i ts = Ok parts.
Proof.
  induction ts as [|t ts IH]; intros i Hall; simpl; [eauto|].
  simpl in Hall. apply andb_prop in Hall as [Ht Hts].
  destruct (render_turn_sliceable i t Ht) as [ps ->].
  destruct (IH (i + 1) Hts) as [qs ->]. eauto.
Qed.

Lemma render_turns_unsliceable (ts : list Turn) :
  forall i, forallb (fun t => sliceable (thought t)) ts = false ->
            exists e, render_turns B i ts = Raise e /\ exn_type e = "TypeError".
Proof.
  induction ts as [|t ts IH]; intros i Hsome; simpl; [discriminate|].
  simpl in Hsome. destruct (sliceable (thought t)) eqn:Ht; simpl in Hsome.
  - destruct (render_turn_sliceable i t Ht) as [ps ->].
    destruct (IH (i + 1) Hsome) as (e & -> & He). eauto.
  - destruct (render_turn_unsliceable i t Ht) as (e & -> & He). eauto.
Qed.

Lemma get_recent_context_raises (m : ConversationMemory) (last_n : Z) :
  turns m <> [] ->
  forallb (fun t => sliceable (thought t)) (recent m last_n) = false ->
  exists e, get_recent_context B m last_n = Raise e /\ exn_type e = "TypeError".
Proof.
  unfold get_recent_context. intros Hne Hsome.
  destruct (turns m) eqn:Hturns; [congruence|].
  destruct (render_turns_unsliceable _ 1 Hsome) as (e & -> & He). eauto.
Qed.

(** X2. [get_recent_context] returns a text exactly when the memory is
    empty or every turn of the window has a thought that can be sliced (a
    string or a list); otherwise it raises a [TypeError].  Actions and
    results never make it fail. *)
Theorem get_recent_context_fails_on_thoughts (m : ConversationMemory) (last_n : Z) :
  (turns m = [] \/ forallb (fun t => sliceable (thought t)) (recent m last_n) = true ->
   exists text, get_recent_context B m last_n = Ok text)
  /\ (turns m <> [] ->
      forallb (fun t => sliceable (thought t)) (recent m last_n) = false ->
      exists e, get_recent_context B m last_n = Raise e /\ exn_type e = "TypeError").
Proof.
  split; [|apply get_recent_context_raises].
  unfold get_recent_context. intros [Hempty|Hall].
  - rewrite Hempty. eauto.
  - destruct (turns m) eqn:Hturns; [eauto|].
    destruct (render_turns_sliceable _ 1 Hall) as [parts ->]. eauto.
Qed.

(** The last stored turn is in every window of at least one turn. *)
Lemma recent_keeps_last (m : ConversationMemory) (older : list Turn) (t : Turn)
    (last_n : Z) :
  1 <= last_n -> turns m = older ++ [t] ->
  exists window, recent m last_n = window ++ [t].
Proof.
  intros Hn Hturns. destruct (recent_positive m last_n Hn) as [-> _].
  rewrite Hturns, length_app. simpl.
  exists (drop (length older + 1 - Z.to_nat last_n) older).
  apply drop_app_le. lia.
Qed.

Lemma get_recent_context_last_unsliceable (m : ConversationMemory) (older : list Turn)
    (t : Turn) (last_n : Z) :
  1 <= last_n -> turns m = older ++ [t] -> sliceable (thought t) = false ->
  exists e, get_recent_context B m last_n = Raise e /\ exn_type e = "TypeError".
Proof.
  intros Hn Hturns Ht.
  destruct (recent_keeps_last m older t last_n Hn Hturns) as [window Hwin].
  apply get_recent_context_raises.
  - rewrite Hturns. destruct older; discriminate.
  - rewrite Hwin, forallb_app. simpl. rewrite Ht.
    destruct (forallb _ window); reflexivity.
Qed.

End WindowFacts.

Lemma get_recent_context_fails_on_thoughts_witness :
  (exists text, get_recent_context DemoExtra.B DemoMemory.one_turn 3 = Ok text)
  /\ (exists e, get_recent_context DemoExtra.B DemoExtra.poisoned 3 = Raise e
                /\ exn_type e = "TypeError").
Proof.
  split.
  - destruct (get_recent_context_fails_on_thoughts DemoExtra.B DemoMemory.one_turn 3)
      as [Hok _].
    apply Hok. right. reflexivity.
  - destruct (get_recent_context_fails_on_thoughts DemoExtra.B DemoExtra.poisoned 3)
      as [_ Hfail].
    apply Hfail; [discriminate|reflexivity].
Defined.

Section PromptFailures.
Context {W : Type} (B : Builtins) (C : Collaborators W) (self : DataAnalyticsAgent W).

Lemma run_loop_prompt_error (left : nat) (user_query : string) (i : Z)
    (visualizations history : list pyval) (st : state W) (e : exn) :
  fst (_build_context_prompt B C self user_query (i + 1) st) = Raise e ->
  run_loop B C self (S left) user_query i visualizations history st
  = (Ok (prompt_error e (i + 1)), st).
Proof. intros H. rewrite run_loop_unfold, H. reflexivity. Qed.

Lemma _build_context_prompt_raises (user_query : string) (i : Z) (st : state W) (e : exn) :
  get_recent_context B (memory st) 3 = Raise e ->
  exists e', fst (_build_context_prompt B C self user_query i st) = Raise e'.
Proof.
  intros H. unfold _build_context_prompt. simpl.
  destruct (build_agent_prompt C (tools self) (world st) (max_iterations self)); [|eauto].
  rewrite H. eauto.
Qed.

Lemma _build_context_prompt_empty_memory (user_query : string) (i : Z) (st : state W)
    (base : string) :
  turns (memory st) = [] ->
  build_agent_prompt C (tools self) (world st) (max_iterations self) = Ok base ->
  exists prompt, fst (_build_context_prompt B C self user_query i st) = Ok prompt.
Proof.
  intros Hempty Hbase. unfold _build_context_prompt, get_recent_context. simpl.
  rewrite Hbase, Hempty. eauto.
Qed.

Lemma deque_append_last {A : Type} (n : nat) (d : list A) (x : A) :
  (1 <= n)%nat -> exists older, deque_append n d x = older ++ [x].
Proof.
  intros Hn. unfold deque_append. rewrite length_app. simpl.
  destruct (Nat.ltb_spec n (length d + 1)) as [Hfull|Hroom]; [|eauto].
  destruct d as [|a d]; [simpl in Hfull; lia|]. simpl. eauto.
Qed.

(** X3. Once the last turn of the memory holds a thought that cannot be
    sliced (a number, say), every call of [run] with a budget of at least
    one iteration returns the "Prompt error" result of iteration 1 without
    calling the model, and leaves the state as it was; so the next call
    fails in the same way.  After [clear_memory] the window can be
    rendered again. *)
Theorem unsliceable_thought_blocks_runs (st : state W) (older : list Turn) (t : Turn) :
  turns (memory st) = older ++ [t] ->
  sliceable (thought t) = false ->
  1 <= max_iterations self ->
  (forall user_query,
      exists e,
        run B C self user_query st
        = (Ok (PDict [("status", PStr "error");
                      ("error_message", PStr ("Prompt error: " +:+ exn_msg e));
                      ("iterations", PInt 1)]), st))
  /\ (forall user_query i base,
         build_agent_prompt C (tools self) (world st) (max_iterations self) = Ok base ->
         exists prompt,
           fst (_build_context_prompt B C self user_query i (snd (clear_memory st)))
           = Ok prompt).
Proof.
  intros Hturns Ht Hmax. split.
  - intros user_query.
    destruct (get_recent_context_last_unsliceable B (memory st) older t 3) as (e & He & _);
      [lia|exact Hturns|exact Ht|].
    destruct (_build_context_prompt_raises user_query (0 + 1) st e He) as [e' He'].
    exists e'. unfold run.
    destruct (Z.to_nat (max_iterations self)) as [|left] eqn:Hn; [lia|].
    apply (run_loop_prompt_error left user_query 0 [] [] st e' He').
  - intros user_query i base Hbase.
    apply (_build_context_prompt_empty_memory user_query i (snd (clear_memory st)) base);
      [reflexivity|exact Hbase].
Qed.

(** X4. A decision that names a tool and carries a thought that cannot be
    sliced is dispatched and recorded like any other; the next iteration
    then cannot build its prompt, and [run] returns the "Prompt error"
    result of that iteration, whatever the tool returned. *)
Theorem unsliceable_thought_ends_next_iteration (left : nat) (user_query : string) (i : Z)
    (visualizations history : list pyval) (st st2 st3 : state W) (prompt : string)
    (resp thought : pyval) (key : string) (kwargs r : list (string * pyval)) :
  fst (_build_context_prompt B C self user_query (i + 1) st) = Ok prompt ->
  _call_llm_with_retry B self prompt st = (Ok resp, st2) ->
  Py.get resp "thought" (PStr EmptyString) = Ok thought ->
  Py.get resp "action" (PStr EmptyString) = Ok (PStr key) ->
  Py.get resp "parameters" (PDict []) = Ok (PDict kwargs) ->
  String.eqb key "DONE" = false ->
  _execute_tool B self (PStr key) (PDict kwargs) st2 = (Ok (PDict r), st3) ->
  sliceable thought = false ->
  (1 <= max_turns (memory st))%nat ->
  exists e summary,
    run_loop B C self (S (S left)) user_query i visualizations history st
    = (Ok (PDict [("status", PStr "error");
                  ("error_message", PStr ("Prompt error: " +:+ exn_msg e));
                  ("iterations", PInt (i + 1 + 1))]),
       recorded C user_query thought (PStr key) (PDict kwargs) summary st3).
Proof.
  intros Hprompt Hgate Hth Hact Hpar Hkey Hrun Hbad Hcap.
  destruct (_summarize_result_dict B r) as [summary Hsummary].
  destruct (track_visualizations_dict (PStr key) r visualizations) as [v' Hviz].
  rewrite (run_loop_dispatch B C self (S left) user_query i visualizations history st st2 st3
             prompt resp thought (PDict r) key kwargs summary v'
             Hprompt Hgate Hth Hact Hpar Hkey Hrun Hsummary Hviz).
  destruct (_call_llm_with_retry_quiet B self prompt st st2 _ Hgate) as [Hm2 _].
  destruct (_execute_tool_total B self key (PDict kwargs) st2) as (v & st3' & Hrun' & Hm3 & _).
  rewrite Hrun in Hrun'. injection Hrun' as _ <-.
  destruct (deque_append_last (max_turns (memory st3)) (turns (memory st3))
              {| query := user_query; thought := thought; action := PStr key;
                 parameters := PDict kwargs; result := summary |}) as [older Holder].
  { rewrite Hm3, Hm2. exact Hcap. }
  destruct (get_recent_context_last_unsliceable B
              (memory (recorded C user_query thought (PStr key) (PDict kwargs) summary st3))
              older
              {| query := user_query; thought := thought; action := PStr key;
                 parameters := PDict kwargs; result := summary |} 3)
    as (e & He & _); [lia|exact Holder|exact Hbad|].
  destruct (_build_context_prompt_raises user_query (i + 1 + 1) _ e He) as [e' He'].
  exists e', summary.
  apply (run_loop_prompt_error left user_query (i + 1) _ _ _ e' He').
Qed.

End PromptFailures.

Lemma unsliceable_thought_blocks_runs_witness :
  exists e,
    run DemoExtra.B DemoRun.collaborators (DemoRun.agent 20) "q" DemoExtra.poisoned_state
    = (Ok (PDict [("status", PStr "error");
                  ("error_message", PStr ("Prompt error: " +:+ exn_msg e));
                  ("iterations", PInt 1)]), DemoExtra.poisoned_state).
Proof.
  destruct (unsliceable_thought_blocks_runs DemoExtra.B DemoRun.collaborators
              (DemoRun.agent 20) DemoExtra.poisoned_state [DemoMemory.ta]
              DemoExtra.number_turn eq_refl eq_refl) as [Hruns _]; [discriminate|].
  apply Hruns.
Defined.

Lemma unsliceable_thought_ends_next_iteration_witness :
  exists e st',
    run DemoExtra.B DemoRun.collaborators (DemoRun.agent 20) "q"
      (DemoRun.start [Ok DemoExtra.r_number_thought; Ok DemoRun.r_done])
    = (Ok (PDict [("status", PStr "error");
                  ("error_message", PStr ("Prompt error: " +:+ exn_msg e));
                  ("iterations", PInt 2)]), st').
Proof.
  edestruct (unsliceable_thought_ends_next_iteration DemoExtra.B DemoRun.collaborators
               (DemoRun.agent 20) 18 "q" 0 [] []
               (DemoRun.start [Ok DemoExtra.r_number_thought; Ok DemoRun.r_done]))
    as (e & summary & Hrun);
    [reflexivity|reflexivity|reflexivity|reflexivity|reflexivity|reflexivity|reflexivity
    |reflexivity|simpl; lia|].
  exists e. eexists. exact Hrun.
Defined.

(** ** Failures of the model call *)

Section GatewayFailures.
Context {W : Type} (B : Builtins) (C : Collaborators W) (self : DataAnalyticsAgent W).

Lemma run_loop_llm_error (left : nat) (user_query : string) (i : Z)
    (visualizations history : list pyval) (st st2 : state W) (prompt : string) (e : exn) :
  fst (_build_context_prompt B C self user_query (i + 1) st) = Ok prompt ->
  _call_llm_with_retry B self prompt st = (Raise e, st2) ->
  run_loop B C self (S left) user_query i visualizations history st
  = (Ok (llm_error e (i + 1)), st2).
Proof. intros Hp Hg. rewrite run_loop_unfold, Hp, Hg. reflexivity. Qed.

(** X5. With [max_retries <= 0] the gateway never calls the model: it
    raises "Failed to call LLM after all retries" at once, and every
    iteration that reaches it ends the run with that LLM error, the state
    untouched. *)
Theorem no_retries_no_model_call (left : nat) (user_query : string) (i : Z)
    (visualizations history : list pyval) (st : state W) (prompt : string) :
  max_retries self <= 0 ->
  _call_llm_with_retry B self prompt st
  = (Raise (RuntimeError "Failed to call LLM after all retries"), st)
  /\ (fst (_build_context_prompt B C self user_query (i + 1) st) = Ok prompt ->
      run_loop B C self (S left) user_query i visualizations history st
      = (Ok (PDict [("status", PStr "error");
                    ("error_message",
                     PStr "LLM error: Failed to call LLM after all retries");
                    ("iterations", PInt (i + 1))]), st)).
Proof.
  intros Hmax.
  assert (Hgate : _call_llm_with_retry B self prompt st
                  = (Raise (RuntimeError "Failed to call LLM after all retries"), st)).
  { unfold _call_llm_with_retry. replace (Z.to_nat (max_retries self)) with 0%nat by lia.
    reflexivity. }
  split; [exact Hgate|].
  intros Hprompt.
  apply (run_loop_llm_error left user_query i visualizations history st st prompt _
           Hprompt Hgate).
Qed.

(** X6. When the model client raises an exception whose lowercased message
    holds none of "429", "quota" and "rate limit", the run ends in that
    iteration after this one call: no wait, no tool call, and the result
    carries the message behind the prefix "LLM error: " twice, once from
    [_call_llm] and once from [run]. *)
Theorem fatal_model_error_ends_run (left : nat) (user_query : string) (i : Z)
    (visualizations history : list pyval) (st : state W) (prompt : string)
    (e : exn) (w' : W) :
  fst (_build_context_prompt B C self user_query (i + 1) st) = Ok prompt ->
  0 < max_retries self ->
  llm self prompt (world st) = (Raise e, w') ->
  is_rate_limit (Str.lower (exn_msg e)) = false ->
  run_loop B C self (S left) user_query i visualizations history st
  = (Ok (PDict [("status", PStr "error");
                ("error_message", PStr ("LLM error: LLM error: " +:+ exn_msg e));
                ("iterations", PInt (i + 1))]),
     {| world := w'; memory := memory st; trace := trace st ++ [EvGenerate prompt] |}).
Proof.
  intros Hprompt Hpos Hllm Hplain.
  assert (Hcall : _call_llm B self prompt st
                  = (Raise (RuntimeError ("LLM error: " +:+ exn_msg e)),
                     {| world := w'; memory := memory st;
                        trace := trace st ++ [EvGenerate prompt] |})).
  { unfold _call_llm, try_except, bind, generate_content, raise. rewrite Hllm. reflexivity. }
  assert (Hgate : _call_llm_with_retry B self prompt st
                  = (Raise (RuntimeError ("LLM error: " +:+ exn_msg e)),
                     {| world := w'; memory := memory st;
                        trace := trace st ++ [EvGenerate prompt] |})).
  { unfold _call_llm_with_retry.
    destruct (Z.to_nat (max_retries self)) as [|n] eqn:Hn; [lia|].
    apply (retry_loop_fatal B self n 0 prompt st _ _ Hcall).
    simpl exn_msg. rewrite is_rate_limit_llm_error. exact Hplain. }
  apply (run_loop_llm_error left user_query i visualizations history st _ prompt _
           Hprompt Hgate).
Qed.

End GatewayFailures.

Lemma no_retries_no_model_call_witness :
  run DemoRun.B DemoRun.collaborators DemoFailures.no_attempts "q"
    (DemoRun.start [Ok DemoRun.r_done])
  = (Ok (PDict [("status", PStr "error");
                ("error_message", PStr "LLM error: Failed to call LLM after all retries");
                ("iterations", PInt 1)]),
     DemoRun.start [Ok DemoRun.r_done]).
Proof.
  destruct (no_retries_no_model_call DemoRun.B DemoRun.collaborators DemoFailures.no_attempts
              19 "q" 0 [] [] (DemoRun.start [Ok DemoRun.r_done]) (DemoRun.first_prompt "20"))
    as [_ Hrun]; [discriminate|].
  apply Hrun. reflexivity.
Defined.

Lemma fatal_model_error_ends_run_witness :
  fst (run DemoRun.B DemoRun.collaborators (DemoRun.agent 20) "q"
         (DemoRun.start [Raise DemoFailures.connection_reset; Ok DemoRun.r_done]))
  = Ok (PDict [("status", PStr "error");
               ("error_message", PStr "LLM error: LLM error: Connection reset by peer");
               ("iterations", PInt 1)]).
Proof.
  unfold run. change (Z.to_nat (max_iterations (DemoRun.agent 20))) with 20%nat.
  rewrite (fatal_model_error_ends_run DemoRun.B DemoRun.collaborators (DemoRun.agent 20)
             19 "q" 0 [] []
             (DemoRun.start [Raise DemoFailures.connection_reset; Ok DemoRun.r_done])
             (DemoRun.first_prompt "20") DemoFailures.connection_reset
             [Ok DemoRun.r_done]); reflexivity.
Defined.

(** ** Responses that are not plain JSON *)

Lemma prefix_other_char (c a : ascii) (p s : string) :
  Ascii.eqb c a = false -> String.prefix (String a p) (String c s) = false.
Proof.
  intros Hc. simpl. destruct (Ascii.ascii_dec a c) as [->|]; [|reflexivity].
  rewrite Ascii.eqb_refl in Hc. discriminate.
Qed.

(** Searching from the start skips a part without backticks. *)
Lemma index_skip (p pre s : string) :
  no_backtick pre = true ->
  String.index 0 (String "`" p) (pre +:+ s)
  = option_map (Nat.add (String.length pre)) (String.index 0 (String "`" p) s).
Proof.
  intros Hpre. induction pre as [|c pre IH].
  - change (EmptyString +:+ s) with s. cbn [String.length].
    destruct (String.index 0 (String "`" p) s); reflexivity.
  - simpl in Hpre. apply andb_prop in Hpre as [Hc Hpre].
    apply negb_true_iff in Hc.
    change (String c pre +:+ s) with (String c (pre +:+ s)).
    cbn [String.index String.length].
    rewrite (prefix_other_char c "`" p (pre +:+ s) Hc), (IH Hpre).
    destruct (String.index 0 (String "`" p) s); reflexivity.
Qed.

(** Searching from the end of a first part searches the rest. *)
Lemma index_from (pat pre s : string) :
  String.index (String.length pre) pat (pre +:+ s)
  = option_map (Nat.add (String.length pre)) (String.index 0 pat s).
Proof.
  induction pre as [|c pre IH].
  - change (EmptyString +:+ s) with s. cbn [String.length].
    destruct (String.index 0 pat s); reflexivity.
  - change (String c pre +:+ s) with (String c (pre +:+ s)).
    cbn [String.index String.length]. rewrite IH.
    destruct (String.index 0 pat s); reflexivity.
Qed.

Lemma index_here (pat s : string) :
  pat <> EmptyString -> String.index 0 pat (pat +:+ s) = Some 0%nat.
Proof.
  intros Hpat. destruct pat as [|a p]; [congruence|].
  change (String a p +:+ s) with (String a (p +:+ s)).
  cbn [String.index].
  assert (Hpre : forall q t, String.prefix q (q +:+ t) = true).
  { induction q as [|b q IHq]; intros t; simpl; [destruct t; reflexivity|].
    destruct (Ascii.ascii_dec b b); [apply IHq|congruence]. }
  change (String a (p +:+ s)) with (String a p +:+ s).
  rewrite (Hpre (String a p) s). reflexivity.
Qed.

Lemma append_assoc (a b c : string) : (a +:+ b) +:+ c = a +:+ (b +:+ c).
Proof.
  induction a as [|x a IH]; [reflexivity|].
  change ((String x a +:+ b) +:+ c) with (String x ((a +:+ b) +:+ c)).
  change (String x a +:+ (b +:+ c)) with (String x (a +:+ (b +:+ c))).
  rewrite IH. reflexivity.
Qed.

Lemma substring_skip (pre s : string) (n m : nat) :
  String.substring (String.length pre + n) m (pre +:+ s) = String.substring n m s.
Proof. induction pre as [|c pre IH]; simpl; [reflexivity|exact IH]. Qed.

Lemma substring_whole (b r : string) :
  String.substring 0 (String.length b) (b +:+ r) = b.
Proof.
  induction b as [|c b IH]; simpl; [destruct r; reflexivity|rewrite IH; reflexivity].
Qed.

Lemma contains_here (pat s : string) : Str.contains pat (pat +:+ s) = true.
Proof.
  assert (Hpre : forall q t, String.prefix q (q +:+ t) = true).
  { induction q as [|b q IHq]; intros t; simpl; [destruct t; reflexivity|].
    destruct (Ascii.ascii_dec b b); [apply IHq|congruence]. }
  destruct pat as [|a p]; [destruct s; reflexivity|].
  change (String a p +:+ s) with (String a (p +:+ s)).
  rewrite contains_step.
  change (String a (p +:+ s)) with (String a p +:+ s). rewrite Hpre. reflexivity.
Qed.

Lemma find_fence (pre rest : string) :
  no_backtick pre = true ->
  Str.find "```json" (pre +:+ "```json" +:+ rest) 0 = Z.of_nat (String.length pre).
Proof.
  intros Hpre. unfold Str.find.
  rewrite (index_skip "``json" pre ("```json" +:+ rest) Hpre).
  rewrite (index_here "```json" rest) by discriminate.
  simpl option_map. f_equal. lia.
Qed.

Lemma find_after_fence (pre s : string) :
  Str.find "```" (pre +:+ "```json" +:+ s) (String.length pre + 7)
  = match String.index 0 "```" s with
    | Some i => Z.of_nat (String.length pre + 7 + i)
    | None => -1
    end.
Proof.
  unfold Str.find. rewrite <- (append_assoc pre "```json" s).
  replace (String.length pre + 7)%nat with (String.length (pre +:+ "```json"))
    by (rewrite length_append; reflexivity).
  rewrite index_from. destruct (String.index 0 "```" s); reflexivity.
Qed.

Lemma prefix_split (p s : string) :
  String.prefix p s = true -> exists r, s = p +:+ r.
Proof.
  revert s. induction p as [|a p IH]; intros s H; [exists s; reflexivity|].
  destruct s as [|c s]; [discriminate|].
  simpl in H. destruct (Ascii.ascii_dec a c) as [->|]; [|discriminate].
  destruct (IH s H) as [r ->]. exists r. reflexivity.
Qed.

(** A text that holds a separator is what precedes the first one, the
    separator, and a rest. *)
Lemma first_split (sep s : string) :
  Str.contains sep s = true ->
  exists rest, s = piece_before sep s +:+ sep +:+ rest.
Proof.
  induction s as [|c s IH]; intros H.
  - destruct sep; [exists EmptyString; reflexivity|discriminate].
  - rewrite contains_step in H. cbn [piece_before].
    destruct (String.prefix sep (String c s)) eqn:Hp.
    + destruct (prefix_split _ _ Hp) as [r Hr]. exists r. exact Hr.
    + destruct (IH H) as [rest Hrest]. exists rest.
      change (String c (piece_before sep s) +:+ sep +:+ rest)
        with (String c (piece_before sep s +:+ sep +:+ rest)).
      rewrite <- Hrest. reflexivity.
Qed.

(** The first occurrence is found where the first piece ends. *)
Lemma index_first (sep s : string) :
  Str.contains sep s = true ->
  String.index 0 sep s = Some (String.length (piece_before sep s)).
Proof.
  induction s as [|c s IH]; intros H.
  - simpl in H. destruct sep; [reflexivity|discriminate].
  - rewrite contains_step in H. cbn [piece_before String.index].
    destruct (String.prefix sep (String c s)); [reflexivity|].
    rewrite (IH H). reflexivity.
Qed.

Lemma index_none (pat s : string) :
  Str.contains pat s = false -> String.index 0 pat s = None.
Proof.
  induction s as [|c s IH]; intros H.
  - destruct pat; [discriminate|reflexivity].
  - rewrite contains_step in H. cbn [String.index].
    destruct (String.prefix pat (String c s)); [discriminate|].
    rewrite (IH H). reflexivity.
Qed.

Section ParseFacts.
Context (B : Builtins).

(** X7. A response that is not JSON and has no "```json" fence is
    rejected with "Failed to parse: " and its first 200 characters; one
    whose fence is never closed, with "Invalid JSON: " and its first 200
    characters.  The fence is the first "```json" of the response, and it
    is closed when "```" occurs anywhere in the rest after it; every
    response that holds a fence splits at it in this way.  Neither message
    is longer than 217 characters. *)
Theorem unparseable_response_is_quoted (content : string) (e : exn) :
  json_loads B content = Raise e ->
  exn_type e = "JSONDecodeError" ->
  (Str.contains "```json" content = false ->
   parse_response B content
   = Raise (RuntimeError ("Failed to parse: " +:+ Str.take 200 content)))
  /\ (forall pre rest,
         content = pre +:+ "```json" +:+ rest ->
         piece_before "```json" content = pre ->
         Str.contains "```" rest = false ->
         parse_response B content
         = Raise (RuntimeError ("Invalid JSON: " +:+ Str.take 200 content)))
  /\ (Str.contains "```json" content = true ->
      exists rest, content = piece_before "```json" content +:+ "```json" +:+ rest)
  /\ (String.length ("Failed to parse: " +:+ Str.take 200 content) <= 217)%nat
  /\ (String.length ("Invalid JSON: " +:+ Str.take 200 content) <= 217)%nat.
Proof.
  intros Hload Htype. split; [|split; [|split; [|split]]].
  - intros Hnone. unfold parse_response. rewrite Hload, Htype, Hnone. reflexivity.
  - intros pre rest Hsplit Hpre Hrest. unfold parse_response. rewrite Hload, Htype.
    assert (Hfence : Str.contains "```json" content = true).
    { rewrite Hsplit. apply contains_append_r, contains_here. }
    assert (Hfind : Str.find "```json" content 0 = Z.of_nat (String.length pre)).
    { unfold Str.find. rewrite (index_first _ _ Hfence), Hpre. reflexivity. }
    rewrite Hfence, Hfind.
    replace (Z.to_nat (Z.of_nat (String.length pre) + 7))
      with (String.length pre + 7)%nat by lia.
    assert (Hclose : Str.find "```" content (String.length pre + 7) = -1).
    { rewrite Hsplit, find_after_fence, (index_none _ _ Hrest). reflexivity. }
    rewrite Hclose. reflexivity.
  - apply first_split.
  - rewrite length_append. pose proof (length_take 200 content). simpl. lia.
  - rewrite length_append. pose proof (length_take 200 content). simpl. lia.
Qed.

(** X8. When the direct parse of a response fails and the response holds a
    block between "```json" and "```", with no backtick before the block
    or inside it, the decision is what [json.loads] makes of the stripped
    inside of the block; the text around the block is ignored. *)
Theorem fenced_json_is_extracted (content pre body post : string) (e : exn) :
  json_loads B content = Raise e ->
  exn_type e = "JSONDecodeError" ->
  content = pre +:+ "```json" +:+ body +:+ "```" +:+ post ->
  no_backtick pre = true ->
  no_backtick body = true ->
  parse_response B content = json_loads B (Str.strip body).
Proof.
  intros Hload Htype -> Hpre Hbody. unfold parse_response. rewrite Hload, Htype.
  rewrite (contains_append_r "```json" pre _ (contains_here "```json" _)).
  rewrite (find_fence pre _ Hpre).
  replace (Z.to_nat (Z.of_nat (String.length pre) + 7))
    with (String.length pre + 7)%nat by lia.
  rewrite find_after_fence.
  rewrite (index_skip "``" body ("```" +:+ post) Hbody).
  rewrite (index_here "```" post) by discriminate.
  simpl option_map. cbv beta iota.
  rewrite (proj2 (Z.eqb_neq (Z.of_nat (String.length pre + 7 + (String.length body + 0)))
                   (-1))) by lia.
  simpl negb. cbv iota.
  unfold Str.slice.
  replace (Z.to_nat (Z.of_nat (String.length pre + 7 + (String.length body + 0)))
           - (String.length pre + 7))%nat
    with (String.length body) by lia.
  rewrite <- (append_assoc pre "```json" (body +:+ "```" +:+ post)).
  replace (String.length pre + 7)%nat with (String.length (pre +:+ "```json") + 0)%nat
    by (rewrite length_append; simpl; lia).
  rewrite substring_skip, substring_whole. reflexivity.
Qed.

End ParseFacts.

Lemma unparseable_response_is_quoted_witness :
  parse_response DemoRun.B "I cannot answer."
  = Raise (RuntimeError "Failed to parse: I cannot answer.")
  /\ parse_response DemoRun.B "See `a`: ```json {`b`: 1"
     = Raise (RuntimeError "Invalid JSON: See `a`: ```json {`b`: 1").
Proof.
  split.
  - destruct (unparseable_response_is_quoted DemoRun.B "I cannot answer." Demo.decode_error
                eq_refl eq_refl) as [Hplain _].
    apply Hplain. reflexivity.
  - destruct (unparseable_response_is_quoted DemoRun.B "See `a`: ```json {`b`: 1"
                Demo.decode_error eq_refl eq_refl) as (_ & Hopen & _).
    apply (Hopen "See `a`: " " {`b`: 1"); reflexivity.
Defined.

Lemma fenced_json_is_extracted_witness :
  parse_response DemoRun.B DemoRun.r_fenced = Ok DemoRun.v_list.
Proof.
  rewrite (fenced_json_is_extracted DemoRun.B DemoRun.r_fenced
             ("Here is my decision:" +:+ Str.nl) (Str.nl +:+ DemoRun.r_list +:+ Str.nl)
             EmptyString Demo.decode_error); reflexivity.
Defined.

(** ** The memory and the reported history *)

Lemma push_all_bound (ts : list Turn) :
  forall m, (length (turns m) <= max_turns m)%nat ->
            (length (turns (push_all m ts)) <= max_turns m)%nat.
Proof.
  induction ts as [|t ts IH]; intros m Hm; [exact Hm|].
  simpl. rewrite <- (push_max_turns m t). apply IH.
  rewrite push_turns, push_max_turns. unfold deque_append.
  rewrite length_app. simpl.
  destruct (Nat.ltb_spec (max_turns m) (length (turns m) + 1)) as [Hfull|Hroom].
  - destruct (turns m); simpl in *; [lia|]. rewrite length_app. simpl. lia.
  - rewrite length_app. simpl. lia.
Qed.

Section RecordFacts.
Context {W : Type} (B : Builtins) (C : Collaborators W) (self : DataAnalyticsAgent W).

Lemma _execute_tool_memory (tool_name parameters : pyval) (st : state W) :
  memory (snd (_execute_tool B self tool_name parameters st)) = memory st.
Proof.
  destruct tool_name as [| | | |key| |]; try reflexivity.
  destruct (_execute_tool_total B self key parameters st) as (v & st' & H & Hm & _).
  rewrite H. exact Hm.
Qed.

(** One iteration after the model's answer either leaves the memory alone
    or adds the one turn it reports. *)
Lemma act_memory (user_query : string) (i : Z) (visualizations history : list pyval)
    (resp : pyval) (st : state W) :
  (memory (snd (act B C self user_query i visualizations history resp st)) = memory st
   /\ forall next, fst (act B C self user_query i visualizations history resp st) = Ok next ->
                   exists d, next = inl d)
  \/ (exists t visualizations' entry,
         fst (act B C self user_query i visualizations history resp st)
         = Ok (inr (visualizations', history ++ [entry]))
         /\ memory (snd (act B C self user_query i visualizations history resp st))
            = push (memory st) t
         /\ query t = user_query
         /\ reports t entry).
Proof.
  unfold act, bind, lift, ret.
  destruct (Py.get resp "thought" (PStr EmptyString)) as [th|e];
    [|left; split; [reflexivity|discriminate]].
  destruct (Py.get resp "action" (PStr EmptyString)) as [ac|e];
    [|left; split; [reflexivity|discriminate]].
  destruct (Py.get resp "parameters" (PDict [])) as [pa|e];
    [|left; split; [reflexivity|discriminate]].
  destruct (if verbose self then _print_step self pa else Ok tt) as [[]|e];
    [|left; split; [reflexivity|discriminate]].
  destruct (Py.eq_str ac "DONE").
  - left. destruct (Py.get pa "answer" (PStr EmptyString)) as [a|e];
      [|split; [reflexivity|discriminate]].
    destruct (negb (Py.truthy a)); (split; [reflexivity|]); simpl; intros next [= <-]; eauto.
  - pose proof (_execute_tool_memory ac pa st) as Hmem.
    destruct (_execute_tool B self ac pa st) as [[[result|e]|e] st3];
      [|left; split; [exact Hmem|discriminate]..].
    simpl in Hmem.
    destruct (_summarize_result B result) as [summary|e];
      [|left; split; [exact Hmem|discriminate]].
    destruct (track_visualizations ac result visualizations) as [v'|e];
      [|left; split; [exact Hmem|discriminate]].
    right.
    exists {| query := user_query; thought := th; action := ac; parameters := pa;
              result := summary |}, v', (history_entry i th ac pa result).
    simpl. rewrite Hmem. repeat split. exists i, result. reflexivity.
Qed.

(** X9. What a run adds to the memory is what it reports: the memory after
    [left] passes is the memory before with some turns [ts] added by
    [add_turn], at most one per pass and all under the query of this run;
    and when the returned result has a "conversation_history", that list
    is the history at entry followed by one entry per added turn, in the
    same order, with the same thought, action and parameters.  The
    capacity of the memory is kept. *)
Theorem run_loop_records_history (left : nat) (user_query : string) :
  forall (i : Z) (visualizations history : list pyval) (st : state W),
  exists ts,
    memory (snd (run_loop B C self left user_query i visualizations history st))
    = push_all (memory st) ts
    /\ (length ts <= left)%nat
    /\ Forall (fun t => query t = user_query) ts
    /\ (forall d reported,
           fst (run_loop B C self left user_query i visualizations history st)
           = Ok (PDict d) ->
           Py.lookup "conversation_history" d = Some (PList reported) ->
           exists entries, reported = history ++ entries /\ Forall2 reports ts entries)
    /\ ((length (turns (memory st)) <= max_turns (memory st))%nat ->
        (length (turns (memory (snd (run_loop B C self left user_query i visualizations
                                       history st))))
         <= max_turns (memory st))%nat).
Proof.
  assert (Hfinish : forall (ts : list Turn) (m m' : ConversationMemory),
             m' = push_all m ts ->
             (length (turns m) <= max_turns m)%nat ->
             (length (turns m') <= max_turns m)%nat).
  { intros ts m m' -> Hm. apply push_all_bound. exact Hm. }
  induction left as [|left IH]; intros i visualizations history st.
  - exists []. simpl. repeat split; auto.
    intros d reported [= <-]. simpl. intros [= <-].
    exists []. rewrite app_nil_r. split; [reflexivity|constructor].
  - rewrite run_loop_unfold.
    destruct (fst (_build_context_prompt B C self user_query (i + 1) st)) as [[prompt|e]|e].
    2:{ exists []. simpl. repeat split; auto; try lia.
        intros d reported [= <-]. discriminate. }
    2:{ exists []. simpl. repeat split; auto; try lia. discriminate. }
    destruct (_call_llm_with_retry B self prompt st) as [[[resp|e]|e] st2] eqn:Hgate;
      destruct (_call_llm_with_retry_quiet B self prompt st st2 _ Hgate) as [Hm2 _].
    2:{ exists []. simpl. rewrite Hm2. repeat split; auto; try lia.
        intros d reported [= <-]. discriminate. }
    2:{ exists []. simpl. rewrite Hm2. repeat split; auto; try lia. discriminate. }
    destruct (act_memory user_query (i + 1) visualizations history resp st2)
      as [[Hm3 Hinl]|(t & v' & entry & Hnext & Hm3 & Hq & Hrep)].
    + destruct (act_spec B C self user_query (i + 1) visualizations history resp st2)
        as [_ Hret].
      destruct (act B C self user_query (i + 1) visualizations history resp st2)
        as [[[[d|[v' h']]|e]|e] st3]; simpl in Hm3, Hinl, Hret.
      * exists []. simpl. rewrite Hm3, Hm2. repeat split; auto; try lia.
        intros d0 reported [= Hd]. destruct (Hret d eq_refl) as [->|[a ->]].
        { injection Hd as <-. discriminate. }
        injection Hd as <-. simpl. intros [= <-].
        exists []. rewrite app_nil_r. split; [reflexivity|constructor].
      * destruct (Hinl _ eq_refl) as [d Hd]. discriminate.
      * exists []. simpl. rewrite Hm3, Hm2. repeat split; auto; try lia. discriminate.
      * exists []. simpl. rewrite Hm3, Hm2. repeat split; auto; try lia. discriminate.
    + destruct (act B C self user_query (i + 1) visualizations history resp st2)
        as [next st3]. simpl in Hnext, Hm3. subst next.
      destruct (IH (i + 1) v' (history ++ [entry]) st3)
        as (ts & Hmem & Hlen & Hall & Hhist & _).
      exists (t :: ts). rewrite Hmem, Hm3, Hm2.
      split; [reflexivity|]. split; [simpl; lia|]. split; [constructor; assumption|].
      split.
      * intros d reported Hd Hlook.
        destruct (Hhist d reported Hd Hlook) as (entries & -> & Hrel).
        exists (entry :: entries). rewrite <- app_assoc. split; [reflexivity|].
        constructor; assumption.
      * intros Hcap. apply (Hfinish (t :: ts) (memory st)); [reflexivity|exact Hcap].
Qed.

End RecordFacts.

Lemma run_loop_records_history_witness :
  (length (turns (memory (snd (run_loop DemoRun.B DemoRun.collaborators (DemoRun.agent 20)
                                 20 "q" 0 [] []
                                 (DemoRun.start [Ok DemoRun.r_list; Ok DemoRun.r_done])))))
   <= 50)%nat.
Proof.
  destruct (run_loop_records_history DemoRun.B DemoRun.collaborators (DemoRun.agent 20)
              20 "q" 0 [] [] (DemoRun.start [Ok DemoRun.r_list; Ok DemoRun.r_done]))
    as (ts & _ & _ & _ & _ & Hcap).
  apply Hcap. simpl. lia.
Defined.

(** ** Extracting code from a response *)

Lemma go_cons (sep : string) (s : string) : forall skip cur,
  exists x l, Split.go sep skip cur s = x :: l.
Proof.
  induction s as [|c s IH]; intros skip cur; [simpl; eauto|].
  cbn [Split.go]. destruct skip as [|k]; [|apply IH].
  destruct (String.prefix sep (String c s)); [eauto|apply IH].
Qed.

(** Where the separator occurs, [split] gives at least two pieces. *)
Lemma contains_split (sep s : string) : forall cur,
  sep <> EmptyString -> Str.contains sep s = true ->
  exists x y l, Split.go sep 0 cur s = x :: y :: l.
Proof.
  intros cur Hsep. revert cur. induction s as [|c s IH]; intros cur H.
  - destruct sep; [congruence|]. simpl in H. discriminate.
  - cbn [Split.go]. cbn [Str.contains] in H.
    destruct (String.prefix sep (String c s)).
    + destruct (go_cons sep s (String.length sep - 1) EmptyString) as (y & l & ->). eauto.
    + apply IH, H.
Qed.

Lemma append_empty_r (s : string) : s +:+ EmptyString = s.
Proof.
  induction s as [|c s IH]; [reflexivity|].
  change (String c s +:+ EmptyString) with (String c (s +:+ EmptyString)).
  rewrite IH. reflexivity.
Qed.

Lemma append_snoc (a : string) (c : ascii) (b : string) :
  (a +:+ String c EmptyString) +:+ b = a +:+ String c b.
Proof. rewrite append_assoc. reflexivity. Qed.

(** The first piece is what precedes the first separator. *)
Lemma go_head (sep s : string) : forall cur,
  exists l, Split.go sep 0 cur s = (cur +:+ piece_before sep s) :: l.
Proof.
  induction s as [|c s IH]; intros cur.
  - simpl. rewrite append_empty_r. eauto.
  - cbn [Split.go piece_before]. destruct (String.prefix sep (String c s)).
    + rewrite append_empty_r. eauto.
    + destruct (IH (cur +:+ String c EmptyString)) as [l ->].
      rewrite append_snoc. eauto.
Qed.

Lemma prefix_append (p a b : string) :
  String.prefix p a = true -> String.prefix p (a +:+ b) = true.
Proof.
  revert a. induction p as [|x p IH]; intros a H; [destruct (a +:+ b); reflexivity|].
  destruct a as [|y a]; [discriminate|].
  change (String y a +:+ b) with (String y (a +:+ b)).
  simpl in *. destruct (Ascii.ascii_dec x y); [apply IH, H|discriminate].
Qed.

Lemma contains_append_l (pat a b : string) :
  Str.contains pat a = true -> Str.contains pat (a +:+ b) = true.
Proof.
  induction a as [|c a IH]; intros H.
  - destruct pat; [destruct b; reflexivity|discriminate].
  - change (String c a +:+ b) with (String c (a +:+ b)).
    rewrite contains_step in *.
    destruct (String.prefix pat (String c a)) eqn:Hp.
    + change (String c (a +:+ b)) with (String c a +:+ b).
      rewrite (prefix_append _ _ _ Hp). reflexivity.
    + rewrite (IH H). destruct (String.prefix pat (String c (a +:+ b))); reflexivity.
Qed.

Lemma before_split (sep s : string) : exists t, s = piece_before sep s +:+ t.
Proof.
  induction s as [|c s [t IH]]; [exists EmptyString; reflexivity|].
  cbn [piece_before]. destruct (String.prefix sep (String c s)).
  - exists (String c s). reflexivity.
  - exists t. change (String c (piece_before sep s) +:+ t) with (String c (piece_before sep s +:+ t)).
    congruence.
Qed.

(** No separator occurs before the first separator. *)
Lemma before_clean (sep s : string) :
  sep <> EmptyString -> Str.contains sep (piece_before sep s) = false.
Proof.
  intros Hsep. induction s as [|c s IH].
  - destruct sep; [congruence|reflexivity].
  - cbn [piece_before]. destruct (String.prefix sep (String c s)) eqn:Hp.
    + destruct sep; [congruence|reflexivity].
    + rewrite contains_step, IH.
      destruct (String.prefix sep (String c (piece_before sep s))) eqn:Hq; [|reflexivity].
      destruct (before_split sep s) as [t Ht].
      apply (prefix_append _ _ t) in Hq.
      change (String c (piece_before sep s) +:+ t) with (String c (piece_before sep s +:+ t)) in Hq.
      rewrite <- Ht in Hq. congruence.
Qed.

Lemma lstrip_suffix (s : string) : exists p, s = p +:+ Str.lstrip s.
Proof.
  induction s as [|c s [p IH]]; [exists EmptyString; reflexivity|].
  cbn [Str.lstrip]. destruct (Str.is_space c).
  - exists (String c p). change (String c p +:+ Str.lstrip s) with (String c (p +:+ Str.lstrip s)).
    congruence.
  - exists EmptyString. reflexivity.
Qed.

Lemma rstrip_prefix (s : string) : exists t, s = Str.rstrip s +:+ t.
Proof.
  induction s as [|c s [t IH]]; [exists EmptyString; reflexivity|].
  cbn [Str.rstrip]. destruct (Str.rstrip s) as [|d r].
  - destruct (Str.is_space c).
    + exists (String c s). reflexivity.
    + exists s. reflexivity.
  - exists t. change (String c (String d r) +:+ t) with (String c (String d r +:+ t)).
    congruence.
Qed.

(** [strip] adds no occurrence of a pattern. *)
Lemma strip_clean (pat s : string) :
  Str.contains pat s = false -> Str.contains pat (Str.strip s) = false.
Proof.
  intros H. unfold Str.strip.
  destruct (Str.contains pat (Str.rstrip (Str.lstrip s))) eqn:Hc; [|reflexivity].
  destruct (rstrip_prefix (Str.lstrip s)) as [t Ht].
  destruct (lstrip_suffix s) as [p Hp].
  apply (contains_append_l _ _ t) in Hc. rewrite <- Ht in Hc.
  apply (contains_append_r _ p) in Hc. rewrite <- Hp in Hc. congruence.
Qed.

Lemma split_first_clean (sep s : string) :
  sep <> EmptyString ->
  exists l, Split.split sep s = piece_before sep s :: l
            /\ Str.contains sep (piece_before sep s) = false.
Proof.
  intros Hsep. unfold Split.split.
  destruct (go_head sep s EmptyString) as [l ->].
  exists l. split; [reflexivity|apply before_clean, Hsep].
Qed.

(** [_extract_code] returns, and what it returns holds no fence. *)
Lemma _extract_code_clean (text : string) :
  exists code, _extract_code text = Ok code /\ Str.contains "```" code = false.
Proof.
  assert (Hinside : forall after, exists inside,
            Split.item (Split.split "```" after) 0 = Ok inside
            /\ Str.contains "```" (Str.strip inside) = false).
  { intros after. destruct (split_first_clean "```" after) as (l & -> & Hc); [discriminate|].
    eexists. split; [reflexivity|apply strip_clean, Hc]. }
  unfold _extract_code.
  destruct (Str.contains "```python" text) eqn:Hpy.
  - destruct (contains_split "```python" text EmptyString) as (x & y & l & Hs);
      [discriminate|exact Hpy|].
    unfold Split.split at 1. rewrite Hs. cbn [Split.item nth_error].
    destruct (Hinside y) as (inside & -> & Hc). eauto.
  - destruct (Str.contains "```" text) eqn:Hf.
    + destruct (contains_split "```" text EmptyString) as (x & y & l & Hs);
        [discriminate|exact Hf|].
      unfold Split.split at 1. rewrite Hs. cbn [Split.item nth_error].
      destruct (Hinside y) as (inside & -> & Hc). eauto.
    + eexists. split; [reflexivity|apply strip_clean, Hf].
Qed.

(** X10. [_extract_code] returns for every text: where it takes the piece
    with index 1 the fence was found, so the piece exists, and no
    [IndexError] can arise.  What it returns holds no fence. *)
Theorem _extract_code_total (text : string) :
  exists code, _extract_code text = Ok code /\ Str.contains "```" code = false.
Proof. exact (_extract_code_clean text). Qed.

(** Splitting passes over a part without backticks. *)
Lemma go_clean (p pre rest : string) : forall cur,
  no_backtick pre = true ->
  Split.go (String "`" p) 0 cur (pre +:+ rest) = Split.go (String "`" p) 0 (cur +:+ pre) rest.
Proof.
  induction pre as [|c pre IH]; intros cur H.
  - rewrite append_empty_r. reflexivity.
  - simpl in H. apply andb_prop in H as [Hc Hpre]. apply negb_true_iff in Hc.
    change (String c pre +:+ rest) with (String c (pre +:+ rest)).
    cbn [Split.go]. rewrite (prefix_other_char c "`" p (pre +:+ rest) Hc), (IH _ Hpre).
    rewrite append_snoc. reflexivity.
Qed.

Lemma go_skip (sep x rest : string) (cur : string) :
  Split.go sep (String.length x) cur (x +:+ rest) = Split.go sep 0 cur rest.
Proof.
  induction x as [|c x IH]; [destruct rest; reflexivity|].
  change (String c x +:+ rest) with (String c (x +:+ rest)). exact IH.
Qed.

Lemma prefix_here (q t : string) : String.prefix q (q +:+ t) = true.
Proof.
  induction q as [|b q IHq]; simpl; [destruct t; reflexivity|].
  destruct (Ascii.ascii_dec b b); [apply IHq|congruence].
Qed.

Lemma prefix_same_char (a : ascii) (p s : string) :
  String.prefix (String a p) (String a s) = String.prefix p s.
Proof. cbn [String.prefix]. destruct (Ascii.ascii_dec a a); congruence. Qed.

(** At a separator the piece read so far is closed. *)
Lemma go_match (a : ascii) (p rest cur : string) :
  Split.go (String a p) 0 cur (String a p +:+ rest)
  = cur :: Split.go (String a p) 0 EmptyString rest.
Proof.
  change (String a p +:+ rest) with (String a (p +:+ rest)).
  cbn [Split.go].
  change (String a (p +:+ rest)) with (String a p +:+ rest). rewrite prefix_here.
  replace (String.length (String a p) - 1)%nat with (String.length p)
    by (cbn [String.length]; lia).
  rewrite go_skip. reflexivity.
Qed.

(** X11. A block fenced with [```python] and closed by exactly three
    backticks is returned, stripped, whatever precedes and follows it. *)
Theorem _extract_code_python_block (pre body post : string) :
  no_backtick pre = true ->
  no_backtick body = true ->
  String.prefix "`" post = false ->
  _extract_code (pre +:+ "```python" +:+ body +:+ "```" +:+ post) = Ok (Str.strip body).
Proof.
  intros Hpre Hbody Hpost. unfold _extract_code.
  rewrite (contains_append_r "```python" pre _ (contains_here _ _)).
  unfold Split.split at 1.
  rewrite (go_clean _ pre _ EmptyString Hpre), go_match.
  change (EmptyString +:+ pre) with pre.
  rewrite (go_clean _ body _ EmptyString Hbody). change (EmptyString +:+ body) with body.
  destruct (go_head "```python" ("```" +:+ post) body) as [l ->].
  unfold Split.item at 1. cbn [nth_error]. unfold Split.split.
  rewrite (go_clean _ body _ EmptyString Hbody). change (EmptyString +:+ body) with body.
  assert (Hb : piece_before "```python" ("```" +:+ post) = EmptyString
               \/ exists r, piece_before "```python" ("```" +:+ post) = "```" +:+ r).
  { destruct post as [|c post]; [right; exists EmptyString; reflexivity|].
    assert (Hc : Ascii.eqb c "`" = false).
    { destruct (Ascii.eqb_spec c "`") as [->|]; [|reflexivity].
      rewrite prefix_same_char in Hpost. destruct post; discriminate Hpost. }
    clear Hpost.
    change ("```" +:+ String c post) with (String "`" (String "`" (String "`" (String c post)))).
      cbn [piece_before].
      destruct (String.prefix "```python" (String "`" (String "`" (String "`" (String c post)))));
        [left; reflexivity|right].
      assert (H2 : String.prefix "```python" (String "`" (String "`" (String c post))) = false).
      { rewrite !prefix_same_char. apply prefix_other_char, Hc. }
      assert (H1 : String.prefix "```python" (String "`" (String c post)) = false).
      { rewrite prefix_same_char. apply prefix_other_char, Hc. }
      rewrite H2, H1. eexists. reflexivity. }
  destruct Hb as [->|[r ->]].
  - destruct body; reflexivity.
  - rewrite go_match. reflexivity.
Qed.

Lemma _extract_code_python_block_witness :
  _extract_code ("Here:" +:+ Str.nl +:+ "```python" +:+ (Str.nl +:+ "result = 1" +:+ Str.nl)
                 +:+ "```" +:+ " done")
  = Ok "result = 1".
Proof.
  exact (_extract_code_python_block ("Here:" +:+ Str.nl) (Str.nl +:+ "result = 1" +:+ Str.nl)
           " done" eq_refl eq_refl eq_refl).
Defined.

(** ** The retry loops of the code tools *)

Section ToolWaits.
Context {W : Type} (t : CodeTool W).

(** The handler of the loops after a rate limit, by the outcome of the
    wait. *)
Lemma tool_except_again (attempt : Z) (again : M W pyval) (e : exn) (seconds : Q)
    (st : state W) :
  is_tool_rate_limit (Str.lower (exn_msg e)) = true ->
  attempt < tool_max_retries t - 1 ->
  tool_waited t attempt = Ok seconds ->
  tool_except t attempt again e st = again (slept (tool_backoff t attempt) st).
Proof.
  intros Hrl Hlt Hwait. unfold tool_except. rewrite Hrl.
  destruct (Z.ltb_spec attempt (tool_max_retries t - 1)); [|lia].
  unfold tool_waited, tool_wait in Hwait. unfold tool_wait, tool_pause, bind, lift.
  destruct (1024 <=? attempt); [discriminate|].
  destruct (tool_sleep t (tool_backoff t attempt)) as [[]|e']; [|discriminate].
  reflexivity.
Qed.



End ToolWaits.

(** Both tools run the same loop around different bodies; the facts
    about the loop are proved once, for any body. *)
Section CodeLoop.
Context {W : Type} (t : CodeTool W).
Variable body : M W pyval.
Variable loop : nat -> Z -> M W pyval.
Hypothesis loop_O : forall attempt,
  loop O attempt = ret (tool_failure "Failed after retries").
Hypothesis loop_S : forall left attempt,
  loop (S left) attempt
  = try_except body (tool_except t attempt (loop left (attempt + 1))).

Lemma loop_returns_status :
  (forall st, exists r, fst (body st) = Done r) ->
  (forall st v st', body st = (Ok v, st') -> has_status v = true) ->
  forall left attempt st,
    (forall a, attempt <= a < tool_max_retries t - 1 ->
               exists seconds, tool_waited t a = Ok seconds) ->
    exists v st', loop left attempt st = (Ok v, st') /\ has_status v = true.
Proof.
  intros Hdone Hbody. induction left as [|left IH]; intros attempt st Hwaits.
  - rewrite loop_O. eexists _, _. split; reflexivity.
  - rewrite loop_S. unfold try_except.
    destruct (Hdone st) as [r Hr].
    destruct (body st) as [out st1] eqn:Hb. simpl in Hr. subst out.
    destruct r as [v|e].
    + eexists _, _. split; [reflexivity|]. eapply Hbody, Hb.
    + destruct (is_tool_rate_limit (Str.lower (exn_msg e))) eqn:Hrl.
      2:{ unfold tool_except. rewrite Hrl. eexists _, _; split; reflexivity. }
      destruct (Z.lt_ge_cases attempt (tool_max_retries t - 1)) as [Hlt|Hge].
      2:{ unfold tool_except. rewrite Hrl.
          destruct (Z.ltb_spec attempt (tool_max_retries t - 1)); [lia|].
          eexists _, _; split; reflexivity. }
      destruct (Hwaits attempt) as [seconds Hwait]; [lia|].
      rewrite (tool_except_again t _ _ _ _ _ Hrl Hlt Hwait).
      apply IH. intros a Ha. apply Hwaits. lia.
Qed.

Lemma loop_escapes (left : nat) (attempt : Z) (e : exn) (st : state W) :
  fst (body st) = Escaped e -> fst (loop (S left) attempt st) = Escaped e.
Proof.
  intros Hb. rewrite loop_S. unfold try_except.
  destruct (body st) as [out st1]. simpl in Hb. subst out. reflexivity.
Qed.




End CodeLoop.

Section ToolFacts.
Context {W : Type} (B : Builtins) (t : CodeTool W).

Lemma tool_generate_eq (prompt : string) (st : state W) :
  tool_generate t prompt st
  = (Done (fst (tool_llm t prompt (world st))), tool_called t prompt st).
Proof.
  unfold tool_generate, tool_called. destruct (tool_llm t prompt (world st)); reflexivity.
Qed.

Lemma analyze_attempt_raises (prompt : string) (st : state W) (e : exn) (w' : W) :
  tool_llm t prompt (world st) = (Raise e, w') ->
  analyze_attempt t prompt st = (Raise e, tool_called t prompt st).
Proof.
  intros H. unfold analyze_attempt, bind. rewrite tool_generate_eq, H. reflexivity.
Qed.

Lemma visualize_attempt_raises (prompt : string) (chart_type : pyval) (st : state W)
    (e : exn) (w' : W) :
  tool_llm t prompt (world st) = (Raise e, w') ->
  visualize_attempt B t prompt chart_type st = (Raise e, tool_called t prompt st).
Proof.
  intros H. unfold visualize_attempt, bind. rewrite tool_generate_eq, H. reflexivity.
Qed.

(** The state after the executor has run for a tool. *)
Lemma analyze_attempt_runs (prompt text code : string) (st : state W) (w1 : W) :
  tool_llm t prompt (world st) = (Ok text, w1) ->
  _extract_code text = Ok code ->
  code <> EmptyString ->
  analyze_attempt t prompt st
  = (match fst (run_code (executor t) code w1) with
     | Completed result_str stdout =>
         Done (Ok (analysis_result result_str stdout code))
     | Failed e stdout =>
         Done (Ok (PDict [("status", PStr "error");
                          ("error_message", PStr ("Execution error: " +:+ exn_msg e));
                          ("stdout", PStr stdout)]))
     | Exited e stdout => Escaped e
     end,
     {| world := snd (run_code (executor t) code w1); memory := memory st;
        trace := trace st ++ [EvGenerate prompt] |}).
Proof.
  intros Hllm Hcode Hne. unfold analyze_attempt, bind.
  rewrite tool_generate_eq, Hllm. cbn [fst]. unfold lift at 1. rewrite Hcode.
  destruct (String.eqb_spec code EmptyString) as [|_]; [contradiction|].
  unfold executor_execute, tool_called. cbn [world memory trace]. rewrite Hllm. cbn [snd].
  destruct (run_code (executor t) code w1) as [[result_str stdout|e stdout|e stdout] w2];
    reflexivity.
Qed.

Lemma analyze_attempt_no_code (prompt text : string) (st : state W) (w1 : W) :
  tool_llm t prompt (world st) = (Ok text, w1) ->
  _extract_code text = Ok EmptyString ->
  analyze_attempt t prompt st
  = (Ok (tool_failure "Failed to generate code"), tool_called t prompt st).
Proof.
  intros Hllm Hcode. unfold analyze_attempt, bind.
  rewrite tool_generate_eq, Hllm. cbn [fst]. unfold lift at 1. rewrite Hcode. reflexivity.
Qed.

Lemma visualize_attempt_runs (prompt text code : string) (chart_type : pyval)
    (st : state W) (w1 : W) :
  tool_llm t prompt (world st) = (Ok text, w1) ->
  _extract_code text = Ok code ->
  let filepath := "plot_" +:+ str B (PInt (clock t w1)) +:+ ".png" in
  visualize_attempt B t prompt chart_type st
  = (match fst (run_plot (executor t) code filepath w1) with
     | Done (Ok _) => Done (Ok (plot_result filepath chart_type))
     | Done (Raise e) =>
         Done (Ok (PDict [("status", PStr "error");
                          ("error_message", PStr ("Plot failed: " +:+ exn_msg e))]))
     | Escaped e => Escaped e
     end,
     {| world := snd (run_plot (executor t) code filepath w1); memory := memory st;
        trace := trace st ++ [EvGenerate prompt] |}).
Proof.
  intros Hllm Hcode filepath. unfold visualize_attempt, bind.
  rewrite tool_generate_eq, Hllm. cbn [fst]. unfold lift at 1. rewrite Hcode.
  unfold execute_and_save_plot, tool_called. cbn [world memory trace]. rewrite Hllm. cbn [snd].
  fold filepath.
  destruct (run_plot (executor t) code filepath w1) as [[[u|e]|e] w2]; reflexivity.
Qed.

Lemma analyze_attempt_status (prompt : string) (st st' : state W) (v : pyval) :
  analyze_attempt t prompt st = (Ok v, st') -> has_status v = true.
Proof.
  destruct (tool_llm t prompt (world st)) as [[text|e] w1] eqn:Hllm.
  - destruct (_extract_code_clean text) as (code & Hcode & _).
    destruct (String.eqb_spec code EmptyString) as [->|Hne].
    + rewrite (analyze_attempt_no_code _ _ _ _ Hllm Hcode). intros [= <- _]. reflexivity.
    + rewrite (analyze_attempt_runs _ _ _ _ _ Hllm Hcode Hne).
      destruct (fst (run_code (executor t) code w1)); intros [= <- _]; reflexivity.
  - rewrite (analyze_attempt_raises _ _ _ _ Hllm). discriminate.
Qed.

Lemma visualize_attempt_status (prompt : string) (chart_type : pyval) (st st' : state W)
    (v : pyval) :
  visualize_attempt B t prompt chart_type st = (Ok v, st') -> has_status v = true.
Proof.
  destruct (tool_llm t prompt (world st)) as [[text|e] w1] eqn:Hllm.
  - destruct (_extract_code_clean text) as (code & Hcode & _).
    rewrite (visualize_attempt_runs _ _ _ _ _ _ Hllm Hcode).
    destruct (fst (run_plot (executor t) code _ w1)) as [[u|e]|e];
      intros [= <- _]; reflexivity.
  - rewrite (visualize_attempt_raises _ _ _ _ _ Hllm). discriminate.
Qed.

(** Unless the code leaves the executor by an exception outside
    [Exception], the body of each loop returns or raises. *)
Lemma analyze_attempt_done (prompt : string) (st : state W) :
  (forall code w e stdout, fst (run_code (executor t) code w) <> Exited e stdout) ->
  exists r, fst (analyze_attempt t prompt st) = Done r.
Proof.
  intros Hstays.
  destruct (tool_llm t prompt (world st)) as [[text|e] w1] eqn:Hllm.
  - destruct (_extract_code_clean text) as (code & Hcode & _).
    destruct (String.eqb_spec code EmptyString) as [->|Hne].
    + rewrite (analyze_attempt_no_code _ _ _ _ Hllm Hcode). eexists; reflexivity.
    + rewrite (analyze_attempt_runs _ _ _ _ _ Hllm Hcode Hne). cbn [fst].
      pose proof (Hstays code w1) as Hcase.
      destruct (fst (run_code (executor t) code w1)) as [r o|e o|e o];
        [eexists; reflexivity..|].
      exfalso. apply (Hcase e o). reflexivity.
  - rewrite (analyze_attempt_raises _ _ _ _ Hllm). eexists; reflexivity.
Qed.

Lemma visualize_attempt_done (prompt : string) (chart_type : pyval) (st : state W) :
  (forall code filepath w e, fst (run_plot (executor t) code filepath w) <> Escaped e) ->
  exists r, fst (visualize_attempt B t prompt chart_type st) = Done r.
Proof.
  intros Hstays.
  destruct (tool_llm t prompt (world st)) as [[text|e] w1] eqn:Hllm.
  - destruct (_extract_code_clean text) as (code & Hcode & _).
    rewrite (visualize_attempt_runs _ _ _ _ _ _ Hllm Hcode). cbn [fst].
    pose proof (Hstays code ("plot_" +:+ str B (PInt (clock t w1)) +:+ ".png") w1) as Hcase.
    destruct (fst (run_plot (executor t) code _ w1)) as [[u|e]|e];
      [eexists; reflexivity..|].
    exfalso. apply (Hcase e). reflexivity.
  - rewrite (visualize_attempt_raises _ _ _ _ _ Hllm). eexists; reflexivity.
Qed.

(** X12. Both code tools keep to the return type of [BaseTool.execute] as
    long as nothing leaves them.  When the prompt can be built, every wait
    of the retry loop can be made and the code the executor runs raises
    exceptions of class [Exception] only, each tool returns (whatever the
    model answers) a dictionary whose status is "success" or "error".
    Generated code that raises an exception outside that class, as
    [sys.exit()] does, takes it through the [except Exception] of the
    executor and of the tool and out of [execute]. *)
Theorem code_tools_return_status_dict (args : list pyval) (chart_type : pyval)
    (prompt : string) (st : state W) :
  tool_build_prompt t args (world st) = Ok prompt ->
  ((forall a, 0 <= a < tool_max_retries t - 1 ->
              exists seconds, tool_waited t a = Ok seconds) ->
   ((forall code w e stdout, fst (run_code (executor t) code w) <> Exited e stdout) ->
    exists v st', analyze_execute t args st = (Ok v, st') /\ has_status v = true)
   /\ ((forall code filepath w e,
           fst (run_plot (executor t) code filepath w) <> Escaped e) ->
       exists v st', visualize_execute B t args chart_type st = (Ok v, st')
                     /\ has_status v = true))
  /\ (forall (text code : string) (w1 : W) (e : exn) (stdout : string),
        0 < tool_max_retries t ->
        tool_llm t prompt (world st) = (Ok text, w1) ->
        _extract_code text = Ok code ->
        code <> EmptyString ->
        fst (run_code (executor t) code w1) = Exited e stdout ->
        fst (analyze_execute t args st) = Escaped e)
  /\ (forall (text code : string) (w1 : W) (e : exn),
        0 < tool_max_retries t ->
        tool_llm t prompt (world st) = (Ok text, w1) ->
        _extract_code text = Ok code ->
        fst (run_plot (executor t) code
               ("plot_" +:+ str B (PInt (clock t w1)) +:+ ".png") w1) = Escaped e ->
        fst (visualize_execute B t args chart_type st) = Escaped e).
Proof.
  intros Hprompt. unfold analyze_execute, visualize_execute, bind.
  rewrite Hprompt. split; [|split].
  - intros Hwaits. split.
    + intros Hstays.
      apply (loop_returns_status t (analyze_attempt t prompt)
               (fun left attempt => analyze_loop t left attempt prompt));
        [reflexivity|reflexivity| | |exact Hwaits].
      * intros st0. apply (analyze_attempt_done prompt st0 Hstays).
      * intros st0 v st'. apply analyze_attempt_status.
    + intros Hstays.
      apply (loop_returns_status t (visualize_attempt B t prompt chart_type)
               (fun left attempt => visualize_loop B t left attempt prompt chart_type));
        [reflexivity|reflexivity| | |exact Hwaits].
      * intros st0. apply (visualize_attempt_done prompt chart_type st0 Hstays).
      * intros st0 v st'. apply visualize_attempt_status.
  - intros text code w1 e stdout Hmax Hllm Hcode Hne Hexit.
    destruct (Z.to_nat (tool_max_retries t)) as [|left] eqn:Hn; [lia|].
    apply (loop_escapes t (analyze_attempt t prompt)
             (fun left attempt => analyze_loop t left attempt prompt));
      [reflexivity|].
    rewrite (analyze_attempt_runs _ _ _ _ _ Hllm Hcode Hne). cbn [fst].
    rewrite Hexit. reflexivity.
  - intros text code w1 e Hmax Hllm Hcode Hexit.
    destruct (Z.to_nat (tool_max_retries t)) as [|left] eqn:Hn; [lia|].
    apply (loop_escapes t (visualize_attempt B t prompt chart_type)
             (fun left attempt => visualize_loop B t left attempt prompt chart_type));
      [reflexivity|].
    rewrite (visualize_attempt_runs _ _ _ _ _ _ Hllm Hcode). cbn [fst].
    rewrite Hexit. reflexivity.
Qed.

End ToolFacts.

Section ToolRuns.
Context {W : Type} (B : Builtins) (t : CodeTool W).



Lemma summary_of_result_str (r : list (string * pyval)) (result_str : string) :
  Py.lookup "status" r = Some (PStr "success") ->
  Py.lookup "result" r = Some (PStr result_str) ->
  _summarize_result B (PDict r)
  = Ok (if (500 <? String.length result_str)%nat
        then Str.take 500 result_str +:+ "..." else result_str).
Proof.
  intros Hs Hr. unfold _summarize_result. simpl. rewrite Hs, Hr. simpl.
  destruct (500 <? String.length result_str)%nat; reflexivity.
Qed.

(** X14. What a run of [AnalyzeTool.execute] comes to once the model has
    answered: one model call and no retry; without code the executor is
    not run; code that runs to its end gives a result whose summary for
    the memory is the rendered value cut at 500 characters, without the
    printed output and without the code; code that fails gives
    "Execution error: ..." (also when the message speaks of a rate
    limit). *)
Theorem analyze_outcomes (args : list pyval) (prompt text code : string)
    (st : state W) (w1 : W) :
  tool_build_prompt t args (world st) = Ok prompt ->
  0 < tool_max_retries t ->
  tool_llm t prompt (world st) = (Ok text, w1) ->
  _extract_code text = Ok code ->
  (code = EmptyString ->
   analyze_execute t args st
   = (Ok (tool_failure "Failed to generate code"), tool_called t prompt st))
  /\ (code <> EmptyString ->
      forall (after : state W),
        after = {| world := snd (run_code (executor t) code w1); memory := memory st;
                   trace := trace st ++ [EvGenerate prompt] |} ->
        (forall result_str stdout,
            fst (run_code (executor t) code w1) = Completed result_str stdout ->
            analyze_execute t args st
            = (Ok (analysis_result result_str stdout code), after)
            /\ _summarize_result B (analysis_result result_str stdout code)
               = Ok (if (500 <? String.length result_str)%nat
                     then Str.take 500 result_str +:+ "..." else result_str))
        /\ (forall e stdout,
               fst (run_code (executor t) code w1) = Failed e stdout ->
               analyze_execute t args st
               = (Ok (PDict [("status", PStr "error");
                             ("error_message", PStr ("Execution error: " +:+ exn_msg e));
                             ("stdout", PStr stdout)]), after)
               /\ _summarize_result B
                    (PDict [("status", PStr "error");
                            ("error_message", PStr ("Execution error: " +:+ exn_msg e));
                            ("stdout", PStr stdout)])
                  = Ok ("Error: Execution error: " +:+ exn_msg e))).
Proof.
  intros Hprompt Hmax Hllm Hcode. unfold analyze_execute, bind. rewrite Hprompt.
  destruct (Z.to_nat (tool_max_retries t)) as [|left] eqn:Hn; [lia|].
  cbn [analyze_loop]. unfold try_except. split.
  - intros ->. rewrite (analyze_attempt_no_code t _ _ _ _ Hllm Hcode). reflexivity.
  - intros Hne after ->. rewrite (analyze_attempt_runs t _ _ _ _ _ Hllm Hcode Hne).
    split.
    + intros result_str stdout ->. split; [reflexivity|].
      apply summary_of_result_str; reflexivity.
    + intros e stdout ->. split; reflexivity.
Qed.

(** X15. A plot that [VisualizeTool.execute] saves: the file is named
    after the clock read once the model has answered, the loop of the
    agent records it under "visualizations" with the chart type asked for
    (or "chart"), and the summary that goes to the memory is empty, since
    the result has no "result" entry.  Code is run also when it is
    empty. *)
Theorem saved_plot_is_tracked_not_summarized (args : list pyval) (chart_type : pyval)
    (prompt text code : string) (st : state W) (w1 w2 : W) (visualizations : list pyval) :
  tool_build_prompt t args (world st) = Ok prompt ->
  0 < tool_max_retries t ->
  tool_llm t prompt (world st) = (Ok text, w1) ->
  _extract_code text = Ok code ->
  run_plot (executor t) code ("plot_" +:+ str B (PInt (clock t w1)) +:+ ".png") w1
  = (Ok tt, w2) ->
  let filepath := "plot_" +:+ str B (PInt (clock t w1)) +:+ ".png" in
  visualize_execute B t args chart_type st
  = (Ok (plot_result filepath chart_type),
     {| world := w2; memory := memory st; trace := trace st ++ [EvGenerate prompt] |})
  /\ track_visualizations (PStr "visualize") (plot_result filepath chart_type) visualizations
     = Ok (visualizations
           ++ [PDict [("filepath", PStr filepath);
                      ("chart_type", chart_type_or_default chart_type)]])
  /\ _summarize_result B (plot_result filepath chart_type) = Ok EmptyString.
Proof.
  intros Hprompt Hmax Hllm Hcode Hplot filepath.
  unfold visualize_execute, bind. rewrite Hprompt.
  destruct (Z.to_nat (tool_max_retries t)) as [|left] eqn:Hn; [lia|].
  cbn [visualize_loop]. unfold try_except.
  rewrite (visualize_attempt_runs B t _ _ _ _ _ _ Hllm Hcode). subst filepath.
  rewrite Hplot. cbn [fst snd].
  split; [reflexivity|]. split; reflexivity.
Qed.

End ToolRuns.

Lemma demo_tool_waits (a : Z) :
  0 <= a < tool_max_retries (DemoTools.tool 3) - 1 ->
  exists seconds, tool_waited (DemoTools.tool 3) a = Ok seconds.
Proof.
  intros Ha. assert (Hcases : a = 0 \/ a = 1) by (simpl in Ha; lia).
  destruct Hcases as [-> | ->]; eexists; reflexivity.
Qed.

Lemma code_tools_return_status_dict_witness :
  ((exists v st',
       analyze_execute (DemoTools.tool 3) [] (DemoTools.start [Ok DemoTools.fenced_code])
       = (Ok v, st') /\ has_status v = true)
   /\ (exists v st',
          visualize_execute DemoGateway.B (DemoTools.tool 3) [] PNone
            (DemoTools.start [Ok DemoTools.fenced_code])
          = (Ok v, st') /\ has_status v = true))
  /\ fst (analyze_execute DemoTools.exiting_tool []
            (DemoTools.start [Ok DemoTools.fenced_code]))
     = Escaped (SystemExit "3")
  /\ fst (visualize_execute DemoGateway.B DemoTools.exiting_tool [] PNone
            (DemoTools.start [Ok DemoTools.fenced_code]))
     = Escaped (SystemExit "3").
Proof.
  split; [|split].
  - destruct (code_tools_return_status_dict DemoGateway.B (DemoTools.tool 3) [] PNone
                DemoTools.prompt (DemoTools.start [Ok DemoTools.fenced_code]) eq_refl)
      as [Hreturns _].
    destruct (Hreturns demo_tool_waits) as [Ha Hv]. split.
    + apply Ha. intros code w e stdout. discriminate.
    + apply Hv. intros code filepath w e. discriminate.
  - destruct (code_tools_return_status_dict DemoGateway.B DemoTools.exiting_tool [] PNone
                DemoTools.prompt (DemoTools.start [Ok DemoTools.fenced_code]) eq_refl)
      as (_ & Hexit & _).
    apply (Hexit DemoTools.fenced_code "result = df['price'].mean()" [] (SystemExit "3")
             EmptyString); [reflexivity|reflexivity|reflexivity|discriminate|reflexivity].
  - destruct (code_tools_return_status_dict DemoGateway.B DemoTools.exiting_tool [] PNone
                DemoTools.prompt (DemoTools.start [Ok DemoTools.fenced_code]) eq_refl)
      as (_ & _ & Hexit).
    apply (Hexit DemoTools.fenced_code "result = df['price'].mean()" [] (SystemExit "3"));
      reflexivity.
Defined.


Lemma analyze_outcomes_witness :
  analyze_execute (DemoTools.tool 3) [] (DemoTools.start [Ok DemoTools.fenced_code])
  = (Ok (analysis_result "3.5" EmptyString "result = df['price'].mean()"),
     {| world := []; memory := default_memory; trace := [EvGenerate DemoTools.prompt] |})
  /\ _summarize_result DemoGateway.B
       (analysis_result "3.5" EmptyString "result = df['price'].mean()")
     = Ok "3.5".
Proof.
  destruct (analyze_outcomes DemoGateway.B (DemoTools.tool 3) [] DemoTools.prompt
              DemoTools.fenced_code "result = df['price'].mean()"
              (DemoTools.start [Ok DemoTools.fenced_code]) [] eq_refl eq_refl eq_refl eq_refl)
    as [_ H].
  destruct (H ltac:(discriminate) _ eq_refl) as [Hc _].
  exact (Hc "3.5" EmptyString eq_refl).
Defined.

Lemma saved_plot_is_tracked_not_summarized_witness :
  visualize_execute DemoGateway.B (DemoTools.tool 3) [] PNone
    (DemoTools.start [Ok DemoTools.fenced_code])
  = (Ok (plot_result "plot_1700000000.png" PNone),
     {| world := []; memory := default_memory; trace := [EvGenerate DemoTools.prompt] |})
  /\ track_visualizations (PStr "visualize") (plot_result "plot_1700000000.png" PNone) []
     = Ok [PDict [("filepath", PStr "plot_1700000000.png"); ("chart_type", PStr "chart")]]
  /\ _summarize_result DemoGateway.B (plot_result "plot_1700000000.png" PNone)
     = Ok EmptyString.
Proof.
  exact (saved_plot_is_tracked_not_summarized DemoGateway.B (DemoTools.tool 3) [] PNone
           DemoTools.prompt DemoTools.fenced_code "result = df['price'].mean()"
           (DemoTools.start [Ok DemoTools.fenced_code]) [] [] [] eq_refl eq_refl eq_refl
           eq_refl eq_refl).
Defined.

(** ** The dataset store *)

Lemma store_lookup_same (alias : string) (df : DataFrame) (s : DatasetStore) :
  Store.lookup alias (Store.store alias df s) = Some df.
Proof.
  induction s as [|[a old] s IH]; simpl.
  - rewrite String.eqb_refl. reflexivity.
  - destruct (String.eqb a alias) eqn:Ha; simpl; rewrite Ha; [reflexivity|exact IH].
Qed.

Lemma store_lookup_other (alias a : string) (df : DataFrame) (s : DatasetStore) :
  a <> alias -> Store.lookup a (Store.store alias df s) = Store.lookup a s.
Proof.
  intros Hne. induction s as [|[b old] s IH]; simpl.
  - destruct (String.eqb_spec alias a); [congruence|reflexivity].
  - destruct (String.eqb_spec b alias) as [->|Hb]; simpl.
    + destruct (String.eqb_spec alias a); [congruence|reflexivity].
    + rewrite IH. reflexivity.
Qed.

(** Storing replaces a dataset where it stands, or adds one at the end. *)
Lemma store_position (alias : string) (df : DataFrame) (s : DatasetStore) :
  exists earlier later,
    Store.store alias df s = earlier ++ (alias, df) :: later
    /\ Store.lookup alias earlier = None
    /\ ((exists old, s = earlier ++ (alias, old) :: later)
        \/ (Store.lookup alias s = None /\ s = earlier /\ later = [])).
Proof.
  induction s as [|[a old] s (earlier & later & Hs & He & Hpos)]; simpl.
  - exists [], []. repeat split. right. repeat split.
  - destruct (String.eqb_spec a alias) as [->|Ha].
    + exists [], s. repeat split. left. exists old. reflexivity.
    + exists ((a, old) :: earlier), later. rewrite Hs. split; [reflexivity|].
      split; [simpl; destruct (String.eqb_spec a alias); [contradiction|exact He]|].
      destruct Hpos as [[old' ->]|(Hn & -> & ->)].
      * left. exists old'. reflexivity.
      * right. repeat split. exact Hn.
Qed.

Section DatasetFacts.
Context (B : Builtins) (read_csv : string -> res DataFrame).

(** X16. Loading and listing.  After a successful [load_csv] the store
    answers the alias with the new frame and every other alias as before;
    the frame stands where a dataset of that alias stood, or last; and
    [list_datasets] reports one line per stored dataset, in the order of
    the store, the line of the alias describing the new frame.  A failed
    load reports "Failed to load: ..." and leaves the store as it was. *)
Theorem loaded_dataset_is_listed (filepath alias : string) (s : DatasetStore) :
  (forall df, read_csv filepath = Ok df ->
     exists r earlier later,
       load_csv_execute B read_csv filepath alias s
       = (PDict [("status", PStr "success"); ("result", PStr r)],
          earlier ++ (alias, df) :: later)
       /\ Store.lookup alias (earlier ++ (alias, df) :: later) = Some df
       /\ (forall a, a <> alias ->
             Store.lookup a (earlier ++ (alias, df) :: later) = Store.lookup a s)
       /\ ((exists old, s = earlier ++ (alias, old) :: later)
           \/ (Store.lookup alias s = None /\ s = earlier /\ later = []))
       /\ list_datasets_execute B (earlier ++ (alias, df) :: later)
          = PDict [("status", PStr "success");
                   ("result",
                    PStr ("Loaded datasets:" +:+ Str.nl
                          +:+ Str.join Str.nl
                                (map (dataset_summary B) earlier
                                 ++ dataset_summary B (alias, df)
                                 :: map (dataset_summary B) later)))])
  /\ (forall e, read_csv filepath = Raise e ->
        load_csv_execute B read_csv filepath alias s
        = (PDict [("status", PStr "error");
                  ("error_message", PStr ("Failed to load: " +:+ exn_msg e))], s)).
Proof.
  split.
  - intros df Hread. unfold load_csv_execute. rewrite Hread.
    destruct (store_position alias df s) as (earlier & later & Hs & _ & Hpos).
    eexists _, earlier, later. split; [rewrite Hs; reflexivity|].
    rewrite <- Hs. split; [apply store_lookup_same|].
    split; [intros a Ha; apply store_lookup_other, Ha|].
    split; [exact Hpos|].
    rewrite Hs. unfold list_datasets_execute.
    rewrite map_app. cbn [map].
    destruct earlier; reflexivity.
  - intros e Hread. unfold load_csv_execute. rewrite Hread. reflexivity.
Qed.

End DatasetFacts.

Lemma loaded_dataset_is_listed_witness :
  Store.lookup "sales"
    (snd (load_csv_execute DemoGateway.B DemoStore.read_csv "sales.csv" "sales"
            DemoStore.one_dataset))
  = Some DemoStore.sales
  /\ snd (load_csv_execute DemoGateway.B DemoStore.read_csv "missing.csv" "sales"
            DemoStore.one_dataset)
     = DemoStore.one_dataset.
Proof.
  destruct (loaded_dataset_is_listed DemoGateway.B DemoStore.read_csv "sales.csv" "sales"
              DemoStore.one_dataset) as [Hok _].
  destruct (loaded_dataset_is_listed DemoGateway.B DemoStore.read_csv "missing.csv" "sales"
              DemoStore.one_dataset) as [_ Hfail].
  destruct (Hok DemoStore.sales eq_refl) as (r & earlier & later & Hload & Hlook & _).
  split.
  - rewrite Hload. exact Hlook.
  - rewrite (Hfail _ eq_refl). reflexivity.
Defined.

(** ** The registry *)

Lemma init_tools_unregistered {W : Type} (l i a v : BaseTool W) (key : string) :
  registered key = false -> init_tools l i a v !! key = None.
Proof.
  unfold registered. intros H.
  apply orb_false_elim in H as [H Hv]. apply orb_false_elim in H as [H Ha].
  apply orb_false_elim in H as [Hl Hi].
  apply String.eqb_neq in Hl, Hi, Ha, Hv.
  unfold init_tools.
  rewrite !lookup_insert_ne by congruence. apply lookup_singleton_ne. congruence.
Qed.

Lemma init_tools_registered {W : Type} (l i a v : BaseTool W) :
  init_tools l i a v !! "list_datasets" = Some l
  /\ init_tools l i a v !! "inspect_dataset" = Some i
  /\ init_tools l i a v !! "analyze" = Some a
  /\ init_tools l i a v !! "visualize" = Some v.
Proof.
  unfold init_tools. split; [|split; [|split]]; reflexivity.
Qed.

Section RegistryFacts.
Context {W : Type} (B : Builtins) (C : Collaborators W) (self : DataAnalyticsAgent W).

(** X17. The agent knows four tools: [list_datasets], [inspect_dataset],
    [analyze] and [visualize].  A decision that names any other tool
    ([load_csv], which the prompt offers, is one) runs no handler:
    the iteration records "Tool '<name>' not found" as the result of the
    turn, in the history and (as "Error: ...") in the memory, and the
    loop goes on. *)
Theorem unregistered_tool_is_reported (l i a v : BaseTool W) (user_query : string)
    (iterations : Z) (visualizations history : list pyval) (resp thought : pyval)
    (key : string) (kwargs : list (string * pyval)) (st : state W) :
  tools self = init_tools l i a v ->
  registered key = false ->
  String.eqb key "DONE" = false ->
  Py.get resp "thought" (PStr EmptyString) = Ok thought ->
  Py.get resp "action" (PStr EmptyString) = Ok (PStr key) ->
  Py.get resp "parameters" (PDict []) = Ok (PDict kwargs) ->
  (tools self !! "list_datasets" = Some l
   /\ tools self !! "inspect_dataset" = Some i
   /\ tools self !! "analyze" = Some a
   /\ tools self !! "visualize" = Some v)
  /\ act B C self user_query iterations visualizations history resp st
     = (Ok (inr (visualizations,
                 history ++ [history_entry iterations thought (PStr key) (PDict kwargs)
                               (tool_not_found B (PStr key))])),
        recorded C user_query thought (PStr key) (PDict kwargs)
          ("Error: Tool '" +:+ key +:+ "' not found") st).
Proof.
  intros Htools Hreg Hdone Hth Hact Hpar.
  split; [rewrite Htools; apply init_tools_registered|].
  apply (act_dispatch B C self user_query iterations visualizations history resp thought
           (tool_not_found B (PStr key)) key kwargs st st _ visualizations Hth Hact Hpar Hdone).
  - apply _execute_tool_unknown. rewrite Htools. apply init_tools_unregistered, Hreg.
  - reflexivity.
  - unfold track_visualizations. destruct (Py.eq_str (PStr key) "visualize"); reflexivity.
Qed.

End RegistryFacts.

Lemma unregistered_tool_is_reported_witness :
  act DemoRun.B DemoRun.collaborators DemoInit.agent "q" 1 [] [] DemoRun.v_load
    (DemoRun.start [])
  = (Ok (inr ([], [history_entry 1 (PStr "load") (PStr "load_csv") (PDict [])
                     (tool_not_found DemoRun.B (PStr "load_csv"))])),
     {| world := [];
        memory := add_turn default_memory "q" (PStr "load") (PStr "load_csv") (PDict [])
                    "Error: Tool 'load_csv' not found";
        trace := [] |}).
Proof.
  exact (proj2 (unregistered_tool_is_reported DemoRun.B DemoRun.collaborators
                  DemoInit.agent DemoRun.list_datasets DemoRun.inspect_dataset
                  DemoRun.fails_at_length DemoRun.fails_at_length "q" 1 [] []
                  DemoRun.v_load (PStr "load") "load_csv" [] (DemoRun.start [])
                  eq_refl eq_refl eq_refl eq_refl eq_refl eq_refl)).
Defined.
